(** * Session lifecycle, handoff and dual-backend storage of the web
      connection server: a shallow embedding and its verification.

    The development follows the source files:
    - [Js]          the fragment of JavaScript value semantics the code relies on
                    (truthiness, [||], [!== false], [Boolean], [parseInt]);
    - [Sanitize]    the credential-name sanitisation of the MongoDB adapter;
    - [Mongo]       the MongoDB adapter (sessions and auth_baileys collections);
    - [Postgres]    the PostgreSQL adapter (users table);
    - [Coordinator] the SessionStorage coordinator over both adapters;
    - [Manager]     the SessionManager: registries, flag sets, the
                    connection.update state machine, handoff and cleanup. *)

From Stdlib Require Import ZArith List String Ascii Bool Lia Sorted Permutation.
From stdpp Require Import base gmap strings.
Import ListNotations.

Set Warnings "-clear-no-such-hyp".

Local Open Scope string_scope.
Local Open Scope Z_scope.

(* ===================================================================== *)
(** ** JavaScript values                                                  *)
(* ===================================================================== *)

Module Js.

(** The primitive values that flow through session records.  A [Date] is an
    object (always truthy); its payload is the time in milliseconds. *)
Inductive jsval : Type :=
| JUndefined
| JNull
| JBool (b : bool)
| JNum (n : Z)
| JNaN
| JStr (s : string)
| JDate (t : Z).

#[global] Instance jsval_eq_dec : EqDecision jsval.
Proof. solve_decision. Defined.

(** ToBoolean. *)
Definition truthy (v : jsval) : bool :=
  match v with
  | JUndefined | JNull | JNaN => false
  | JBool b => b
  | JNum n => negb (n =? 0)
  | JStr s => negb (String.eqb s "")
  | JDate _ => true
  end.

(** [a || b] *)
Definition js_or (a b : jsval) : jsval := if truthy a then a else b.

(** [v !== false] (strict inequality: only the boolean false is equal to false) *)
Definition neq_false (v : jsval) : bool :=
  match v with
  | JBool false => false
  | _ => true
  end.

(** [v !== undefined] *)
Definition defined (v : jsval) : bool :=
  match v with
  | JUndefined => false
  | _ => true
  end.

(** [a === b] on primitives; two Date objects are compared by identity in
    JavaScript, which no code path here does, so they are never equal;
    NaN is not equal to itself. *)
Definition strict_eq (a b : jsval) : bool :=
  match a, b with
  | JUndefined, JUndefined => true
  | JNull, JNull => true
  | JBool x, JBool y => Bool.eqb x y
  | JNum x, JNum y => x =? y
  | JStr x, JStr y => String.eqb x y
  | _, _ => false
  end.

(** Characters skipped by [parseInt] before the number (the ASCII part of
    the StrWhiteSpaceChar class). *)
Definition is_space (c : ascii) : bool :=
  let n := nat_of_ascii c in
  ((n =? 32) || (n =? 9) || (n =? 10) || (n =? 11) || (n =? 12) || (n =? 13))%nat.

Definition digit_of (c : ascii) : option Z :=
  let n := Z.of_nat (nat_of_ascii c) in
  if (48 <=? n) && (n <=? 57) then Some (n - 48) else None.

Definition hexdigit_of (c : ascii) : option Z :=
  let n := Z.of_nat (nat_of_ascii c) in
  if (48 <=? n) && (n <=? 57) then Some (n - 48)
  else if (97 <=? n) && (n <=? 102) then Some (n - 87)
  else if (65 <=? n) && (n <=? 70) then Some (n - 55)
  else None.

Fixpoint skip_spaces (s : string) : string :=
  match s with
  | String c r => if is_space c then skip_spaces r else s
  | EmptyString => s
  end.

(** Longest prefix of digits in the given radix, accumulated left to right;
    [None] when the prefix is empty. *)
Fixpoint digits_prefix (dig : ascii -> option Z) (radix : Z)
         (s : string) (acc : option Z) : option Z :=
  match s with
  | String c r =>
      match dig c with
      | Some d =>
          digits_prefix dig radix r
            (Some (match acc with Some a => a * radix + d | None => d end))
      | None => acc
      end
  | EmptyString => acc
  end.

Definition parse_unsigned (s : string) : option Z :=
  match s with
  | String "0" (String "x" r) | String "0" (String "X" r) =>
      digits_prefix hexdigit_of 16 r None
  | _ => digits_prefix digit_of 10 s None
  end.

(** [parseInt(String(v))] without a radix; [None] is NaN.  A number is taken
    as an integer printed in decimal (magnitudes below 1e21). *)
Definition parseInt (v : jsval) : option Z :=
  match v with
  | JStr s =>
      match skip_spaces s with
      | String "-" r => option_map Z.opp (parse_unsigned r)
      | String "+" r => parse_unsigned r
      | t => parse_unsigned t
      end
  | JNum n => Some n
  | _ => None
  end.

(** [Boolean(v)] *)
Definition Boolean (v : jsval) : jsval := JBool (truthy v).

End Js.
Import Js.

(* ===================================================================== *)
(** ** Credential-name sanitisation                                       *)
(* ===================================================================== *)

Module Sanitize.

(** [s.replace(/::/g, "__")]: non-overlapping matches, left to right. *)
Fixpoint replace_dcolon (s : string) : string :=
  match s with
  | String ":" (String ":" r) => String "_" (String "_" (replace_dcolon r))
  | String c r => String c (replace_dcolon r)
  | EmptyString => EmptyString
  end.

(** [s.replace(/<c>/g, "<d>")] for a one-character pattern. *)
Fixpoint replace_char (c d : ascii) (s : string) : string :=
  match s with
  | String x r => String (if Ascii.eqb x c then d else x) (replace_char c d r)
  | EmptyString => EmptyString
  end.

(** The chain used by both [readAuthData] and [writeAuthData]. *)
Definition sanitize (fileName : string) : string :=
  replace_char "\" "_"
    (replace_char "/" "_"
       (replace_char ":" "-"
          (replace_dcolon fileName))).

End Sanitize.

(* ===================================================================== *)
(** ** Session objects                                                    *)
(* ===================================================================== *)

Module Obj.

(** A JavaScript object carrying session properties: the [sessionData]
    and [updates] arguments and the objects the adapters return.  A property
    that the object does not have reads as [undefined]. *)
Record sdata : Type := mkSdata {
  sessionId : jsval;
  userId : jsval;
  telegramId : jsval;
  phoneNumber : jsval;
  isConnected : jsval;
  connectionStatus : jsval;
  reconnectAttempts : jsval;
  source : jsval;
  detected : jsval;
  createdAt : jsval;
  updatedAt : jsval
}.

(** The object literal [{}]. *)
Definition empty_obj : sdata :=
  mkSdata JUndefined JUndefined JUndefined JUndefined JUndefined JUndefined
          JUndefined JUndefined JUndefined JUndefined JUndefined.

End Obj.
Import Obj.

(** Ordering by a timestamp, most recent first ([.sort({ updatedAt: -1 })]
    and [ORDER BY updated_at DESC]): insertion into a list kept in descending
    order; entries with equal keys keep their stored order. *)
Fixpoint insert_desc {A : Type} (key : A -> Z) (x : A) (l : list A) : list A :=
  match l with
  | y :: r => if key y <? key x then x :: l else y :: insert_desc key x r
  | [] => [x]
  end.

Definition sort_desc {A : Type} (key : A -> Z) (l : list A) : list A :=
  List.fold_right (insert_desc key) [] l.

(* ===================================================================== *)
(** ** MongoDB adapter                                                    *)
(* ===================================================================== *)

Module Mongo.

(** A document of the [sessions] collection, as [saveSession] writes it. *)
Record doc : Type := mkDoc {
  d_sessionId : string;
  d_telegramId : jsval;
  d_phoneNumber : jsval;
  d_isConnected : jsval;
  d_connectionStatus : jsval;
  d_reconnectAttempts : jsval;
  d_source : jsval;
  d_detected : jsval;
  d_createdAt : jsval;
  d_updatedAt : Z
}.

(** A document of the [auth_baileys] collection. *)
Record adoc : Type := mkAdoc {
  a_sessionId : string;
  a_filename : string;
  a_datajson : jsval;
  a_updatedAt : Z
}.

(** The adapter object together with the database behind it.  [failing]
    stands for a driver whose commands throw (network loss, server error);
    every method catches and degrades. *)
Record t : Type := mkT {
  connected : bool;          (* this.isConnected *)
  has_authBaileys : bool;    (* this.authBaileys is not null *)
  failing : bool;
  sessions : list doc;
  auth : list adoc;
  retryCount : Z
}.

Definition set_sessions (m : t) (l : list doc) : t :=
  mkT (connected m) (has_authBaileys m) (failing m) l (auth m) (retryCount m).

Definition set_auth (m : t) (l : list adoc) : t :=
  mkT (connected m) (has_authBaileys m) (failing m) (sessions m) l (retryCount m).

Definition maxRetries : Z := 3.

(** The delay before the next connection attempt in [_initConnection]:
    [Math.min(30000, 5000 * Math.pow(2, retryCount - 1))], for the already
    incremented [retryCount >= 1]. *)
Definition retry_delay (retryCount : Z) : Z :=
  Z.min 30000 (5000 * 2 ^ (retryCount - 1)).

(** The catch branch of [_initConnection]: the adapter is marked
    disconnected and, below [maxRetries], a retry is scheduled with the
    returned delay. *)
Definition initConnection_failed (m : t) : t * option Z :=
  let m0 := mkT false (has_authBaileys m) (failing m) (sessions m) (auth m) (retryCount m) in
  if retryCount m <? maxRetries then
    let rc := retryCount m + 1 in
    (mkT false (has_authBaileys m) (failing m) (sessions m) (auth m) rc,
     Some (retry_delay rc))
  else (m0, None).

(** The success path of [_initConnection]. *)
Definition initConnection_ok (m : t) : t :=
  mkT true true (failing m) (sessions m) (auth m) 0.

(** [findOne({ sessionId })] *)
Fixpoint findOne (sid : string) (l : list doc) : option doc :=
  match l with
  | d :: r => if String.eqb (d_sessionId d) sid then Some d else findOne sid r
  | [] => None
  end.

(** Rewrite the first document matching [{ sessionId }] with [f]; [None]
    when nothing matches. *)
Fixpoint modify_first (sid : string) (f : doc -> doc) (l : list doc)
  : option (list doc) :=
  match l with
  | d :: r =>
      if String.eqb (d_sessionId d) sid then Some (f d :: r)
      else option_map (cons d) (modify_first sid f r)
  | [] => None
  end.

(** [replaceOne({ sessionId }, document, { upsert: true })] *)
Definition replaceOne_upsert (sid : string) (d : doc) (l : list doc) : list doc :=
  match modify_first sid (fun _ => d) l with
  | Some l' => l'
  | None => l ++ [d]
  end.

(** [deleteOne({ sessionId })]; [None] when nothing matches. *)
Fixpoint deleteOne (sid : string) (l : list doc) : option (list doc) :=
  match l with
  | d :: r =>
      if String.eqb (d_sessionId d) sid then Some r
      else option_map (cons d) (deleteOne sid r)
  | [] => None
  end.

(** The driver serialises an [undefined] property as BSON null. *)
Definition bson (v : jsval) : jsval :=
  match v with
  | JUndefined => JNull
  | _ => v
  end.

Definition saveSession (now : Z) (sid : string) (sessionData : sdata) (m : t)
  : t * bool :=
  if negb (connected m) then (m, false)
  else if failing m then (m, false)
  else
    let document :=
      {| d_sessionId := sid;
         d_telegramId := bson (js_or (telegramId sessionData) (userId sessionData));
         d_phoneNumber := bson (phoneNumber sessionData);
         d_isConnected :=
           if defined (isConnected sessionData) then isConnected sessionData
           else JBool false;
         d_connectionStatus := js_or (connectionStatus sessionData) (JStr "disconnected");
         d_reconnectAttempts := js_or (reconnectAttempts sessionData) (JNum 0);
         d_source := js_or (source sessionData) (JStr "web");
         d_detected := JBool (neq_false (detected sessionData));
         d_createdAt := js_or (createdAt sessionData) (JDate now);
         d_updatedAt := now |} in
    (set_sessions m (replaceOne_upsert sid document (sessions m)), true).

(** The object built from a stored document by [getSession] and
    [getAllSessions]. *)
Definition to_session (session : doc) : sdata :=
  {| sessionId := JStr (d_sessionId session);
     userId := d_telegramId session;
     telegramId := d_telegramId session;
     phoneNumber := d_phoneNumber session;
     isConnected := d_isConnected session;
     connectionStatus := d_connectionStatus session;
     reconnectAttempts := d_reconnectAttempts session;
     source := js_or (d_source session) (JStr "web");
     detected := JBool (neq_false (d_detected session));
     createdAt := d_createdAt session;
     updatedAt := JDate (d_updatedAt session) |}.

Definition getSession (sid : string) (m : t) : option sdata :=
  if negb (connected m) then None
  else if failing m then None
  else option_map to_session (findOne sid (sessions m)).

(** The [$set] of [updateSession]: the allowed fields that are not
    [undefined] in [updates], and a fresh [updatedAt]. *)
Definition apply_updates (now : Z) (updates : sdata) (d : doc) : doc :=
  let pick (u old : jsval) := if defined u then u else old in
  {| d_sessionId := d_sessionId d;
     d_telegramId := d_telegramId d;
     d_phoneNumber := pick (phoneNumber updates) (d_phoneNumber d);
     d_isConnected := pick (isConnected updates) (d_isConnected d);
     d_connectionStatus := pick (connectionStatus updates) (d_connectionStatus d);
     d_reconnectAttempts := pick (reconnectAttempts updates) (d_reconnectAttempts d);
     d_source := pick (source updates) (d_source d);
     d_detected := pick (detected updates) (d_detected d);
     d_createdAt := d_createdAt d;
     d_updatedAt := now |}.

Definition updateSession (now : Z) (sid : string) (updates : sdata) (m : t)
  : t * bool :=
  if negb (connected m) then (m, false)
  else if failing m then (m, false)
  else
    match modify_first sid (apply_updates now updates) (sessions m) with
    | Some l' => (set_sessions m l', true)
    | None => (m, false)
    end.

Definition deleteSession (sid : string) (m : t) : t * bool :=
  if negb (connected m) then (m, false)
  else if failing m then (m, false)
  else
    match deleteOne sid (sessions m) with
    | Some l' => (set_sessions m l', true)
    | None => (m, false)
    end.

Definition auth_of (sid : string) (a : adoc) : bool := String.eqb (a_sessionId a) sid.

(** [deleteMany({ sessionId })] on [auth_baileys]. *)
Definition deleteAuthState (sid : string) (m : t) : t * bool :=
  if negb (connected m) || negb (has_authBaileys m) then (m, false)
  else if failing m then (m, false)
  else
    let kept := List.filter (fun a => negb (auth_of sid a)) (auth m) in
    let deletedCount := (length (auth m) - length kept)%nat in
    (set_auth m kept, (0 <? deletedCount)%nat).

Definition auth_match (sid name : string) (a : adoc) : bool :=
  String.eqb (a_sessionId a) sid && String.eqb (a_filename a) name.

Definition readAuthData (sid fileName : string) (m : t) : jsval :=
  if negb (connected m) || negb (has_authBaileys m) then JNull
  else if failing m then JNull
  else
    let sanitized := Sanitize.sanitize fileName in
    match List.find (auth_match sid sanitized) (auth m) with
    | Some result => if truthy (a_datajson result) then a_datajson result else JNull
    | None => JNull
    end.

(** [updateOne(filter, { $set: ... }, { upsert: true })] on [auth_baileys]. *)
Fixpoint auth_upsert (sid name : string) (a : adoc) (l : list adoc) : list adoc :=
  match l with
  | x :: r => if auth_match sid name x then a :: r else x :: auth_upsert sid name a r
  | [] => [a]
  end.

Definition writeAuthData (now : Z) (sid fileName : string) (data : jsval) (m : t)
  : t * bool :=
  if negb (connected m) || negb (has_authBaileys m) then (m, false)
  else if failing m then (m, false)
  else
    let sanitized := Sanitize.sanitize fileName in
    (set_auth m (auth_upsert sid sanitized (mkAdoc sid sanitized data now) (auth m)),
     true).

Definition getAllAuthFiles (sid : string) (m : t) : list string :=
  if negb (connected m) || negb (has_authBaileys m) then []
  else if failing m then []
  else List.map a_filename (List.filter (auth_of sid) (auth m)).

Definition getAllSessions (m : t) : list sdata :=
  if negb (connected m) then []
  else if failing m then []
  else List.map to_session (sort_desc d_updatedAt (sessions m)).

(** [close()]: the client exists once a connection was attempted, which the
    constructor always does. *)
Definition close (m : t) : t :=
  if connected m && negb (failing m)
  then mkT false (has_authBaileys m) (failing m) (sessions m) (auth m) (retryCount m)
  else m.

End Mongo.

(* ===================================================================== *)
(** ** PostgreSQL adapter                                                 *)
(* ===================================================================== *)

Module Postgres.

(** A row of the [users] table.  The table definition is not part of the
    sources; the columns are those the queries name, [telegram_id] is the
    conflict target of the upsert, and the two columns filled through
    [parseInt] hold integers (a NaN parameter makes the query fail). *)
Record row : Type := mkRow {
  telegram_id : Z;
  session_id : option string;
  phone_number : jsval;
  is_connected : jsval;
  connection_status : jsval;
  reconnect_attempts : jsval;
  r_source : jsval;
  r_detected : jsval;
  created_at : Z;
  updated_at : Z
}.

Record t : Type := mkT {
  connected : bool;     (* this.isConnected *)
  failing : bool;       (* pool.query throws *)
  users : list row
}.

Definition set_users (p : t) (l : list row) : t :=
  mkT (connected p) (failing p) l.

(** A query parameter: the driver sends [undefined] as NULL. *)
Definition param (v : jsval) : jsval :=
  match v with
  | JUndefined => JNull
  | _ => v
  end.

(** [COALESCE(a, b)] *)
Definition coalesce (a b : jsval) : jsval :=
  match a with
  | JNull => b
  | _ => a
  end.

(** The [ON CONFLICT (telegram_id) DO UPDATE] upsert. *)
Fixpoint upsert (now : Z) (new : row) (l : list row) : list row :=
  match l with
  | r :: rest =>
      if telegram_id r =? telegram_id new then
        {| telegram_id := telegram_id r;
           session_id := session_id new;
           phone_number := coalesce (phone_number new) (phone_number r);
           is_connected := is_connected new;
           connection_status := connection_status new;
           reconnect_attempts := reconnect_attempts new;
           r_source := r_source new;
           r_detected := r_detected new;
           created_at := created_at r;
           updated_at := now |} :: rest
      else r :: upsert now new rest
  | [] => [new]
  end.

Definition saveSession (now : Z) (sid : string) (sessionData : sdata) (p : t)
  : t * bool :=
  if negb (connected p) then (p, false)
  else if failing p then (p, false)
  else
    match parseInt (js_or (telegramId sessionData) (userId sessionData)),
          parseInt (js_or (reconnectAttempts sessionData) (JNum 0)) with
    | Some tid, Some attempts =>
        let new :=
          {| telegram_id := tid;
             session_id := Some sid;
             phone_number := param (phoneNumber sessionData);
             is_connected := Boolean (isConnected sessionData);
             connection_status := js_or (connectionStatus sessionData) (JStr "disconnected");
             reconnect_attempts := JNum attempts;
             r_source := js_or (source sessionData) (JStr "web");
             r_detected := Boolean (JBool (neq_false (detected sessionData)));
             created_at := now;
             updated_at := now |} in
        (set_users p (upsert now new (users p)), true)
    | _, _ => (p, false)
    end.

Definition has_session (sid : string) (r : row) : bool :=
  match session_id r with
  | Some s => String.eqb s sid
  | None => false
  end.

(** The object built from a row by [getSession] and [getAllSessions]. *)
Definition to_session (r : row) : sdata :=
  {| sessionId := match session_id r with Some s => JStr s | None => JNull end;
     userId := JNum (telegram_id r);
     telegramId := JNum (telegram_id r);
     phoneNumber := phone_number r;
     isConnected := is_connected r;
     connectionStatus := js_or (connection_status r) (JStr "disconnected");
     reconnectAttempts := js_or (reconnect_attempts r) (JNum 0);
     source := js_or (r_source r) (JStr "web");
     detected := JBool (neq_false (r_detected r));
     createdAt := JDate (created_at r);
     updatedAt := JDate (updated_at r) |}.

Definition getSession (sid : string) (p : t) : option sdata :=
  if negb (connected p) then None
  else if failing p then None
  else option_map to_session (List.find (has_session sid) (users p)).

(** The SET list of [updateSession], in the order the code builds it:
    each entry is a column update; [None] when no column is updated. *)
Definition set_parts (updates : sdata) : list (row -> row) :=
  (if defined (isConnected updates)
   then [fun r => {| telegram_id := telegram_id r; session_id := session_id r;
                     phone_number := phone_number r;
                     is_connected := Boolean (isConnected updates);
                     connection_status := connection_status r;
                     reconnect_attempts := reconnect_attempts r;
                     r_source := r_source r; r_detected := r_detected r;
                     created_at := created_at r; updated_at := updated_at r |}]
   else []) ++
  (if truthy (connectionStatus updates)
   then [fun r => {| telegram_id := telegram_id r; session_id := session_id r;
                     phone_number := phone_number r;
                     is_connected := is_connected r;
                     connection_status := connectionStatus updates;
                     reconnect_attempts := reconnect_attempts r;
                     r_source := r_source r; r_detected := r_detected r;
                     created_at := created_at r; updated_at := updated_at r |}]
   else []) ++
  (if defined (phoneNumber updates)
   then [fun r => {| telegram_id := telegram_id r; session_id := session_id r;
                     phone_number := phoneNumber updates;
                     is_connected := is_connected r;
                     connection_status := connection_status r;
                     reconnect_attempts := reconnect_attempts r;
                     r_source := r_source r; r_detected := r_detected r;
                     created_at := created_at r; updated_at := updated_at r |}]
   else []) ++
  (if defined (reconnectAttempts updates)
   then [fun r => {| telegram_id := telegram_id r; session_id := session_id r;
                     phone_number := phone_number r;
                     is_connected := is_connected r;
                     connection_status := connection_status r;
                     reconnect_attempts := reconnectAttempts updates;
                     r_source := r_source r; r_detected := r_detected r;
                     created_at := created_at r; updated_at := updated_at r |}]
   else []) ++
  (if defined (detected updates)
   then [fun r => {| telegram_id := telegram_id r; session_id := session_id r;
                     phone_number := phone_number r;
                     is_connected := is_connected r;
                     connection_status := connection_status r;
                     reconnect_attempts := reconnect_attempts r;
                     r_source := r_source r;
                     r_detected := Boolean (detected updates);
                     created_at := created_at r; updated_at := updated_at r |}]
   else []).

Definition touch (now : Z) (r : row) : row :=
  {| telegram_id := telegram_id r; session_id := session_id r;
     phone_number := phone_number r; is_connected := is_connected r;
     connection_status := connection_status r;
     reconnect_attempts := reconnect_attempts r;
     r_source := r_source r; r_detected := r_detected r;
     created_at := created_at r; updated_at := now |}.

(** An integer column accepts an integer or NULL. *)
Definition int_param_ok (v : jsval) : bool :=
  match v with
  | JNum _ | JNull => true
  | _ => false
  end.

Definition updateSession (now : Z) (sid : string) (updates : sdata) (p : t)
  : t * bool :=
  if negb (connected p) then (p, false)
  else if failing p then (p, false)
  else
    let parts := set_parts updates in
    if (0 <? length parts)%nat then
      if defined (reconnectAttempts updates)
         && negb (int_param_ok (reconnectAttempts updates))
      then (p, false)
      else
        let upd (r : row) :=
          if has_session sid r
          then touch now (List.fold_left (fun acc f => f acc) parts r)
          else r in
        let rowCount := length (List.filter (has_session sid) (users p)) in
        (set_users p (List.map upd (users p)), (0 <? rowCount)%nat)
    else (p, false).

Definition completelyDeleteSession (sid : string) (p : t) : t * bool :=
  if negb (connected p) then (p, false)
  else if failing p then (p, false)
  else
    let rowCount := length (List.filter (has_session sid) (users p)) in
    (set_users p (List.filter (fun r => negb (has_session sid r)) (users p)),
     (0 <? rowCount)%nat).

Definition session_not_null (r : row) : bool :=
  match session_id r with
  | Some _ => true
  | None => false
  end.

Definition getAllSessions (p : t) : list sdata :=
  if negb (connected p) then []
  else if failing p then []
  else List.map to_session
         (sort_desc updated_at (List.filter session_not_null (users p))).

Definition close (p : t) : t :=
  if connected p && negb (failing p) then mkT false (failing p) (users p) else p.

End Postgres.

(* ===================================================================== *)
(** ** Storage coordinator                                                *)
(* ===================================================================== *)

Module Coordinator.

(** The [SessionStorage] object: one adapter of each kind. *)
Record t : Type := mkT {
  mongoStorage : Mongo.t;
  postgresStorage : Postgres.t
}.

Definition isMongoConnected (s : t) : bool := Mongo.connected (mongoStorage s).
Definition isPostgresConnected (s : t) : bool := Postgres.connected (postgresStorage s).
Definition isConnected (s : t) : bool := isMongoConnected s || isPostgresConnected s.

Definition saveSession (now : Z) (sid : string) (sessionData : sdata) (s : t)
  : t * bool :=
  let '(m1, saved) :=
    if Mongo.connected (mongoStorage s)
    then Mongo.saveSession now sid sessionData (mongoStorage s)
    else (mongoStorage s, false) in
  let '(p1, saved) :=
    if Postgres.connected (postgresStorage s)
    then
      let '(p1, pgSaved) := Postgres.saveSession now sid sessionData (postgresStorage s) in
      (p1, saved || pgSaved)
    else (postgresStorage s, saved) in
  (mkT m1 p1, saved).

(** [sessionData.detected !== false] and the other defaults. *)
Definition _formatSessionData (sessionData : sdata) : sdata :=
  {| sessionId := sessionId sessionData;
     userId := js_or (userId sessionData) (telegramId sessionData);
     telegramId := js_or (telegramId sessionData) (userId sessionData);
     phoneNumber := phoneNumber sessionData;
     Obj.isConnected := Boolean (Obj.isConnected sessionData);
     connectionStatus := js_or (connectionStatus sessionData) (JStr "disconnected");
     reconnectAttempts := js_or (reconnectAttempts sessionData) (JNum 0);
     source := js_or (source sessionData) (JStr "web");
     detected := JBool (neq_false (detected sessionData));
     createdAt := createdAt sessionData;
     updatedAt := updatedAt sessionData |}.

Definition getSession (sid : string) (s : t) : option sdata :=
  let sessionData :=
    if Mongo.connected (mongoStorage s)
    then Mongo.getSession sid (mongoStorage s)
    else None in
  let sessionData :=
    match sessionData with
    | Some d => Some d
    | None =>
        if Postgres.connected (postgresStorage s)
        then Postgres.getSession sid (postgresStorage s)
        else None
    end in
  option_map _formatSessionData sessionData.

(** [updates.updatedAt = new Date()] is written into the argument before it
    is handed to the adapters. *)
Definition stamp (now : Z) (updates : sdata) : sdata :=
  {| sessionId := sessionId updates;
     userId := userId updates;
     telegramId := telegramId updates;
     phoneNumber := phoneNumber updates;
     Obj.isConnected := Obj.isConnected updates;
     connectionStatus := connectionStatus updates;
     reconnectAttempts := reconnectAttempts updates;
     source := source updates;
     detected := detected updates;
     createdAt := createdAt updates;
     updatedAt := JDate now |}.

Definition updateSession (now : Z) (sid : string) (updates : sdata) (s : t)
  : t * bool :=
  let updates := stamp now updates in
  let '(m1, updated) :=
    if Mongo.connected (mongoStorage s)
    then Mongo.updateSession now sid updates (mongoStorage s)
    else (mongoStorage s, false) in
  let '(p1, updated) :=
    if Postgres.connected (postgresStorage s)
    then
      let '(p1, pgUpdated) := Postgres.updateSession now sid updates (postgresStorage s) in
      (p1, updated || pgUpdated)
    else (postgresStorage s, updated) in
  (mkT m1 p1, updated).

(** [Promise.allSettled] over the deletes that were started; the adapters
    never reject, so success is the disjunction of their results. *)
Definition completelyDeleteSession (sid : string) (s : t) : t * bool :=
  let '(m2, mongoResults) :=
    if Mongo.connected (mongoStorage s)
    then
      let '(m1, r1) := Mongo.deleteSession sid (mongoStorage s) in
      let '(m2, r2) := Mongo.deleteAuthState sid m1 in
      (m2, [r1; r2])
    else (mongoStorage s, []) in
  let '(p1, pgResults) :=
    if Postgres.connected (postgresStorage s)
    then
      let '(p1, r) := Postgres.completelyDeleteSession sid (postgresStorage s) in
      (p1, [r])
    else (postgresStorage s, []) in
  (mkT m2 p1, existsb (fun r => r) (mongoResults ++ pgResults)).

Definition getAllSessions (s : t) : list sdata :=
  let sessions :=
    if Postgres.connected (postgresStorage s)
    then Postgres.getAllSessions (postgresStorage s)
    else if Mongo.connected (mongoStorage s)
    then Mongo.getAllSessions (mongoStorage s)
    else [] in
  List.map _formatSessionData sessions.

Definition close (s : t) : t :=
  mkT (Mongo.close (mongoStorage s)) (Postgres.close (postgresStorage s)).

End Coordinator.

(* ===================================================================== *)
(** ** Session manager                                                    *)
(* ===================================================================== *)

Module Manager.

(** *** Objects borrowed from the connection provider *)

(** A reference to a socket object: the closures of the manager, its
    registry and its timers all hold the same object. *)
Definition handle : Type := nat.

(** [lastDisconnect.error]: the two properties the handler reads through
    optional chaining ([undefined] when a link of the chain is missing). *)
Record error : Type := mkError {
  statusCode : jsval;    (* error.output?.statusCode *)
  message : jsval        (* error.output?.payload?.message *)
}.

(** The [callbacks] object; a member is the identity of the function or is
    absent. *)
Record callbacks : Type := mkCallbacks {
  onConnected : option nat;
  onError : option nat
}.

(** [sock.user]. *)
Record jsuser : Type := mkUser { id : option string }.

(** [sock.ws]: the [OPEN] property and [socket._readyState] of the
    underlying transport ([None] when [ws.socket] is missing). *)
Record wsT : Type := mkWs {
  OPEN : jsval;
  socket_readyState : option jsval
}.

(** [sock.ev]: the event emitter; a listener on [connection.update] is the
    closure [_setupConnectionHandler] built, known by what it captured. *)
Record evT : Type := mkEv {
  buffering : bool;
  listeners : list (string * callbacks)
}.

Record sock : Type := mkSock {
  user : option jsuser;
  readyState : jsval;
  ws : option wsT;
  ev : option evT;
  connectionCallbacks : option callbacks
}.

(** What the provider's [createConnection] can do. *)
Inductive conn_result : Type :=
| ConnSock (s : sock)
| ConnNull
| ConnThrow.

(** The answers of the provider that a call of [createSession] consumes:
    whether [checkAuthAvailability(...).preferred !== 'none'], and the
    outcome of [createConnection]. *)
Record oracle : Type := mkOracle {
  auth_present : bool;
  conn : conn_result
}.

(** *** State of a manager instance and of its surroundings *)

(** Modelled from the spec: the [SessionState] class of sessions/state.js is
    not part of the sources.  The spec describes it as the in-process
    mapping sessionId -> {ownerId, phoneNumber, source, isConnected,
    connectionStatus, callback set}; the manager calls its [set], [update],
    [delete] and [get]. *)
Record sstate : Type := mkSstate {
  ss_userId : string;
  ss_phoneNumber : jsval;
  ss_source : string;
  ss_isConnected : bool;
  ss_connectionStatus : string;
  ss_callbacks : callbacks
}.

(** A pending [setTimeout]: what its closure captured, and the delay. *)
Inductive timer : Type :=
| THandoff (sid : string) (h : handle) (delay : Z)
| TReconnect (sid : string) (cbs : callbacks) (delay : Z).

(** What the manager does, in the order it happens: the calls that leave
    it (callbacks of the caller, the provider, the socket object) and the
    marking of a session as handed off, whose place among those calls the
    handoff protocol fixes. *)
Inductive event : Type :=
| EvConnected (fn : nat)                         (* callbacks.onConnected() *)
| EvError (fn : nat) (err : option error)        (* callbacks.onError(lastDisconnect?.error) *)
| EvCheckAuth (sid : string)
| EvCreateConnection (sid : string) (phone : jsval) (cbs : callbacks) (allowPairing : bool)
| EvCleanupAuthState (sid : string)
| EvHandoffMarked (sid : string)                 (* this.handoffComplete.add(sessionId) *)
| EvFlush (h : handle)                           (* sock.ev.flush() *)
| EvRemoveAllListeners (h : handle)              (* sock.ev.removeAllListeners() *)
| EvWsClose (h : handle) (code : Z) (reason : string)   (* sock.ws.close(code, reason) *)
| EvSleep (ms : Z).

Record world : Type := mkWorld {
  heap : gmap nat sock;
  next_handle : nat;
  activeSockets : gmap string nat;
  sessionState : gmap string sstate;
  initializingSessions : gset string;
  voluntarilyDisconnected : gset string;
  handoffComplete : gset string;
  storage : Coordinator.t;
  timers : list timer;
  trace : list event;
  clock : Z;
  maxSessions : nat;
  handoffTimeout : Z
}.

(** The constructor: empty registries, [maxSessions = 300],
    [handoffTimeout = 15000]. *)
Definition new_manager (st : Coordinator.t) (now : Z) : world :=
  {| heap := ∅; next_handle := 0%nat;
     activeSockets := ∅; sessionState := ∅;
     initializingSessions := ∅; voluntarilyDisconnected := ∅; handoffComplete := ∅;
     storage := st; timers := []; trace := []; clock := now;
     maxSessions := 300%nat; handoffTimeout := 15000 |}.

(** Field updates. *)
Definition with_heap (f : gmap nat sock -> gmap nat sock) (w : world) : world :=
  mkWorld (f (heap w)) (next_handle w) (activeSockets w) (sessionState w)
          (initializingSessions w) (voluntarilyDisconnected w) (handoffComplete w)
          (storage w) (timers w) (trace w) (clock w) (maxSessions w) (handoffTimeout w).

Definition with_next_handle (n : nat) (w : world) : world :=
  mkWorld (heap w) n (activeSockets w) (sessionState w)
          (initializingSessions w) (voluntarilyDisconnected w) (handoffComplete w)
          (storage w) (timers w) (trace w) (clock w) (maxSessions w) (handoffTimeout w).

Definition with_activeSockets (f : gmap string nat -> gmap string nat) (w : world) : world :=
  mkWorld (heap w) (next_handle w) (f (activeSockets w)) (sessionState w)
          (initializingSessions w) (voluntarilyDisconnected w) (handoffComplete w)
          (storage w) (timers w) (trace w) (clock w) (maxSessions w) (handoffTimeout w).

Definition with_sessionState (f : gmap string sstate -> gmap string sstate) (w : world) : world :=
  mkWorld (heap w) (next_handle w) (activeSockets w) (f (sessionState w))
          (initializingSessions w) (voluntarilyDisconnected w) (handoffComplete w)
          (storage w) (timers w) (trace w) (clock w) (maxSessions w) (handoffTimeout w).

Definition with_initializing (f : gset string -> gset string) (w : world) : world :=
  mkWorld (heap w) (next_handle w) (activeSockets w) (sessionState w)
          (f (initializingSessions w)) (voluntarilyDisconnected w) (handoffComplete w)
          (storage w) (timers w) (trace w) (clock w) (maxSessions w) (handoffTimeout w).

Definition with_voluntarily (f : gset string -> gset string) (w : world) : world :=
  mkWorld (heap w) (next_handle w) (activeSockets w) (sessionState w)
          (initializingSessions w) (f (voluntarilyDisconnected w)) (handoffComplete w)
          (storage w) (timers w) (trace w) (clock w) (maxSessions w) (handoffTimeout w).

Definition with_handoff (f : gset string -> gset string) (w : world) : world :=
  mkWorld (heap w) (next_handle w) (activeSockets w) (sessionState w)
          (initializingSessions w) (voluntarilyDisconnected w) (f (handoffComplete w))
          (storage w) (timers w) (trace w) (clock w) (maxSessions w) (handoffTimeout w).

Definition with_storage (st : Coordinator.t) (w : world) : world :=
  mkWorld (heap w) (next_handle w) (activeSockets w) (sessionState w)
          (initializingSessions w) (voluntarilyDisconnected w) (handoffComplete w)
          st (timers w) (trace w) (clock w) (maxSessions w) (handoffTimeout w).

(** [setTimeout(...)]: the timer joins the pending ones. *)
Definition setTimeout (t : timer) (w : world) : world :=
  mkWorld (heap w) (next_handle w) (activeSockets w) (sessionState w)
          (initializingSessions w) (voluntarilyDisconnected w) (handoffComplete w)
          (storage w) (timers w ++ [t]) (trace w) (clock w) (maxSessions w) (handoffTimeout w).

Definition emit (e : event) (w : world) : world :=
  mkWorld (heap w) (next_handle w) (activeSockets w) (sessionState w)
          (initializingSessions w) (voluntarilyDisconnected w) (handoffComplete w)
          (storage w) (timers w) (trace w ++ [e]) (clock w) (maxSessions w) (handoffTimeout w).

(** Time passes between two turns of the event loop. *)
Definition advance (ms : Z) (w : world) : world :=
  mkWorld (heap w) (next_handle w) (activeSockets w) (sessionState w)
          (initializingSessions w) (voluntarilyDisconnected w) (handoffComplete w)
          (storage w) (timers w) (trace w) (clock w + ms) (maxSessions w) (handoffTimeout w).

(** *** Storage and provider calls made by the manager *)

Definition storage_updateSession (sid : string) (updates : sdata) (w : world) : world :=
  with_storage (fst (Coordinator.updateSession (clock w) sid updates (storage w))) w.

Definition storage_saveSession (sid : string) (data : sdata) (w : world) : world :=
  with_storage (fst (Coordinator.saveSession (clock w) sid data (storage w))) w.

(** Modelled from the spec: [ConnectionManager.cleanupAuthState] of
    core/connection.js is not part of the sources.  The spec gives
    [cleanupAuthState(sessionId) -> {<backend>: bool, ...}] and has it purge
    the credential blobs of the session; the manager hands the provider its
    own MongoDB adapter, whose [deleteAuthState] is that purge.  No
    file-based credential store is modelled: the [file] result is false. *)
Record auth_cleanup : Type := mkAuthCleanup { r_mongodb : bool; r_file : bool }.

Definition cleanupAuthState (sid : string) (w : world) : world * auth_cleanup :=
  let st := storage w in
  let '(m1, r) := Mongo.deleteAuthState sid (Coordinator.mongoStorage st) in
  (emit (EvCleanupAuthState sid)
     (with_storage (Coordinator.mkT m1 (Coordinator.postgresStorage st)) w),
   mkAuthCleanup r false).

(** *** Liveness of a handle *)

Definition ws_OPEN (s : sock) : jsval :=
  match ws s with
  | Some x => OPEN x
  | None => JUndefined
  end.

(** [sock.user && sock.readyState === sock.ws?.OPEN] *)
Definition sock_live (s : sock) : bool :=
  match user s with
  | Some _ => strict_eq (readyState s) (ws_OPEN s)
  | None => false
  end.

(** The same test on a reference; a missing object is not live. *)
Definition is_live (h : handle) (w : world) : bool :=
  match heap w !! h with
  | Some s => sock_live s
  | None => false
  end.

(** *** _cleanupSocketOnly *)

(** Transport-only teardown: flush when buffering, drop all listeners,
    close an open transport with code 1000, clear [user] and
    [connectionCallbacks].  Storage is never touched.  The close moves the
    transport's [_readyState] from OPEN (1) to CLOSING (2). *)
Definition _cleanupSocketOnly (sid : string) (h : handle) (w : world) : world * bool :=
  match heap w !! h with
  | None => (w, false)
  | Some s =>
      let '(ev1, w1) :=
        match ev s with
        | Some e =>
            if buffering e
            then (Some (mkEv false (listeners e)), emit (EvFlush h) w)
            else (Some e, w)
        | None => (None, w)
        end in
      let '(ev2, w2) :=
        match ev1 with
        | Some e => (Some (mkEv (buffering e) []), emit (EvRemoveAllListeners h) w1)
        | None => (None, w1)
        end in
      let '(ws2, w3) :=
        match ws s with
        | Some x =>
            match socket_readyState x with
            | Some rs =>
                if strict_eq rs (JNum 1)
                then (Some (mkWs (OPEN x) (Some (JNum 2))),
                      emit (EvWsClose h 1000 "Handoff to main server") w2)
                else (Some x, w2)
            | None => (Some x, w2)
            end
        | None => (None, w2)
        end in
      let s' := mkSock None (readyState s) ws2 ev2 None in
      (with_heap (insert h s') w3, true)
  end.

(** *** Registry operations *)

Definition registry_delete (sid : string) (w : world) : world :=
  with_sessionState (delete sid) (with_activeSockets (delete sid) w).

(** Modelled from the spec: [SessionState.update] merges the given
    properties into the entry of the session, when there is one. *)
Definition sessionState_update (sid : string) (isConn : bool) (status : string)
           (w : world) : world :=
  with_sessionState
    (alter (fun e => mkSstate (ss_userId e) (ss_phoneNumber e) (ss_source e)
                              isConn status (ss_callbacks e)) sid) w.

(** [callbacks.onError] is called when present. *)
Definition notify_error (cbs : callbacks) (err : option error) (w : world) : world :=
  match onError cbs with
  | Some fn => emit (EvError fn err) w
  | None => w
  end.

Definition notify_connected (cbs : callbacks) (w : world) : world :=
  match onConnected cbs with
  | Some fn => emit (EvConnected fn) w
  | None => w
  end.

(** The update objects the handlers write. *)
Definition upd_disconnected : sdata :=
  {| sessionId := JUndefined; userId := JUndefined; telegramId := JUndefined;
     phoneNumber := JUndefined;
     isConnected := JBool false; connectionStatus := JStr "disconnected";
     reconnectAttempts := JUndefined; source := JUndefined;
     detected := JUndefined; createdAt := JUndefined; updatedAt := JUndefined |}.

Definition upd_reconnecting : sdata :=
  {| sessionId := JUndefined; userId := JUndefined; telegramId := JUndefined;
     phoneNumber := JUndefined;
     isConnected := JBool false; connectionStatus := JStr "reconnecting";
     reconnectAttempts := JUndefined; source := JUndefined;
     detected := JBool false; createdAt := JUndefined; updatedAt := JUndefined |}.

Definition upd_connected (phone : jsval) : sdata :=
  {| sessionId := JUndefined; userId := JUndefined; telegramId := JUndefined;
     phoneNumber := phone;
     isConnected := JBool true; connectionStatus := JStr "connected";
     reconnectAttempts := JUndefined; source := JUndefined;
     detected := JBool false; createdAt := JUndefined; updatedAt := JUndefined |}.

(** [s.split('@')[0]] *)
Fixpoint before_at (s : string) : string :=
  match s with
  | String c r => if Ascii.eqb c "@" then EmptyString else String c (before_at r)
  | EmptyString => EmptyString
  end.

(** [sock.user?.id?.split('@')[0] || null] *)
Definition user_phone (s : sock) : jsval :=
  match user s with
  | Some u =>
      match id u with
      | Some i => js_or (JStr (before_at i)) JNull
      | None => JNull
      end
  | None => JNull
  end.

(** *** _handoffToMainServer *)

(** [this.handoffComplete.add(sessionId)], the first statement after the
    liveness test. *)
Definition mark_handed_off (sid : string) (w : world) : world :=
  emit (EvHandoffMarked sid) (with_handoff (union {[ sid ]}) w).

(** The protocol from the marking up to its only suspension point,
    [await this._cleanupSocketOnly(sessionId, sock)]: the marking, then the
    body of the teardown, which has no await of its own. *)
Definition handoff_begin (sid : string) (h : handle) (w : world) : world :=
  fst (_cleanupSocketOnly sid h (mark_handed_off sid w)).

(** The protocol after the await: the removal from the registries.
    [fault] stands for an exception raised inside the try block after the
    marker is set; the registry removal is the only step whose code lies
    outside this class.  The catch removes the marker and does nothing
    else: nothing is rescheduled. *)
Definition handoff_resume (fault : bool) (sid : string) (w : world) : world :=
  let w3 := with_activeSockets (delete sid) w in
  if fault then with_handoff (fun s => s ∖ {[ sid ]}) w3
  else with_sessionState (delete sid) w3.

Definition _handoffToMainServer (fault : bool) (sid : string) (h : handle)
           (w : world) : world :=
  if negb (is_live h w) then w
  else handoff_resume fault sid (handoff_begin sid h w).

(** *** The connection.update handler *)

Inductive connection : Type := COpen | CClose | COther.

(** The [update] argument; [lastDisconnect] is [lastDisconnect?.error]. *)
Record update : Type := mkUpdate {
  u_connection : connection;
  lastDisconnect : option error
}.

Definition status_of (u : update) : jsval :=
  match lastDisconnect u with
  | Some e => statusCode e
  | None => JUndefined
  end.

(** Marks the record disconnected, purges the credentials, tears the
    transport down and forgets the session (codes 401 and 428). *)
Definition close_with_purge (h : handle) (sid : string) (cbs : callbacks)
           (u : update) (w : world) : world :=
  let w1 := storage_updateSession sid upd_disconnected w in
  let w2 := fst (cleanupAuthState sid w1) in
  let w3 := fst (_cleanupSocketOnly sid h w2) in
  let w4 := registry_delete sid w3 in
  notify_error cbs (lastDisconnect u) w4.

Definition reconnect_delay : Z := 3000.

(** The handler that [_setupConnectionHandler] attaches to [sock.ev], run
    to completion for one event; [h] is the socket it was attached to. *)
Definition on_connection_update (h : handle) (sid : string) (cbs : callbacks)
           (u : update) (w : world) : world :=
  match u_connection u with
  | COpen =>
      let phone := match heap w !! h with Some s => user_phone s | None => JNull end in
      let w1 := storage_updateSession sid (upd_connected phone) w in
      let w2 := sessionState_update sid true "connected" w1 in
      let w3 := notify_connected cbs w2 in
      setTimeout (THandoff sid h (handoffTimeout w3)) w3
  | CClose =>
      if bool_decide (sid ∈ handoffComplete w) then w
      else if strict_eq (status_of u) (JNum 401) then close_with_purge h sid cbs u w
      else if strict_eq (status_of u) (JNum 515) then
        let w1 := storage_updateSession sid upd_reconnecting w in
        let w2 := notify_error cbs (lastDisconnect u) w1 in
        setTimeout (TReconnect sid cbs reconnect_delay) w2
      else if strict_eq (status_of u) (JNum 428) then close_with_purge h sid cbs u w
      else
        let w1 := storage_updateSession sid upd_disconnected w in
        let w2 := fst (_cleanupSocketOnly sid h w1) in
        let w3 := registry_delete sid w2 in
        notify_error cbs (lastDisconnect u) w3
  | COther => w
  end.

(** [_setupConnectionHandler]: [sock.ev.on('connection.update', ...)];
    [None] is the TypeError of a socket without an emitter. *)
Definition _setupConnectionHandler (h : handle) (sid : string) (cbs : callbacks)
           (w : world) : option world :=
  match heap w !! h with
  | Some s =>
      match ev s with
      | Some e =>
          let s' := mkSock (user s) (readyState s) (ws s)
                           (Some (mkEv (buffering e) (listeners e ++ [(sid, cbs)])))
                           (connectionCallbacks s) in
          Some (with_heap (insert h s') w)
      | None => None
      end
  | None => None
  end.

(** The provider hands over a new socket object. *)
Definition alloc (s : sock) (w : world) : handle * world :=
  let h := next_handle w in
  (h, with_next_handle (S h) (with_heap (insert h s) w)).

Definition set_connectionCallbacks (h : handle) (cbs : callbacks) (w : world) : world :=
  with_heap (alter (fun s => mkSock (user s) (readyState s) (ws s) (ev s) (Some cbs)) h) w.

(** The timer body of the 515 path, run when the backoff has elapsed;
    [c] is what [createConnection] answers if it gets called. *)
Definition reconnect_after_515 (c : conn_result) (sid : string) (cbs : callbacks)
           (w : world) : world :=
  let phone :=
    match Coordinator.getSession sid (storage w) with
    | Some session => phoneNumber session
    | None => JUndefined
    end in
  if negb (truthy phone) then storage_updateSession sid upd_disconnected w
  else
    let w1 := emit (EvCreateConnection sid phone cbs false) w in
    match c with
    | ConnSock s =>
        let '(h, w2) := alloc s w1 in
        let w3 := with_activeSockets (insert sid h) w2 in
        let w4 := set_connectionCallbacks h cbs w3 in
        match _setupConnectionHandler h sid cbs w4 with
        | Some w5 => w5
        | None => storage_updateSession sid upd_disconnected w4
        end
    | ConnNull => storage_updateSession sid upd_disconnected w1
    | ConnThrow => storage_updateSession sid upd_disconnected w1
    end.

(** Delivery of one event of a socket to the listeners attached to it. *)
Definition deliver (h : handle) (u : update) (w : world) : world :=
  match heap w !! h with
  | Some s =>
      match ev s with
      | Some e =>
          List.fold_left (fun acc l => on_connection_update h (fst l) (snd l) u acc)
                         (listeners e) w
      | None => w
      end
  | None => w
  end.

(** *** performCompleteUserCleanup and disconnectSession *)

Record cleanup_results : Type := mkResults {
  res_socket : bool;
  res_database : bool;
  res_authState : bool
}.

Definition performCompleteUserCleanup (sid : string) (w : world)
  : world * cleanup_results :=
  let '(w1, rsock) :=
    match activeSockets w !! sid with
    | Some h => _cleanupSocketOnly sid h w
    | None => (w, false)
    end in
  let w2 := registry_delete sid w1 in
  let w3 := with_initializing (fun s => s ∖ {[ sid ]}) w2 in
  let w4 := with_voluntarily (union {[ sid ]}) w3 in
  let w5 := with_handoff (fun s => s ∖ {[ sid ]}) w4 in
  let '(st, rdb) := Coordinator.completelyDeleteSession sid (storage w5) in
  let w6 := with_storage st w5 in
  let '(w7, ra) := cleanupAuthState sid w6 in
  (w7, mkResults rsock rdb (r_mongodb ra || r_file ra)).

Inductive disconnect_result : Type :=
| DForced (r : cleanup_results)
| DDone (ok : bool).

Definition disconnectSession (sid : string) (forceCleanup : bool) (w : world)
  : world * disconnect_result :=
  if forceCleanup then
    let '(w1, r) := performCompleteUserCleanup sid w in (w1, DForced r)
  else
    let w1 := with_initializing (fun s => s ∖ {[ sid ]}) w in
    let w2 := with_voluntarily (union {[ sid ]}) w1 in
    let w3 := with_handoff (fun s => s ∖ {[ sid ]}) w2 in
    let w4 :=
      match activeSockets w3 !! sid with
      | Some h => fst (_cleanupSocketOnly sid h w3)
      | None => w3
      end in
    let w5 := registry_delete sid w4 in
    (storage_updateSession sid upd_disconnected w5, DDone true).

(** *** createSession *)

(** [userIdStr.startsWith('session_') ? userIdStr : `session_${userIdStr}`] *)
Definition session_id_of (userIdStr : string) : string :=
  if String.prefix "session_" userIdStr then userIdStr
  else String.append "session_" userIdStr.

(** The arguments, [userId] already converted by [String(userId)]. *)
Record cs_args : Type := mkArgs {
  arg_userIdStr : string;
  arg_phoneNumber : jsval;
  arg_callbacks : callbacks;
  arg_isReconnect : bool;
  arg_source : string;
  arg_allowPairing : bool
}.

(** The defaults of the signature. *)
Definition default_args (userIdStr : string) : cs_args :=
  mkArgs userIdStr JNull (mkCallbacks None None) false "web" true.

(** What a call returns: a socket, [null], or [undefined] (a registry
    lookup that found nothing). *)
Inductive retval : Type :=
| RSock (h : handle)
| RNull
| RUndefined.

Inductive failure : Type :=
| ErrLimit (maxSessions : nat)    (* Maximum sessions limit (...) reached *)
| ErrCreateFailed                 (* Failed to create socket connection *)
| ErrProvider                     (* thrown by createConnection *)
| ErrType.                        (* TypeError on a socket without emitter *)

Inductive outcome : Type :=
| Returned (v : retval)
| Thrown (e : failure).

(** Where a call is suspended: each constructor is an [await] of the body,
    [CsStart] is the call not yet started, [CsDone] the settled promise. *)
Inductive cs_pc : Type :=
| CsStart
| CsAwaitDeadCleanup            (* await this._cleanupSocketOnly(...) *)
| CsAwaitAuthCheck              (* await checkAuthAvailability(...) *)
| CsAwaitSettle                 (* cleanup done, await the 1000 ms delay *)
| CsAwaitCreate                 (* await createConnection(...) *)
| CsAwaitSave (h : handle)      (* await this.storage.saveSession(...) *)
| CsDone (o : outcome).

(** The [finally] block. *)
Definition cs_finally (sid : string) (o : outcome) (w : world) : world * cs_pc :=
  (with_initializing (fun s => s ∖ {[ sid ]}) w, CsDone o).

Definition call_createConnection (a : cs_args) (w : world) : world * cs_pc :=
  let sid := session_id_of (arg_userIdStr a) in
  (emit (EvCreateConnection sid (arg_phoneNumber a) (arg_callbacks a) (arg_allowPairing a)) w,
   CsAwaitCreate).

(** From the session-limit check to the next [await]. *)
Definition cs_limit_and_mark (a : cs_args) (w : world) : world * cs_pc :=
  let sid := session_id_of (arg_userIdStr a) in
  if (maxSessions w <=? size (activeSockets w))%nat
  then cs_finally sid (Thrown (ErrLimit (maxSessions w))) w
  else
    let w1 := with_initializing (union {[ sid ]}) w in
    if negb (arg_isReconnect a) && arg_allowPairing a
    then (emit (EvCheckAuth sid) w1, CsAwaitAuthCheck)
    else call_createConnection a w1.

(** The record persisted for a new session. *)
Definition initial_record (a : cs_args) : sdata :=
  {| sessionId := JUndefined;
     userId := JStr (arg_userIdStr a);
     telegramId := JStr (arg_userIdStr a);
     phoneNumber := arg_phoneNumber a;
     isConnected := JBool false;
     connectionStatus := JStr "connecting";
     reconnectAttempts := JNum 0;
     source := JStr (arg_source a);
     detected := JBool false;
     createdAt := JUndefined;
     updatedAt := JUndefined |}.

(** One turn of a call: from where it is suspended to its next [await] (or
    to its end), the provider answering with [o] where an answer is
    awaited. *)
Definition cs_step (a : cs_args) (o : oracle) (pc : cs_pc) (w : world)
  : world * cs_pc :=
  let sid := session_id_of (arg_userIdStr a) in
  match pc with
  | CsStart =>
      if bool_decide (sid ∈ initializingSessions w) then
        cs_finally sid
          (Returned (match activeSockets w !! sid with
                     | Some h => RSock h
                     | None => RUndefined
                     end)) w
      else if bool_decide (sid ∈ handoffComplete w) then
        cs_finally sid (Returned RNull) w
      else
        match activeSockets w !! sid with
        | Some existingSocket =>
            if negb (arg_isReconnect a) then
              if is_live existingSocket w
              then cs_finally sid (Returned (RSock existingSocket)) w
              else (fst (_cleanupSocketOnly sid existingSocket w), CsAwaitDeadCleanup)
            else cs_limit_and_mark a w
        | None => cs_limit_and_mark a w
        end
  | CsAwaitDeadCleanup =>
      cs_limit_and_mark a (registry_delete sid w)
  | CsAwaitAuthCheck =>
      if auth_present o then
        let w1 := fst (performCompleteUserCleanup sid w) in
        (emit (EvSleep 1000) w1, CsAwaitSettle)
      else call_createConnection a w
  | CsAwaitSettle =>
      call_createConnection a w
  | CsAwaitCreate =>
      match conn o with
      | ConnThrow => cs_finally sid (Thrown ErrProvider) w
      | ConnNull => cs_finally sid (Thrown ErrCreateFailed) w
      | ConnSock s =>
          let '(h, w1) := alloc s w in
          let w2 := with_activeSockets (insert sid h) w1 in
          let w3 := set_connectionCallbacks h (arg_callbacks a) w2 in
          let w4 :=
            with_sessionState
              (insert sid (mkSstate (arg_userIdStr a) (arg_phoneNumber a)
                                    (arg_source a) false "connecting"
                                    (arg_callbacks a))) w3 in
          match _setupConnectionHandler h sid (arg_callbacks a) w4 with
          | Some w5 => (w5, CsAwaitSave h)
          | None => cs_finally sid (Thrown ErrType) w4
          end
      end
  | CsAwaitSave h =>
      cs_finally sid (Returned (RSock h)) (storage_saveSession sid (initial_record a) w)
  | CsDone r => (w, CsDone r)
  end.

(** A call that nothing interleaves with: turns are taken until the promise
    settles.  No path of the body has more than five awaits. *)
Fixpoint cs_run (fuel : nat) (a : cs_args) (o : oracle) (pc : cs_pc) (w : world)
  : world * cs_pc :=
  match fuel with
  | O => (w, pc)
  | S n =>
      match pc with
      | CsDone _ => (w, pc)
      | _ => let '(w1, pc1) := cs_step a o pc w in cs_run n a o pc1 w1
      end
  end.

Definition createSession (a : cs_args) (o : oracle) (w : world) : world * cs_pc :=
  cs_run 6 a o CsStart w.

(** *** Interleaved calls *)

(** Several calls in flight on the one event loop.  A schedule names, turn
    by turn, the call that resumes and what the provider answers it. *)
Definition pool : Type := list (cs_args * cs_pc).

Definition turn : Type := (nat * oracle)%type.

Definition pool_step (t : turn) (p : pool) (w : world) : pool * world :=
  match p !! fst t with
  | Some (a, pc) =>
      let '(w1, pc1) := cs_step a (snd t) pc w in
      (<[fst t := (a, pc1)]> p, w1)
  | None => (p, w)
  end.

Fixpoint pool_run (sched : list turn) (p : pool) (w : world) : pool * world :=
  match sched with
  | t :: r => let '(p1, w1) := pool_step t p w in pool_run r p1 w1
  | [] => (p, w)
  end.

(** The sockets the provider was asked for, and those the manager
    registered with a listener attached and still holds a closure on. *)
Definition created_for (sid : string) (w : world) : nat :=
  length (List.filter
            (fun e => match e with
                      | EvCreateConnection s _ _ _ => String.eqb s sid
                      | _ => false
                      end) (trace w)).

Definition listening_for (sid : string) (w : world) : list handle :=
  List.filter
    (fun h => match heap w !! h with
              | Some s =>
                  match ev s with
                  | Some e => existsb (fun l => String.eqb (fst l) sid) (listeners e)
                  | None => false
                  end
              | None => false
              end)
    (seq 0 (next_handle w)).

(** *** Queries *)

Definition getSession (sid : string) (w : world) : option handle :=
  activeSockets w !! sid.

Definition getAllSessions (w : world) : list sdata :=
  Coordinator.getAllSessions (storage w).

(** [session?.isConnected || false] *)
Definition isSessionConnected (sid : string) (w : world) : jsval :=
  match Coordinator.getSession sid (storage w) with
  | Some session => js_or (isConnected session) (JBool false)
  | None => JBool false
  end.

(** [!!(sock && sock.user && session?.isConnected)] *)
Definition isReallyConnected (sid : string) (w : world) : bool :=
  match activeSockets w !! sid with
  | Some h =>
      match heap w !! h with
      | Some s =>
          match user s with
          | Some _ =>
              match Coordinator.getSession sid (storage w) with
              | Some session => truthy (isConnected session)
              | None => false
              end
          | None => false
          end
      | None => false
      end
  | None => false
  end.

Definition isVoluntarilyDisconnected (sid : string) (w : world) : bool :=
  bool_decide (sid ∈ voluntarilyDisconnected w).

Definition clearVoluntaryDisconnection (sid : string) (w : world) : world :=
  with_voluntarily (fun s => s ∖ {[ sid ]}) w.

(** The number of credential blobs stored for a session. *)
Definition credential_count (sid : string) (w : world) : nat :=
  length (List.filter (Mongo.auth_of sid)
            (Mongo.auth (Coordinator.mongoStorage (storage w)))).

End Manager.

(* ===================================================================== *)
(** ** Observations used in the statements                                *)
(* ===================================================================== *)

(** The adapter can serve credential operations. *)
Definition mongo_up (m : Mongo.t) : Prop :=
  Mongo.connected m = true /\ Mongo.has_authBaileys m = true /\ Mongo.failing m = false.

(** A later write: time, session, file name, payload. *)
Definition auth_write : Type := (Z * string * string * jsval)%type.

Definition apply_write (m : Mongo.t) (x : auth_write) : Mongo.t :=
  let '(t, sid, name, d) := x in fst (Mongo.writeAuthData t sid name d m).

(** The key a write lands on differs from [(sid, sanitize name)]. *)
Definition other_key (sid name : string) (x : auth_write) : Prop :=
  let '(_, sid', name', _) := x in
  sid' <> sid \/ Sanitize.sanitize name' <> Sanitize.sanitize name.

(** An adapter that is connected to an empty database. *)
Definition mongo_empty : Mongo.t := Mongo.mkT true true false [] [] 0.

(** The value of [detected] as the coordinator reports it for a stored
    value: false for the boolean false, true for anything else. *)
Definition reported (v : jsval) : jsval :=
  if decide (v = JBool false) then JBool false else JBool true.

(** The stored [detected] of the record that a [getSession] reads: the
    MongoDB document when that backend serves one, else the PostgreSQL
    row. *)
Definition stored_detected (sid : string) (s : Coordinator.t) : option jsval :=
  let m := Coordinator.mongoStorage s in
  let p := Coordinator.postgresStorage s in
  match (if Mongo.connected m && negb (Mongo.failing m)
         then Mongo.findOne sid (Mongo.sessions m) else None) with
  | Some d => Some (Mongo.d_detected d)
  | None =>
      if Postgres.connected p && negb (Postgres.failing p)
      then option_map Postgres.r_detected
             (List.find (Postgres.has_session sid) (Postgres.users p))
      else None
  end.

(** The stored [detected] of the records that a [getAllSessions] lists, in
    the order it lists them. *)
Definition stored_detected_all (s : Coordinator.t) : list jsval :=
  let m := Coordinator.mongoStorage s in
  let p := Coordinator.postgresStorage s in
  if Postgres.connected p then
    if Postgres.failing p then []
    else List.map Postgres.r_detected
           (sort_desc Postgres.updated_at
              (List.filter Postgres.session_not_null (Postgres.users p)))
  else if Mongo.connected m then
    if Mongo.failing m then []
    else List.map Mongo.d_detected (sort_desc Mongo.d_updatedAt (Mongo.sessions m))
  else [].

(** The transport of a socket object is open: it has a [ws] with a
    [socket] whose [_readyState] is 1. *)
Definition transport_open (s : Manager.sock) : bool :=
  match Manager.ws s with
  | Some (Manager.mkWs _ (Some (JNum 1))) => true
  | _ => false
  end.

(** The calls a transport-only teardown makes on a socket object, in
    order: [flush] when the emitter is buffering, [removeAllListeners]
    when there is an emitter, [ws.close(1000, 'Handoff to main server')]
    when the transport is open. *)
Definition teardown_calls (h : Manager.handle) (s : Manager.sock)
  : list Manager.event :=
  ((match Manager.ev s with
    | Some e => (if Manager.buffering e then [Manager.EvFlush h] else [])
                ++ [Manager.EvRemoveAllListeners h]
    | None => []
    end)
   ++ (if transport_open s
       then [Manager.EvWsClose h 1000 "Handoff to main server"] else []))%list.

(** The same for a reference; nothing is called on a missing object. *)
Definition teardown_calls_at (h : Manager.handle) (w : Manager.world)
  : list Manager.event :=
  match Manager.heap w !! h with
  | Some s => teardown_calls h s
  | None => []
  end.

(** The socket object that a transport-only teardown leaves: identity and
    callbacks cleared; the emitter, when there is one, with no listener
    attached and nothing buffered; the transport, when it was open, closing
    ([_readyState] 2), else as it was; [readyState] as it was. *)
Definition after_teardown (s : Manager.sock) : Manager.sock :=
  Manager.mkSock None (Manager.readyState s)
    (option_map (fun x => if transport_open s
                          then Manager.mkWs (Manager.OPEN x) (Some (JNum 2))
                          else x)
                (Manager.ws s))
    (option_map (fun _ => Manager.mkEv false []) (Manager.ev s))
    None.

(** *** A sample run (Scenario A of the specification) *)

(** A socket as the provider hands it over: transport open, not yet
    paired, no listener. *)
Definition fresh_sock : Manager.sock :=
  Manager.mkSock None (JNum 1)
    (Some (Manager.mkWs (JNum 1) (Some (JNum 1))))
    (Some (Manager.mkEv false [])) None.

(** The provider fills in the identity when pairing succeeds. *)
Definition paired (h : Manager.handle) (uid : string) (w : Manager.world)
  : Manager.world :=
  Manager.with_heap
    (alter (fun s => Manager.mkSock (Some (Manager.mkUser (Some uid)))
                       (Manager.readyState s) (Manager.ws s) (Manager.ev s)
                       (Manager.connectionCallbacks s)) h) w.

Definition sample_callbacks : Manager.callbacks :=
  Manager.mkCallbacks (Some 1%nat) (Some 2%nat).

Definition sample_storage : Coordinator.t :=
  Coordinator.mkT mongo_empty (Postgres.mkT true false []).

Definition args_42 : Manager.cs_args :=
  Manager.mkArgs "42" (JStr "15550001") sample_callbacks false "web" true.

(** No stored credentials, and the provider returns [fresh_sock]. *)
Definition oracle_fresh : Manager.oracle :=
  Manager.mkOracle false (Manager.ConnSock fresh_sock).

Definition world_created : Manager.world :=
  fst (Manager.createSession args_42 oracle_fresh (Manager.new_manager sample_storage 0)).

Definition world_open : Manager.world :=
  Manager.deliver 0%nat (Manager.mkUpdate Manager.COpen None)
    (paired 0%nat "15550001@s.whatsapp.net" (Manager.advance 2000 world_created)).

Definition world_handed_off : Manager.world :=
  Manager._handoffToMainServer false "session_42" 0%nat
    (Manager.advance 15000 world_open).

(** The first call of the sample run, suspended at its first await. *)
Definition world_inflight : Manager.world :=
  fst (Manager.cs_step args_42 oracle_fresh Manager.CsStart
         (Manager.new_manager sample_storage 0)).

Definition args_42_reconnect : Manager.cs_args :=
  Manager.mkArgs "42" (JStr "15550001") sample_callbacks true "web" false.

(** A forced reconnect of the sample session, suspended at its first
    await: the handle created before is still the registered one. *)
Definition world_reconnect_inflight : Manager.world :=
  fst (Manager.cs_step args_42_reconnect oracle_fresh Manager.CsStart world_created).

(** What a registry lookup returns to the caller. *)
Definition registry_lookup (sid : string) (w : Manager.world) : Manager.retval :=
  match Manager.activeSockets w !! sid with
  | Some h => Manager.RSock h
  | None => Manager.RUndefined
  end.

(** Every record that can be read back for a session satisfies [P]. *)
Definition record_shows (sid : string) (st : Coordinator.t) (P : sdata -> Prop)
  : Prop :=
  forall r, Coordinator.getSession sid st = Some r -> P r.

Definition shows_status (b : bool) (status : string) (r : sdata) : Prop :=
  isConnected r = JBool b /\ connectionStatus r = JStr status.

(** An update object that sets the connection flag and a non-empty status
    and leaves [reconnectAttempts] out, as all updates of the manager do. *)
Definition status_update (u : sdata) (b : bool) (status : string) : Prop :=
  isConnected u = JBool b /\ connectionStatus u = JStr status
  /\ status <> "" /\ reconnectAttempts u = JUndefined.

(** The call of [callbacks.onError], when the caller gave one. *)
Definition error_notice (cbs : Manager.callbacks) (e : option Manager.error)
  : list Manager.event :=
  match Manager.onError cbs with
  | Some fn => [Manager.EvError fn e]
  | None => []
  end.

Definition world_mongo_up (w : Manager.world) : Prop :=
  mongo_up (Coordinator.mongoStorage (Manager.storage w)).

(** *** A second sample run (Scenario B): session_7, paired, with stored
    credentials. *)

Definition args_7 : Manager.cs_args :=
  Manager.mkArgs "7" (JStr "15550007") sample_callbacks false "web" true.

(** The provider stores credential blobs while pairing. *)
Definition provider_writes (sid : string) (blobs : list (string * jsval))
           (w : Manager.world) : Manager.world :=
  let st := Manager.storage w in
  Manager.with_storage
    (Coordinator.mkT
       (List.fold_left
          (fun m b => fst (Mongo.writeAuthData (Manager.clock w) sid (fst b) (snd b) m))
          blobs (Coordinator.mongoStorage st))
       (Coordinator.postgresStorage st)) w.

Definition world_7_open : Manager.world :=
  Manager.deliver 0%nat (Manager.mkUpdate Manager.COpen None)
    (paired 0%nat "15550007:3@s.whatsapp.net"
       (provider_writes "session_7"
          [("creds.json", JStr "{creds}"); ("pre-key-1", JStr "{key}")]
          (Manager.advance 2000
             (fst (Manager.createSession args_7 oracle_fresh
                     (Manager.new_manager sample_storage 0)))))).

Definition close_event (code : Z) : Manager.update :=
  Manager.mkUpdate Manager.CClose
    (Some (Manager.mkError (JNum code) (JStr "Connection Failure"))).

(** The identifier under which a stored record is listed. *)
Definition mongo_listed_id (d : Mongo.doc) : jsval := JStr (Mongo.d_sessionId d).

Definition postgres_listed_id (r : Postgres.row) : jsval :=
  match Postgres.session_id r with
  | Some s => JStr s
  | None => JNull
  end.

(** The phone number that the reconnect timer reads back
    ([session?.phoneNumber]). *)
Definition persisted_phone (sid : string) (w : Manager.world) : jsval :=
  match Coordinator.getSession sid (Manager.storage w) with
  | Some session => phoneNumber session
  | None => JUndefined
  end.

(** The handle is registered for the session and the state machine is
    attached to it: its socket carries the listener and the callbacks. *)
Definition registered_with_handler (sid : string) (cbs : Manager.callbacks)
           (h : Manager.handle) (w : Manager.world) : Prop :=
  Manager.activeSockets w !! sid = Some h
  /\ exists s e, Manager.heap w !! h = Some s
                 /\ Manager.ev s = Some e
                 /\ In (sid, cbs) (Manager.listeners e)
                 /\ Manager.connectionCallbacks s = Some cbs.

(** *** Interleaved calls of createSession for one session *)

Definition three_calls : Manager.pool :=
  [(args_42, Manager.CsStart); (args_42, Manager.CsStart); (args_42, Manager.CsStart)].

(** Call 0 starts and waits for the provider; call 1 arrives, finds the
    session initializing and returns; call 2 arrives after that; calls 0
    and 2 then run to their ends. *)
Definition race_schedule : list Manager.turn :=
  [(0%nat, oracle_fresh); (1%nat, oracle_fresh); (2%nat, oracle_fresh);
   (0%nat, oracle_fresh); (2%nat, oracle_fresh);
   (0%nat, oracle_fresh); (2%nat, oracle_fresh);
   (0%nat, oracle_fresh); (2%nat, oracle_fresh)].

(** Stored credentials exist: the provider reports them to the first call
    and, after that call has cleaned them up, no longer to the second. *)
Definition oracle_stale : Manager.oracle :=
  Manager.mkOracle true (Manager.ConnSock fresh_sock).

Definition two_calls : Manager.pool :=
  [(args_42, Manager.CsStart); (args_42, Manager.CsStart)].

(** Call 0 starts, cleans up the stale credentials and waits for the
    settling delay; call 1 arrives meanwhile; both run to their ends. *)
Definition stale_schedule : list Manager.turn :=
  [(0%nat, oracle_stale); (0%nat, oracle_stale);
   (1%nat, oracle_fresh); (1%nat, oracle_fresh);
   (0%nat, oracle_stale); (1%nat, oracle_fresh);
   (0%nat, oracle_stale); (1%nat, oracle_fresh);
   (0%nat, oracle_stale); (1%nat, oracle_fresh)].

(** Whether a character occurs in a string. *)
Fixpoint has_char (c : ascii) (s : string) : bool :=
  match s with
  | String x r => Ascii.eqb x c || has_char c r
  | EmptyString => false
  end.

(** A name without any of the characters the sanitisation rewrites. *)
Definition plain_name (s : string) : Prop :=
  has_char ":" s = false /\ has_char "/" s = false /\ has_char "\" s = false.

(** The time a listed record was last updated. *)
Definition time_of (v : jsval) : Z :=
  match v with
  | JDate t => t
  | _ => 0
  end.

(** The session identifiers stored in the MongoDB collection. *)
Definition mongo_ids (m : Mongo.t) : list string :=
  List.map Mongo.d_sessionId (Mongo.sessions m).

(** The adapter is connected and its driver answers. *)
Definition mongo_serving (m : Mongo.t) : Prop :=
  Mongo.connected m = true /\ Mongo.failing m = false.

Definition postgres_serving (p : Postgres.t) : Prop :=
  Postgres.connected p = true /\ Postgres.failing p = false.

(** An update object that carries nothing PostgreSQL writes: none of
    isConnected, phoneNumber, reconnectAttempts, detected, and no non-empty
    connectionStatus (it may carry [source]). *)
Definition nothing_for_postgres (u : sdata) : Prop :=
  isConnected u = JUndefined /\ truthy (connectionStatus u) = false
  /\ phoneNumber u = JUndefined /\ reconnectAttempts u = JUndefined
  /\ detected u = JUndefined.

(** The object [{ source: s }]. *)
Definition only_source (s : string) : sdata :=
  mkSdata JUndefined JUndefined JUndefined JUndefined JUndefined JUndefined
          JUndefined (JStr s) JUndefined JUndefined JUndefined.

(** No row of the users table belongs to the session. *)
Definition postgres_lacks (sid : string) (p : Postgres.t) : Prop :=
  forall r, In r (Postgres.users p) -> Postgres.session_id r <> Some sid.

(** A session created from an owner id that already carries the prefix:
    the id is not a number, which PostgreSQL needs for its key. *)
Definition args_prefixed : Manager.cs_args :=
  Manager.mkArgs "session_9" (JStr "15550009") sample_callbacks false "web" true.

Definition world_created_prefixed : Manager.world :=
  fst (Manager.createSession args_prefixed oracle_fresh
         (Manager.new_manager sample_storage 0)).

(** The credential blobs as stored, whether or not the backend is
    reachable. *)
Definition stored_credentials (w : Manager.world) : list Mongo.adoc :=
  Mongo.auth (Coordinator.mongoStorage (Manager.storage w)).

(** The call of [callbacks.onConnected], when the caller gave one. *)
Definition connected_notice (cbs : Manager.callbacks) : list Manager.event :=
  match Manager.onConnected cbs with
  | Some fn => [Manager.EvConnected fn]
  | None => []
  end.

(** A close event whose status code is none of 401, 515, 428 (or that
    carries no error at all). *)
Definition ordinary_close (u : Manager.update) : Prop :=
  Manager.u_connection u = Manager.CClose
  /\ strict_eq (Manager.status_of u) (JNum 401) = false
  /\ strict_eq (Manager.status_of u) (JNum 515) = false
  /\ strict_eq (Manager.status_of u) (JNum 428) = false.

(** The number of turns a call can still take from where it is
    suspended. *)
Definition turns_left (pc : Manager.cs_pc) : nat :=
  match pc with
  | Manager.CsStart => 6
  | Manager.CsAwaitDeadCleanup => 5
  | Manager.CsAwaitAuthCheck => 4
  | Manager.CsAwaitSettle => 3
  | Manager.CsAwaitCreate => 2
  | Manager.CsAwaitSave _ => 1
  | Manager.CsDone _ => 0
  end.

(** The guards of createSession let the call through: the session is
    neither initializing nor handed off and has no registered socket. *)
Definition fresh_session (sid : string) (w : Manager.world) : Prop :=
  (sid ∉ Manager.initializingSessions w)
  /\ (sid ∉ Manager.handoffComplete w)
  /\ Manager.activeSockets w !! sid = None.

(** The provider calls a creation makes when no stale credentials are
    found. *)
Definition creation_calls (a : Manager.cs_args) : list Manager.event :=
  let sid := Manager.session_id_of (Manager.arg_userIdStr a) in
  ((if negb (Manager.arg_isReconnect a) && Manager.arg_allowPairing a
    then [Manager.EvCheckAuth sid] else [])
   ++ [Manager.EvCreateConnection sid (Manager.arg_phoneNumber a)
         (Manager.arg_callbacks a) (Manager.arg_allowPairing a)])%list.

(** The second sample run after the connection to MongoDB was lost: the
    adapter is no longer connected, what it stored is still there. *)
Definition world_7_backend_down : Manager.world :=
  let st := Manager.storage world_7_open in
  let m := Coordinator.mongoStorage st in
  Manager.with_storage
    (Coordinator.mkT
       (Mongo.mkT false (Mongo.has_authBaileys m) (Mongo.failing m)
                  (Mongo.sessions m) (Mongo.auth m) (Mongo.retryCount m))
       (Coordinator.postgresStorage st))
    world_7_open.

(*OBS-END*)
(* ===================================================================== *)
(** * Verification                                                        *)
(* ===================================================================== *)

(** ** Storage coordinator: fan-out of writes *)

Section CoordinatorWrites.

Variables (now : Z) (sid : string) (data : sdata) (s : Coordinator.t).

Let m := Coordinator.mongoStorage s.
Let p := Coordinator.postgresStorage s.

(** C8.  saveSession and updateSession attempt the write on every connected
    backend (the state of a connected backend afterwards is the state its
    own adapter produced, whatever the other backend answered; a backend
    that is not connected is left alone), and the call succeeds if and only
    if at least one attempted backend accepted the write: it fails exactly
    when each backend is unreachable or rejected it. *)
Theorem coordinator_write_is_or_of_backends :
  (* saveSession *)
  (Coordinator.mongoStorage (fst (Coordinator.saveSession now sid data s))
     = (if Mongo.connected m then fst (Mongo.saveSession now sid data m) else m)
   /\ Coordinator.postgresStorage (fst (Coordinator.saveSession now sid data s))
     = (if Postgres.connected p then fst (Postgres.saveSession now sid data p) else p)
   /\ (snd (Coordinator.saveSession now sid data s) = true
       <-> (Mongo.connected m = true /\ snd (Mongo.saveSession now sid data m) = true)
           \/ (Postgres.connected p = true
               /\ snd (Postgres.saveSession now sid data p) = true))
   /\ (snd (Coordinator.saveSession now sid data s) = false
       <-> (Mongo.connected m = false \/ snd (Mongo.saveSession now sid data m) = false)
           /\ (Postgres.connected p = false
               \/ snd (Postgres.saveSession now sid data p) = false)))
  /\
  (* updateSession *)
  (let u := Coordinator.stamp now data in
   Coordinator.mongoStorage (fst (Coordinator.updateSession now sid data s))
     = (if Mongo.connected m then fst (Mongo.updateSession now sid u m) else m)
   /\ Coordinator.postgresStorage (fst (Coordinator.updateSession now sid data s))
     = (if Postgres.connected p then fst (Postgres.updateSession now sid u p) else p)
   /\ (snd (Coordinator.updateSession now sid data s) = true
       <-> (Mongo.connected m = true /\ snd (Mongo.updateSession now sid u m) = true)
           \/ (Postgres.connected p = true
               /\ snd (Postgres.updateSession now sid u p) = true))
   /\ (snd (Coordinator.updateSession now sid data s) = false
       <-> (Mongo.connected m = false \/ snd (Mongo.updateSession now sid u m) = false)
           /\ (Postgres.connected p = false
               \/ snd (Postgres.updateSession now sid u p) = false))).
Proof.
  subst m p. destruct s as [m p]; cbn [Coordinator.mongoStorage Coordinator.postgresStorage].
  split.
  - unfold Coordinator.saveSession; cbn [Coordinator.mongoStorage Coordinator.postgresStorage].
    destruct (Mongo.connected m) eqn:Hm, (Postgres.connected p) eqn:Hp;
      destruct (Mongo.saveSession now sid data m) as [m1 r1];
      destruct (Postgres.saveSession now sid data p) as [p1 r2];
      cbn; destruct r1, r2; cbn; intuition congruence.
  - unfold Coordinator.updateSession; cbn [Coordinator.mongoStorage Coordinator.postgresStorage].
    destruct (Mongo.connected m) eqn:Hm, (Postgres.connected p) eqn:Hp;
      destruct (Mongo.updateSession now sid (Coordinator.stamp now data) m) as [m1 r1];
      destruct (Postgres.updateSession now sid (Coordinator.stamp now data) p) as [p1 r2];
      cbn; destruct r1, r2; cbn; intuition congruence.
Qed.

End CoordinatorWrites.

(** ** Credential blobs: sanitised keys *)

Lemma mongo_up_write t sid name d m :
  mongo_up m -> mongo_up (fst (Mongo.writeAuthData t sid name d m)).
Proof.
  intros (Hc & Ha & Hf). unfold Mongo.writeAuthData.
  rewrite Hc, Ha, Hf. cbn. repeat split; assumption.
Qed.

Lemma find_auth_upsert_same sid k d t l :
  List.find (Mongo.auth_match sid k)
            (Mongo.auth_upsert sid k (Mongo.mkAdoc sid k d t) l)
  = Some (Mongo.mkAdoc sid k d t).
Proof.
  assert (Hself : Mongo.auth_match sid k (Mongo.mkAdoc sid k d t) = true).
  { unfold Mongo.auth_match; cbn. now rewrite !String.eqb_refl. }
  induction l as [|x r IH]; cbn.
  - now rewrite Hself.
  - destruct (Mongo.auth_match sid k x) eqn:Hx; cbn.
    + now rewrite Hself.
    + now rewrite Hx.
Qed.

Lemma auth_match_other sid k sid' k' d t :
  sid' <> sid \/ k' <> k ->
  Mongo.auth_match sid k (Mongo.mkAdoc sid' k' d t) = false.
Proof.
  intros H. unfold Mongo.auth_match; cbn.
  destruct (String.eqb_spec sid' sid), (String.eqb_spec k' k); cbn; try reflexivity.
  destruct H; contradiction.
Qed.

Lemma auth_match_both sid k sid' k' x :
  Mongo.auth_match sid k x = true -> Mongo.auth_match sid' k' x = true ->
  sid' = sid /\ k' = k.
Proof.
  unfold Mongo.auth_match. intros H1 H2.
  apply andb_prop in H1 as [A1 B1]. apply andb_prop in H2 as [A2 B2].
  apply String.eqb_eq in A1, B1, A2, B2. split; congruence.
Qed.

Lemma find_auth_upsert_other sid k sid' k' d t l :
  sid' <> sid \/ k' <> k ->
  List.find (Mongo.auth_match sid k)
            (Mongo.auth_upsert sid' k' (Mongo.mkAdoc sid' k' d t) l)
  = List.find (Mongo.auth_match sid k) l.
Proof.
  intros Hne. induction l as [|x r IH]; cbn.
  - now rewrite auth_match_other.
  - destruct (Mongo.auth_match sid' k' x) eqn:Hx; cbn.
    + rewrite auth_match_other by assumption.
      destruct (Mongo.auth_match sid k x) eqn:Hy; [|reflexivity].
      destruct (auth_match_both _ _ _ _ _ Hy Hx) as [-> ->].
      destruct Hne; contradiction.
    + destruct (Mongo.auth_match sid k x); [reflexivity | exact IH].
Qed.

Lemma read_after_other_writes sid name (others : list auth_write) :
  Forall (other_key sid name) others ->
  forall m, mongo_up m ->
  Mongo.readAuthData sid name (List.fold_left apply_write others m)
  = Mongo.readAuthData sid name m.
Proof.
  induction 1 as [|x r Hx Hr IH]; intros m Hup; [reflexivity|].
  cbn [List.fold_left]. destruct x as [[[t sid'] name'] d'].
  unfold apply_write at 2. rewrite IH by now apply mongo_up_write.
  destruct Hup as (Hc & Ha & Hf).
  unfold Mongo.readAuthData, Mongo.writeAuthData. rewrite Hc, Ha, Hf. cbn.
  rewrite Hc, Ha, Hf. cbn.
  now rewrite find_auth_upsert_other.
Qed.

(** C9 (as amended).  Sanitisation is not injective, so isolation holds
    between names whose sanitised keys differ: a payload written under a
    name is what a read under that name returns, whatever was written
    afterwards under keys other than its own (another session, or a name
    with a different sanitised key).  The payload is a non-empty value, as
    the blobs are; the adapter is connected. *)
Theorem auth_write_read_isolated :
  forall (now : Z) (sid name : string) (data : jsval) (m : Mongo.t)
         (others : list auth_write),
    mongo_up m ->
    truthy data = true ->
    Forall (other_key sid name) others ->
    Mongo.readAuthData sid name
      (List.fold_left apply_write others
         (fst (Mongo.writeAuthData now sid name data m)))
    = data.
Proof.
  intros now sid name data m others Hup Hd Hothers.
  rewrite read_after_other_writes by (auto using mongo_up_write).
  destruct Hup as (Hc & Ha & Hf).
  unfold Mongo.readAuthData, Mongo.writeAuthData. rewrite Hc, Ha, Hf. cbn.
  rewrite Hc, Ha, Hf. cbn.
  rewrite find_auth_upsert_same. cbn. now rewrite Hd.
Qed.

Lemma auth_write_read_isolated_witness :
  Mongo.readAuthData "session_7" "creds.json"
    (List.fold_left apply_write
       [(2, "session_7", "pre-key-1", JStr "{k}"); (3, "session_8", "creds.json", JStr "{o}")]
       (fst (Mongo.writeAuthData 1 "session_7" "creds.json" (JStr "{c}") mongo_empty)))
  = JStr "{c}".
Proof.
  apply (auth_write_read_isolated 1 "session_7" "creds.json" (JStr "{c}") mongo_empty).
  - repeat split; reflexivity.
  - reflexivity.
  - constructor; [right; discriminate|].
    constructor; [left; discriminate|].
    constructor.
Defined.

(** C9 (counterexample).  Two different names share one sanitised key, and
    a write under the second replaces what a read under the first returns. *)
Lemma sanitize_collision :
  "a/b" <> "a_b"
  /\ Sanitize.sanitize "a/b" = Sanitize.sanitize "a_b"
  /\ Mongo.readAuthData "session_7" "a/b"
       (fst (Mongo.writeAuthData 2 "session_7" "a_b" (JStr "second")
          (fst (Mongo.writeAuthData 1 "session_7" "a/b" (JStr "first") mongo_empty))))
     = JStr "second".
Proof. split; [discriminate|]. split; reflexivity. Qed.

(** ** The detected flag on reads and on MongoDB saves *)

Lemma findOne_modify_first sid f l :
  (forall d, String.eqb (Mongo.d_sessionId d) sid = true ->
             String.eqb (Mongo.d_sessionId (f d)) sid = true) ->
  forall l', Mongo.modify_first sid f l = Some l' ->
  Mongo.findOne sid l' = option_map f (Mongo.findOne sid l).
Proof.
  intros Hf. induction l as [|d r IH]; cbn; intros l' H; [discriminate|].
  destruct (String.eqb (Mongo.d_sessionId d) sid) eqn:E.
  - injection H as <-. cbn. now rewrite (Hf _ E).
  - destruct (Mongo.modify_first sid f r) as [r'|] eqn:Hr; [|discriminate].
    injection H as <-. cbn. rewrite E. now apply IH.
Qed.

Lemma modify_first_none sid f l :
  Mongo.modify_first sid f l = None <-> Mongo.findOne sid l = None.
Proof.
  induction l as [|d r IH]; cbn; [tauto|].
  destruct (String.eqb (Mongo.d_sessionId d) sid); [split; discriminate|].
  destruct (Mongo.modify_first sid f r); cbn.
  - split; [discriminate|]. intros H. apply IH in H. discriminate.
  - split; [|reflexivity]. intros _. now apply IH.
Qed.

Lemma findOne_app_miss sid l d :
  Mongo.findOne sid l = None ->
  Mongo.findOne sid (l ++ [d])
  = if String.eqb (Mongo.d_sessionId d) sid then Some d else None.
Proof.
  induction l as [|x r IH]; cbn; [reflexivity|].
  destruct (String.eqb (Mongo.d_sessionId x) sid); [discriminate|exact IH].
Qed.

Lemma findOne_replaceOne_upsert sid d l :
  Mongo.d_sessionId d = sid ->
  Mongo.findOne sid (Mongo.replaceOne_upsert sid d l) = Some d.
Proof.
  intros Hd. unfold Mongo.replaceOne_upsert.
  destruct (Mongo.modify_first sid (fun _ => d) l) as [l'|] eqn:H.
  - pose proof H as H'. apply findOne_modify_first in H'.
    + rewrite H'. destruct (Mongo.findOne sid l) eqn:F; [reflexivity|].
      apply modify_first_none with (f := fun _ => d) in F. congruence.
    + intros _ _. rewrite Hd. apply String.eqb_refl.
  - apply modify_first_none in H. rewrite findOne_app_miss by assumption.
    now rewrite Hd, String.eqb_refl.
Qed.

Lemma reported_neq_false v : JBool (neq_false v) = reported v.
Proof.
  unfold reported. destruct (decide (v = JBool false)) as [->|Hv]; [reflexivity|].
  destruct v as [| |[]| | | |]; try reflexivity. contradiction.
Qed.

Lemma reported_twice v : reported (reported v) = reported v.
Proof. unfold reported. repeat case_decide; congruence. Qed.

(** C10.  A record read back through the coordinator's getSession or
    getAllSessions shows detected = true unless the stored value is exactly
    the boolean false (an absent field, null, or any other value reads as
    true); and when the MongoDB adapter accepts a save, the document it
    stores has detected = true unless the input carried exactly the boolean
    false, so an input that omits the field is stored as detected. *)
Theorem detected_defaults_to_true :
  forall (sid : string) (s : Coordinator.t) (now : Z) (data : sdata) (m : Mongo.t),
    (forall d, detected (Coordinator._formatSessionData d) = reported (detected d))
    /\ reported JUndefined = JBool true
    /\ option_map detected (Coordinator.getSession sid s)
       = option_map reported (stored_detected sid s)
    /\ List.map detected (Coordinator.getAllSessions s)
       = List.map reported (stored_detected_all s)
    /\ (snd (Mongo.saveSession now sid data m) = true ->
        option_map Mongo.d_detected
          (Mongo.findOne sid (Mongo.sessions (fst (Mongo.saveSession now sid data m))))
        = Some (reported (detected data))).
Proof.
  intros sid s now data m.
  split; [intros d; cbn; apply reported_neq_false|].
  split; [reflexivity|].
  split; [|split].
  - destruct s as [mm pp].
    unfold Coordinator.getSession, stored_detected, Mongo.getSession, Postgres.getSession;
      cbn [Coordinator.mongoStorage Coordinator.postgresStorage].
    destruct (Mongo.connected mm), (Mongo.failing mm); cbn;
      try destruct (Mongo.findOne sid (Mongo.sessions mm)) as [d|]; cbn;
      try (destruct (Mongo.d_detected d) as [| |[]| | | |]; reflexivity);
      destruct (Postgres.connected pp), (Postgres.failing pp); cbn;
      try destruct (List.find (Postgres.has_session sid) (Postgres.users pp)) as [r|]; cbn;
      try reflexivity;
      destruct (Postgres.r_detected r) as [| |[]| | | |]; reflexivity.
  - destruct s as [mm pp].
    unfold Coordinator.getAllSessions, stored_detected_all, Mongo.getAllSessions,
      Postgres.getAllSessions;
      cbn [Coordinator.mongoStorage Coordinator.postgresStorage].
    destruct (Postgres.connected pp), (Postgres.failing pp),
             (Mongo.connected mm), (Mongo.failing mm); cbn; try reflexivity;
      rewrite !List.map_map; apply List.map_ext; intros a; cbn.
    all: first [ destruct (Postgres.r_detected a) as [| |[]| | | |]; reflexivity
               | destruct (Mongo.d_detected a) as [| |[]| | | |]; reflexivity ].
  - unfold Mongo.saveSession.
    destruct (Mongo.connected m); cbn; [|discriminate].
    destruct (Mongo.failing m); cbn; [discriminate|]. intros _.
    rewrite findOne_replaceOne_upsert by reflexivity. cbn.
    now rewrite reported_neq_false.
Qed.

(** A save that omits [detected], on a connected adapter. *)
Lemma detected_defaults_to_true_witness :
  option_map Mongo.d_detected
    (Mongo.findOne "session_42"
       (Mongo.sessions (fst (Mongo.saveSession 5 "session_42" empty_obj mongo_empty))))
  = Some (JBool true).
Proof.
  apply (proj2 (proj2 (proj2 (proj2
    (detected_defaults_to_true "session_42" (Coordinator.mkT mongo_empty (Postgres.mkT false false []))
       5 empty_obj mongo_empty))))).
  reflexivity.
Defined.

(** ** Session manager: transport-only teardown *)

Import Manager.

(** Reduction of the field updates of a world, and nothing else. *)
Ltac wsimpl :=
  cbn [fst snd heap next_handle activeSockets sessionState initializingSessions
       voluntarilyDisconnected handoffComplete storage timers trace clock
       maxSessions handoffTimeout
       with_heap with_next_handle with_activeSockets with_sessionState
       with_initializing with_voluntarily with_handoff with_storage
       setTimeout emit advance registry_delete] in *.

Ltac cleanup_cases :=
  unfold _cleanupSocketOnly;
  repeat match goal with
         | |- context [match heap ?w !! ?h with _ => _ end] =>
             destruct (heap w !! h) as [?s|] eqn:?Hheap
         | |- context [match ev ?s with _ => _ end] =>
             destruct (ev s) as [?e|] eqn:?Hev
         | |- context [if buffering ?e then _ else _] =>
             destruct (buffering e) eqn:?Hbuf
         | |- context [match ws ?s with _ => _ end] =>
             destruct (ws s) as [?x|] eqn:?Hws
         | |- context [match socket_readyState ?x with _ => _ end] =>
             destruct (socket_readyState x) as [?rs|] eqn:?Hrs
         | |- context [if strict_eq ?a ?b then _ else _] =>
             destruct (strict_eq a b) eqn:?Hopen
         end;
  wsimpl.

Lemma cleanup_frame sid h w :
  let w' := fst (_cleanupSocketOnly sid h w) in
  storage w' = storage w /\ timers w' = timers w
  /\ activeSockets w' = activeSockets w /\ sessionState w' = sessionState w
  /\ initializingSessions w' = initializingSessions w
  /\ voluntarilyDisconnected w' = voluntarilyDisconnected w
  /\ handoffComplete w' = handoffComplete w
  /\ clock w' = clock w /\ next_handle w' = next_handle w
  /\ maxSessions w' = maxSessions w /\ handoffTimeout w' = handoffTimeout w.
Proof. cleanup_cases; repeat split; reflexivity. Qed.

Lemma insert_as_alter (f : sock -> sock) (h : nat) (s : sock) (m : gmap nat sock) :
  m !! h = Some s -> <[h := f s]> m = alter f h m.
Proof.
  intros Hs. apply map_eq. intros k. destruct (decide (k = h)) as [->|Hne].
  - now rewrite lookup_insert_eq, lookup_alter_eq, Hs.
  - now rewrite lookup_insert_ne, lookup_alter_ne by congruence.
Qed.

Lemma alter_absent (f : sock -> sock) (h : nat) (m : gmap nat sock) :
  m !! h = None -> alter f h m = m.
Proof.
  intros Hs. apply map_eq. intros k. destruct (decide (k = h)) as [->|Hne].
  - now rewrite lookup_alter_eq, Hs.
  - now rewrite lookup_alter_ne by congruence.
Qed.

Lemma strict_eq_one v : strict_eq v (JNum 1) = true <-> v = JNum 1.
Proof.
  split; [|intros ->; reflexivity].
  destruct v as [| | |z| | |]; cbn; try discriminate.
  intros H. apply Z.eqb_eq in H. now subst.
Qed.

Lemma transport_open_spec s x :
  ws s = Some x ->
  transport_open s
  = match socket_readyState x with
    | Some rs => strict_eq rs (JNum 1)
    | None => false
    end.
Proof.
  intros Hx. unfold transport_open. rewrite Hx. destruct x as [o [rs|]]; cbn; [|reflexivity].
  destruct (strict_eq rs (JNum 1)) eqn:E.
  - apply strict_eq_one in E. now subst.
  - destruct rs as [| | |z| | |]; try reflexivity.
    destruct z as [|[q|q|]|q]; try reflexivity. discriminate E.
Qed.

(** The teardown, exactly: the socket object becomes [after_teardown] of
    itself, and the calls made are [teardown_calls], in that order. *)
Lemma cleanup_exact sid h w :
  let w' := fst (_cleanupSocketOnly sid h w) in
  heap w' = alter after_teardown h (heap w)
  /\ trace w' = (trace w ++ teardown_calls_at h w)%list.
Proof.
  cbv zeta. unfold _cleanupSocketOnly, teardown_calls_at.
  destruct (heap w !! h) as [s|] eqn:Hs.
  - assert (Hgoal : forall s' evs w3,
               s' = after_teardown s ->
               heap w3 = heap w -> trace w3 = (trace w ++ evs)%list ->
               evs = teardown_calls h s ->
               heap (with_heap (insert h s') w3) = alter after_teardown h (heap w)
               /\ trace (with_heap (insert h s') w3)
                  = (trace w ++ teardown_calls h s)%list).
    { intros s' evs w3 -> Hh Ht ->. wsimpl. rewrite Hh, Ht.
      split; [now apply insert_as_alter|reflexivity]. }
    assert (Hopen_none : ws s = None -> transport_open s = false)
      by (intros Hn; unfold transport_open; now rewrite Hn).
    destruct (ev s) as [e|] eqn:Hev; [destruct (buffering e) eqn:Hbuf|];
      (destruct (ws s) as [x|] eqn:Hws;
       [pose proof (transport_open_spec s x Hws) as Hto;
        destruct (socket_readyState x) as [rs|] eqn:Hrs;
        [destruct (strict_eq rs (JNum 1)) eqn:Hopen|]
       |pose proof (Hopen_none eq_refl) as Hto]);
      cbn [fst buffering listeners];
      (eapply Hgoal;
       [ unfold after_teardown; rewrite Hev, Hws, Hto; cbn [option_map];
         try rewrite Hbuf; try (destruct x; cbn in *; subst); reflexivity
       | reflexivity
       | wsimpl; rewrite <- ?List.app_assoc; cbn [app];
         first [reflexivity | symmetry; apply List.app_nil_r]
       | unfold teardown_calls; rewrite Hev, Hto; try rewrite Hbuf; cbn [app];
         rewrite ?List.app_nil_r; reflexivity ]).
  - cbn [fst]. rewrite List.app_nil_r. split; [|reflexivity].
    symmetry. now apply alter_absent.
Qed.

Lemma cleanup_heap_same sid h w s :
  heap w !! h = Some s ->
  heap (fst (_cleanupSocketOnly sid h w)) !! h = Some (after_teardown s).
Proof.
  intros Hs. destruct (cleanup_exact sid h w) as [Hh _]. rewrite Hh.
  now rewrite lookup_alter_eq, Hs.
Qed.

Lemma cleanup_heap_other sid h w h' :
  h' <> h ->
  heap (fst (_cleanupSocketOnly sid h w)) !! h' = heap w !! h'.
Proof.
  intros Hne. cleanup_cases; rewrite ?lookup_insert_ne by congruence; reflexivity.
Qed.

Lemma cleanup_result sid h w :
  snd (_cleanupSocketOnly sid h w) = bool_decide (is_Some (heap w !! h)).
Proof.
  cleanup_cases; symmetry;
    first [ apply bool_decide_eq_true; eexists; reflexivity
          | apply bool_decide_eq_false; intros [? ?]; discriminate ].
Qed.

(** ** Session manager: handoff and stale close events *)

Lemma on_close_handed_off h sid cbs u w :
  u_connection u = CClose ->
  sid ∈ handoffComplete w ->
  on_connection_update h sid cbs u w = w.
Proof.
  intros Hc Hin. unfold on_connection_update. rewrite Hc.
  now rewrite bool_decide_eq_true_2.
Qed.

(** C1.  Once a sessionId is in the handed-off set, every close event that
    reaches the handler of the superseded handle leaves the whole state as
    it was: the persisted records and credential blobs, the registries and
    flag sets, the pending timers, and the trace of callbacks and provider
    calls (nothing is invoked). *)
Theorem close_after_handoff_is_noop :
  forall (h : handle) (sid : string) (cbs : callbacks) (us : list update)
         (w : world),
    sid ∈ handoffComplete w ->
    Forall (fun u => u_connection u = CClose) us ->
    List.fold_left (fun acc u => on_connection_update h sid cbs u acc) us w = w.
Proof.
  intros h sid cbs us w Hin Hall. induction Hall as [|u r Hu Hr IH]; cbn.
  - reflexivity.
  - now rewrite on_close_handed_off.
Qed.

Lemma close_after_handoff_is_noop_witness :
  List.fold_left
    (fun acc u => on_connection_update 0%nat "session_42" sample_callbacks u acc)
    [mkUpdate CClose (Some (mkError (JNum 401) (JStr "logged out")));
     mkUpdate CClose None]
    world_handed_off
  = world_handed_off.
Proof.
  apply close_after_handoff_is_noop.
  - apply (bool_decide_unpack _). vm_compute. exact I.
  - constructor; [reflexivity|]. constructor; [reflexivity|]. constructor.
Defined.

Lemma handoff_not_live fault sid h w :
  is_live h w = false -> _handoffToMainServer fault sid h w = w.
Proof. intros H. unfold _handoffToMainServer. now rewrite H. Qed.

Lemma close_events_handed_off h sid cbs us w :
  sid ∈ handoffComplete w ->
  Forall (fun u => u_connection u = CClose) us ->
  List.fold_left (fun acc u => on_connection_update h sid cbs u acc) us w = w.
Proof.
  intros Hin Hall. induction Hall as [|u r Hu Hr IH]; cbn; [reflexivity|].
  now rewrite on_close_handed_off.
Qed.

(** The protocol up to its suspension point. *)
Lemma handoff_begin_spec sid h w s :
  heap w !! h = Some s ->
  let torn := handoff_begin sid h w in
  heap torn = <[h := after_teardown s]> (heap w)
  /\ trace torn = (trace w ++ EvHandoffMarked sid :: teardown_calls h s)%list
  /\ handoffComplete torn = {[ sid ]} ∪ handoffComplete w
  /\ activeSockets torn = activeSockets w /\ sessionState torn = sessionState w
  /\ storage torn = storage w /\ timers torn = timers w
  /\ initializingSessions torn = initializingSessions w
  /\ voluntarilyDisconnected torn = voluntarilyDisconnected w.
Proof.
  intros Hs. cbv zeta. unfold handoff_begin.
  set (marked := mark_handed_off sid w).
  pose proof (cleanup_frame sid h marked) as
    (Hst & Htm & Has & Hss & Hini & Hvol & Hho & _).
  destruct (cleanup_exact sid h marked) as [Hh Ht].
  assert (Hm : heap marked !! h = Some s) by exact Hs.
  split.
  { rewrite Hh. symmetry. change (heap marked) with (heap w).
    now apply (insert_as_alter after_teardown). }
  split.
  { rewrite Ht. unfold teardown_calls_at. rewrite Hm.
    subst marked. unfold mark_handed_off. wsimpl.
    now rewrite <- List.app_assoc. }
  split; [rewrite Hho; reflexivity|].
  split; [rewrite Has; reflexivity|].
  split; [rewrite Hss; reflexivity|].
  split; [rewrite Hst; reflexivity|].
  split; [rewrite Htm; reflexivity|].
  split; [rewrite Hini; reflexivity|].
  rewrite Hvol; reflexivity.
Qed.

(** C2.  When the handoff fires: a handle that is no longer live makes it
    abort with the state unchanged.  With a live handle the marking comes
    first: it is recorded in the trace before every call of the teardown,
    and in the state in which the protocol is suspended on the teardown
    the session already counts as handed off, so that close events arriving
    then change nothing.  The teardown is transport-only and exact: the
    calls on the socket are flush (when buffering), removeAllListeners and
    ws.close(1000) (when the transport is open), and the socket object ends
    with identity and callbacks cleared, no listener and a closing
    transport.  The removal from both registries comes after that.  The
    persisted records and credential blobs are not touched and nothing is
    scheduled (no retry).  Without a fault the session ends up marked and
    gone from both registries; with an exception after the marker was set,
    the marker is removed again. *)
Theorem handoff_protocol :
  forall (fault : bool) (sid : string) (h : handle) (w : world),
    let w' := _handoffToMainServer fault sid h w in
    (is_live h w = false -> w' = w)
    /\ (forall s, heap w !! h = Some s -> sock_live s = true ->
        let torn := handoff_begin sid h w in
        trace torn = (trace w ++ EvHandoffMarked sid :: teardown_calls h s)%list
        /\ heap torn = <[h := after_teardown s]> (heap w)
        /\ handoffComplete torn = {[ sid ]} ∪ handoffComplete w
        /\ activeSockets torn = activeSockets w
        /\ sessionState torn = sessionState w
        /\ (forall h0 cbs us,
              Forall (fun u => u_connection u = CClose) us ->
              List.fold_left (fun acc u => on_connection_update h0 sid cbs u acc) us torn
              = torn)
        /\ w' = handoff_resume fault sid torn
        /\ trace w' = (trace w ++ EvHandoffMarked sid :: teardown_calls h s)%list
        /\ heap w' = <[h := after_teardown s]> (heap w)
        /\ storage w' = storage w
        /\ timers w' = timers w
        /\ activeSockets w' = delete sid (activeSockets w)
        /\ initializingSessions w' = initializingSessions w
        /\ voluntarilyDisconnected w' = voluntarilyDisconnected w
        /\ (fault = false ->
            handoffComplete w' = {[ sid ]} ∪ handoffComplete w
            /\ sessionState w' = delete sid (sessionState w))
        /\ (fault = true ->
            handoffComplete w' = handoffComplete w ∖ {[ sid ]}
            /\ sessionState w' = sessionState w)).
Proof.
  intros fault sid h w w'. subst w'. split.
  - apply handoff_not_live.
  - intros s Hs Hlive torn.
    assert (Hl : is_live h w = true) by (unfold is_live; now rewrite Hs).
    destruct (handoff_begin_spec sid h w s Hs) as
      (Hh & Ht & Hho & Has & Hss & Hst & Htm & Hini & Hvol).
    fold torn in Hh, Ht, Hho, Has, Hss, Hst, Htm, Hini, Hvol.
    assert (Hw : _handoffToMainServer fault sid h w = handoff_resume fault sid torn).
    { unfold _handoffToMainServer. now rewrite Hl. }
    split; [exact Ht|]. split; [exact Hh|]. split; [exact Hho|].
    split; [exact Has|]. split; [exact Hss|].
    split.
    { intros h0 cbs us Hall. apply close_events_handed_off; [|exact Hall].
      rewrite Hho. set_solver. }
    split; [exact Hw|].
    rewrite Hw. unfold handoff_resume.
    split; [destruct fault; wsimpl; exact Ht|].
    split; [destruct fault; wsimpl; exact Hh|].
    split; [destruct fault; wsimpl; exact Hst|].
    split; [destruct fault; wsimpl; exact Htm|].
    split; [destruct fault; wsimpl; now rewrite Has|].
    split; [destruct fault; wsimpl; exact Hini|].
    split; [destruct fault; wsimpl; exact Hvol|].
    split.
    + intros ->. wsimpl. split; [exact Hho|now rewrite Hss].
    + intros ->. wsimpl. split; [rewrite Hho; set_solver|exact Hss].
Qed.

(** The handoff of the sample run: the handle is live when the timer
    fires. *)
Lemma handoff_protocol_witness :
  trace world_handed_off
  = (trace world_open
     ++ [EvHandoffMarked "session_42"; EvRemoveAllListeners 0%nat;
         EvWsClose 0%nat 1000 "Handoff to main server"])%list
  /\ activeSockets world_handed_off !! "session_42" = None
  /\ "session_42" ∈ handoffComplete world_handed_off
  /\ storage world_handed_off = storage world_open.
Proof.
  pose proof (handoff_protocol false "session_42" 0%nat (advance 15000 world_open))
    as [_ H].
  specialize (H (mkSock (Some (mkUser (Some "15550001@s.whatsapp.net"))) (JNum 1)
                   (Some (mkWs (JNum 1) (Some (JNum 1))))
                   (Some (mkEv false [("session_42", sample_callbacks)]))
                   (Some sample_callbacks))
                ltac:(vm_compute; reflexivity) ltac:(vm_compute; reflexivity)).
  destruct H as (_ & _ & _ & _ & _ & _ & _ & Ht & _ & Hst & _).
  split; [exact Ht|].
  split; [vm_compute; reflexivity|].
  split; [apply (bool_decide_unpack _); vm_compute; exact I|].
  exact Hst.
Defined.

(** ** Session manager: the guards of createSession *)

Lemma cs_run_done n a o r w : cs_run n a o (CsDone r) w = (w, CsDone r).
Proof. destruct n; reflexivity. Qed.

Lemma finally_absent sid w :
  sid ∉ initializingSessions w ->
  with_initializing (fun s => s ∖ {[ sid ]}) w = w.
Proof.
  intros H. destruct w; unfold with_initializing; cbn in *. f_equal. set_solver.
Qed.

Lemma createSession_first_turn a o w :
  createSession a o w
  = cs_run 5 a o (snd (cs_step a o CsStart w)) (fst (cs_step a o CsStart w)).
Proof.
  unfold createSession. cbn [cs_run].
  now destruct (cs_step a o CsStart w).
Qed.

(** C3 (as amended).  With the sessionId in the initializing set, the call
    returns what the registry holds for it at that moment, whatever that
    is: the handle under construction once it has been registered, and
    before that a handle registered earlier if there is one, else
    undefined.  Otherwise, with the sessionId handed off, it returns null;
    otherwise, with a registered live handle and isReconnect false, it
    returns that handle and changes nothing; and with a registered dead
    handle and isReconnect false, that handle is torn down first
    (transport only: the socket object becomes [after_teardown] of itself,
    the calls made are exactly [teardown_calls], storage and registries are
    untouched) and only then does the call proceed. *)
Theorem createSession_guards :
  forall (a : cs_args) (o : oracle) (w : world),
    let sid := session_id_of (arg_userIdStr a) in
    (sid ∈ initializingSessions w ->
       createSession a o w
       = (with_initializing (fun s => s ∖ {[ sid ]}) w,
          CsDone (Returned (registry_lookup sid w))))
    /\ (sid ∉ initializingSessions w -> sid ∈ handoffComplete w ->
          createSession a o w = (w, CsDone (Returned RNull)))
    /\ (forall h,
          sid ∉ initializingSessions w -> sid ∉ handoffComplete w ->
          activeSockets w !! sid = Some h -> arg_isReconnect a = false ->
          (is_live h w = true ->
             createSession a o w = (w, CsDone (Returned (RSock h))))
          /\ (is_live h w = false ->
                let torn := fst (_cleanupSocketOnly sid h w) in
                createSession a o w = cs_run 5 a o CsAwaitDeadCleanup torn
                /\ heap torn = alter after_teardown h (heap w)
                /\ trace torn = (trace w ++ teardown_calls_at h w)%list
                /\ storage torn = storage w
                /\ activeSockets torn = activeSockets w
                /\ sessionState torn = sessionState w
                /\ timers torn = timers w)).
Proof.
  intros a o w sid. subst sid.
  set (sid := session_id_of (arg_userIdStr a)).
  split; [|split].
  - intros Hin. rewrite createSession_first_turn.
    cbn [cs_step]. fold sid. rewrite bool_decide_eq_true_2 by assumption.
    unfold cs_finally. cbn [fst snd]. now rewrite cs_run_done.
  - intros Hni Hho. rewrite createSession_first_turn.
    cbn [cs_step]. fold sid. rewrite bool_decide_eq_false_2 by assumption.
    rewrite bool_decide_eq_true_2 by assumption.
    unfold cs_finally. cbn [fst snd]. rewrite cs_run_done.
    now rewrite finally_absent.
  - intros h Hni Hnh Hreg Hrec. split.
    + intros Hlive. rewrite createSession_first_turn.
      cbn [cs_step]. fold sid. rewrite !bool_decide_eq_false_2 by assumption.
      rewrite Hreg, Hrec, Hlive. cbn [negb].
      unfold cs_finally. cbn [fst snd]. rewrite cs_run_done.
      now rewrite finally_absent.
    + intros Hdead torn.
      destruct (cleanup_exact sid h w) as [Hh Ht].
      destruct (cleanup_frame sid h w) as (Hst & Htm & Has & Hss & _).
      split.
      { rewrite createSession_first_turn.
        cbn [cs_step]. fold sid. rewrite !bool_decide_eq_false_2 by assumption.
        rewrite Hreg, Hrec, Hdead. reflexivity. }
      split; [exact Hh|]. split; [exact Ht|]. split; [exact Hst|].
      split; [exact Has|]. split; [exact Hss|exact Htm].
Qed.

(** A second call while the first one of the sample run is still waiting
    for the provider. *)
Lemma createSession_guards_witness :
  createSession args_42 oracle_fresh world_inflight
  = (with_initializing (fun s => s ∖ {[ "session_42" ]}) world_inflight,
     CsDone (Returned (registry_lookup "session_42" world_inflight))).
Proof.
  apply (proj1 (createSession_guards args_42 oracle_fresh world_inflight)).
  apply (bool_decide_unpack _). vm_compute. exact I.
Defined.

(** C3 (counterexample).  While a creation is in flight and has not yet
    registered its handle, a second call for the same session returns
    undefined, not a handle; while a forced reconnect is in flight, a
    second call returns the handle registered before, which is dead and is
    not the one being built; and a forced reconnect over a registered dead
    handle replaces it in the registry without tearing it down (its
    listener stays attached). *)
Lemma createSession_inflight_returns_undefined :
  "session_42" ∈ initializingSessions world_inflight
  /\ snd (createSession args_42 oracle_fresh world_inflight)
     = CsDone (Returned RUndefined)
  /\ "session_42" ∈ initializingSessions world_reconnect_inflight
  /\ snd (createSession args_42 oracle_fresh world_reconnect_inflight)
     = CsDone (Returned (RSock 0%nat))
  /\ is_live 0%nat world_reconnect_inflight = false
  /\ activeSockets world_created !! "session_42" = Some 0%nat
  /\ is_live 0%nat world_created = false
  /\ (let w' := fst (createSession args_42_reconnect oracle_fresh world_created) in
      activeSockets w' !! "session_42" = Some 1%nat
      /\ heap w' !! 0%nat = heap world_created !! 0%nat
      /\ option_map (fun s => option_map listeners (ev s)) (heap w' !! 0%nat)
         = Some (Some [("session_42", sample_callbacks)])).
Proof.
  split; [apply (bool_decide_unpack _); vm_compute; exact I|].
  split; [vm_compute; reflexivity|].
  split; [apply (bool_decide_unpack _); vm_compute; exact I|].
  split; [vm_compute; reflexivity|].
  split; [vm_compute; reflexivity|].
  split; [vm_compute; reflexivity|].
  split; [vm_compute; reflexivity|].
  cbv zeta. split; [vm_compute; reflexivity|].
  split; vm_compute; reflexivity.
Qed.

(** ** What an update leaves readable *)

Lemma find_map_preserve {A : Type} (p : A -> bool) (f : A -> A) (l : list A) :
  (forall x, p (f x) = p x) ->
  List.find p (List.map f l) = option_map f (List.find p l).
Proof.
  intros Hp. induction l as [|x r IH]; cbn; [reflexivity|].
  rewrite Hp. destruct (p x); [reflexivity|exact IH].
Qed.

Lemma status_truthy status : status <> "" -> truthy (JStr status) = true.
Proof.
  intros H. cbn. destruct (String.eqb_spec status ""); [contradiction|reflexivity].
Qed.

Lemma mongo_update_then_get now sid u b status m r :
  status_update u b status ->
  Mongo.getSession sid (fst (Mongo.updateSession now sid (Coordinator.stamp now u) m))
  = Some r ->
  isConnected r = JBool b /\ connectionStatus r = JStr status
  /\ (forall v, detected u = JBool v -> detected r = JBool v).
Proof.
  intros (Hconn & Hstatus & Hne & Hatt).
  unfold Mongo.getSession, Mongo.updateSession.
  destruct (Mongo.connected m) eqn:Hc; cbn [negb]; [|cbn; rewrite Hc; discriminate].
  destruct (Mongo.failing m) eqn:Hf; [cbn; rewrite Hc, Hf; discriminate|].
  destruct (Mongo.modify_first sid _ (Mongo.sessions m)) as [l'|] eqn:Hm;
    cbn [fst Mongo.set_sessions Mongo.connected Mongo.failing Mongo.sessions];
    rewrite ?Hc, ?Hf; cbn [negb].
  - apply findOne_modify_first in Hm; [|intros d Hd; exact Hd].
    rewrite Hm. destruct (Mongo.findOne sid (Mongo.sessions m)) as [d|]; [|discriminate].
    cbn [option_map]. intros H. injection H as <-.
    cbn. rewrite Hconn, Hstatus. cbn. repeat split.
    intros v Hv. rewrite Hv. now destruct v.
  - apply modify_first_none in Hm. rewrite Hm. discriminate.
Qed.

Lemma postgres_update_then_get now sid u b status p r :
  status_update u b status ->
  Postgres.getSession sid
    (fst (Postgres.updateSession now sid (Coordinator.stamp now u) p)) = Some r ->
  isConnected r = JBool b /\ connectionStatus r = JStr status
  /\ (forall v, detected u = JBool v -> detected r = JBool v).
Proof.
  intros (Hconn & Hstatus & Hne & Hatt).
  destruct u as [u1 u2 u3 uphone uconn ustatus uatt usrc udet u10 u11].
  cbn in Hconn, Hstatus, Hatt. subst uconn ustatus uatt.
  destruct status as [|c0 status0]; [contradiction|].
  unfold Postgres.getSession, Postgres.updateSession.
  destruct (Postgres.connected p) eqn:Hc; cbn [negb]; [|cbn; rewrite Hc; discriminate].
  destruct (Postgres.failing p) eqn:Hf; [cbn; rewrite Hc, Hf; discriminate|].
  destruct (defined uphone) eqn:Hp, (defined udet) eqn:Hd;
    unfold Postgres.set_parts; cbn [Coordinator.stamp Obj.isConnected connectionStatus
      phoneNumber reconnectAttempts detected defined truthy String.eqb negb app];
    rewrite ?Hp, ?Hd;
    cbn [app length Nat.ltb Nat.leb andb fst Postgres.set_users Postgres.connected
         Postgres.failing Postgres.users];
    rewrite Hc, Hf; cbn [negb];
    (rewrite find_map_preserve;
     [|intros x; destruct (Postgres.has_session sid x) eqn:Hx; [|exact Hx];
       cbn; exact Hx]);
    (destruct (List.find (Postgres.has_session sid) (Postgres.users p)) as [x|] eqn:Hfind;
     [|discriminate]);
    apply List.find_some in Hfind as [_ Hx]; cbn [option_map]; rewrite Hx;
    intros H; injection H as <-; cbn; repeat split;
    intros v Hv; subst udet; try discriminate; now destruct v.
Qed.

Lemma mongo_update_connected now sid x m :
  Mongo.connected (fst (Mongo.updateSession now sid x m)) = Mongo.connected m.
Proof.
  unfold Mongo.updateSession.
  destruct (Mongo.connected m) eqn:Hc, (Mongo.failing m); cbn [negb];
    try (cbn; now rewrite Hc).
  match goal with
  | |- context [Mongo.modify_first ?a ?f ?l] => destruct (Mongo.modify_first a f l)
  end; cbn; now rewrite ?Hc.
Qed.

Lemma postgres_update_connected now sid x p :
  Postgres.connected (fst (Postgres.updateSession now sid x p)) = Postgres.connected p.
Proof.
  unfold Postgres.updateSession.
  destruct (Postgres.connected p) eqn:Hc, (Postgres.failing p); cbn [negb];
    try (cbn; now rewrite Hc).
  repeat match goal with
         | |- context [if ?c then _ else _] => destruct c
         end; cbn; now rewrite ?Hc.
Qed.

Lemma format_status b status x :
  status <> "" ->
  isConnected x = JBool b -> connectionStatus x = JStr status ->
  shows_status b status (Coordinator._formatSessionData x).
Proof.
  intros Hne A B. unfold shows_status. cbn. rewrite A, B. cbn.
  unfold js_or. rewrite (status_truthy _ Hne). split; reflexivity.
Qed.

Lemma format_detected v x :
  detected x = JBool v -> detected (Coordinator._formatSessionData x) = JBool v.
Proof. intros H. cbn. rewrite H. now destruct v. Qed.

Lemma update_then_read now sid u b status s :
  status_update u b status ->
  record_shows sid (fst (Coordinator.updateSession now sid u s))
    (fun r => shows_status b status r
              /\ (forall v, detected u = JBool v -> detected r = JBool v)).
Proof.
  intros Hu r. pose proof Hu as (_ & _ & Hne & _). destruct s as [m p].
  unfold Coordinator.updateSession;
    cbn [Coordinator.mongoStorage Coordinator.postgresStorage].
  pose proof (mongo_update_then_get now sid u b status m) as Hget.
  pose proof (postgres_update_then_get now sid u b status p) as Hpg.
  pose proof (mongo_update_connected now sid (Coordinator.stamp now u) m) as Hmc.
  pose proof (postgres_update_connected now sid (Coordinator.stamp now u) p) as Hpc.
  destruct (Mongo.updateSession now sid (Coordinator.stamp now u) m) as [m1 r1].
  destruct (Postgres.updateSession now sid (Coordinator.stamp now u) p) as [p1 r2].
  cbn [fst] in Hget, Hpg, Hmc, Hpc.
  assert (Hfin : forall x,
             (Mongo.getSession sid m1 = Some x \/ Postgres.getSession sid p1 = Some x) ->
             shows_status b status (Coordinator._formatSessionData x)
             /\ (forall v, detected u = JBool v ->
                    detected (Coordinator._formatSessionData x) = JBool v)).
  { intros x [G|G]; [destruct (Hget _ Hu G) as (A & B & C)
                    |destruct (Hpg _ Hu G) as (A & B & C)];
      (split; [now apply format_status|]);
      intros v Hv; apply format_detected; now apply C. }
  unfold Coordinator.getSession.
  destruct (Mongo.connected m) eqn:Hm, (Postgres.connected p) eqn:Hp;
    cbn [fst Coordinator.mongoStorage Coordinator.postgresStorage];
    rewrite ?Hmc, ?Hpc, ?Hm, ?Hp.
  - destruct (Mongo.getSession sid m1) as [x|] eqn:G.
    + cbn. intros H. injection H as <-. apply Hfin. now left.
    + destruct (Postgres.getSession sid p1) as [x|] eqn:G2; [|discriminate].
      cbn. intros H. injection H as <-. apply Hfin. now right.
  - destruct (Mongo.getSession sid m1) as [x|] eqn:G; [|discriminate].
    cbn. intros H. injection H as <-. apply Hfin. now left.
  - destruct (Postgres.getSession sid p1) as [x|] eqn:G2; [|discriminate].
    cbn. intros H. injection H as <-. apply Hfin. now right.
  - discriminate.
Qed.

(** ** Session manager: close events *)

Lemma notify_error_trace cbs e w :
  notify_error cbs e w
  = match onError cbs with Some fn => emit (EvError fn e) w | None => w end.
Proof. reflexivity. Qed.

Lemma notify_error_frame cbs e w :
  let w' := notify_error cbs e w in
  heap w' = heap w /\ activeSockets w' = activeSockets w
  /\ sessionState w' = sessionState w /\ storage w' = storage w
  /\ timers w' = timers w /\ handoffComplete w' = handoffComplete w
  /\ initializingSessions w' = initializingSessions w
  /\ voluntarilyDisconnected w' = voluntarilyDisconnected w
  /\ trace w' = (trace w ++ error_notice cbs e)%list.
Proof.
  unfold notify_error, error_notice. destruct (onError cbs); cbn;
    rewrite ?List.app_nil_r; repeat split; reflexivity.
Qed.

Lemma getSession_after_deleteAuthState sid sid' m :
  Mongo.getSession sid' (fst (Mongo.deleteAuthState sid m)) = Mongo.getSession sid' m
  /\ Mongo.connected (fst (Mongo.deleteAuthState sid m)) = Mongo.connected m
  /\ Mongo.sessions (fst (Mongo.deleteAuthState sid m)) = Mongo.sessions m
  /\ Mongo.failing (fst (Mongo.deleteAuthState sid m)) = Mongo.failing m.
Proof.
  unfold Mongo.deleteAuthState.
  destruct (negb (Mongo.connected m) || negb (Mongo.has_authBaileys m));
    [repeat split; reflexivity|].
  destruct (Mongo.failing m) eqn:Hf; repeat split; try reflexivity; cbn; now rewrite ?Hf.
Qed.

Lemma count_after_deleteAuthState sid m :
  mongo_up m ->
  List.filter (Mongo.auth_of sid) (Mongo.auth (fst (Mongo.deleteAuthState sid m))) = [].
Proof.
  intros (Hc & Ha & Hf). unfold Mongo.deleteAuthState. rewrite Hc, Ha, Hf. cbn.
  induction (Mongo.auth m) as [|a r IH]; cbn; [reflexivity|].
  destruct (Mongo.auth_of sid a) eqn:E; cbn; [exact IH|].
  now rewrite E.
Qed.

Lemma cleanupAuthState_spec sid w :
  let w' := fst (cleanupAuthState sid w) in
  (forall sid', Coordinator.getSession sid' (storage w')
                = Coordinator.getSession sid' (storage w))
  /\ Coordinator.getAllSessions (storage w') = Coordinator.getAllSessions (storage w)
  /\ (world_mongo_up w -> credential_count sid w' = 0%nat)
  /\ heap w' = heap w /\ activeSockets w' = activeSockets w
  /\ sessionState w' = sessionState w /\ timers w' = timers w
  /\ handoffComplete w' = handoffComplete w
  /\ initializingSessions w' = initializingSessions w
  /\ voluntarilyDisconnected w' = voluntarilyDisconnected w
  /\ trace w' = (trace w ++ [EvCleanupAuthState sid])%list.
Proof.
  unfold cleanupAuthState, world_mongo_up, credential_count.
  destruct (storage w) as [m p] eqn:Hst.
  cbn [Coordinator.mongoStorage Coordinator.postgresStorage].
  pose proof (getSession_after_deleteAuthState sid) as Hg.
  pose proof (count_after_deleteAuthState sid m) as Hcnt.
  destruct (Mongo.deleteAuthState sid m) as [m1 r] eqn:Hd.
  cbn [fst] in Hcnt. wsimpl.
  split.
  { intros sid'. unfold Coordinator.getSession.
    cbn [Coordinator.mongoStorage Coordinator.postgresStorage].
    destruct (Hg sid' m) as (G1 & G2 & _). rewrite Hd in G1, G2. cbn [fst] in G1, G2.
    now rewrite G1, G2. }
  split.
  { unfold Coordinator.getAllSessions, Mongo.getAllSessions.
    cbn [Coordinator.mongoStorage Coordinator.postgresStorage].
    destruct (Hg sid m) as (_ & G2 & G3 & G4). rewrite Hd in G2, G3, G4.
    cbn [fst] in G2, G3, G4. now rewrite G2, G3, G4. }
  split.
  { intros Hup. cbn [Coordinator.mongoStorage]. now rewrite Hcnt. }
  repeat split; reflexivity.
Qed.

Lemma storage_updateSession_frame sid u w :
  let w' := storage_updateSession sid u w in
  heap w' = heap w /\ activeSockets w' = activeSockets w
  /\ sessionState w' = sessionState w /\ timers w' = timers w
  /\ handoffComplete w' = handoffComplete w
  /\ initializingSessions w' = initializingSessions w
  /\ voluntarilyDisconnected w' = voluntarilyDisconnected w
  /\ trace w' = trace w
  /\ storage w' = fst (Coordinator.updateSession (clock w) sid u (storage w)).
Proof. repeat split; reflexivity. Qed.

Lemma mongo_up_updateSession now sid u s :
  mongo_up (Coordinator.mongoStorage s) ->
  mongo_up (Coordinator.mongoStorage (fst (Coordinator.updateSession now sid u s))).
Proof.
  destruct s as [m p]. cbn [Coordinator.mongoStorage]. intros (Hc & Ha & Hf).
  unfold Coordinator.updateSession; cbn [Coordinator.mongoStorage Coordinator.postgresStorage].
  rewrite Hc. unfold Mongo.updateSession. rewrite Hc, Hf. cbn [negb].
  match goal with
  | |- context [Mongo.modify_first ?a ?f ?l] => destruct (Mongo.modify_first a f l)
  end;
    destruct (Postgres.connected p);
    try destruct (Postgres.updateSession now sid (Coordinator.stamp now u) p);
    cbn; repeat split; assumption.
Qed.

Lemma upd_disconnected_status : status_update upd_disconnected false "disconnected".
Proof. repeat split; try reflexivity. discriminate. Qed.

Lemma upd_reconnecting_status : status_update upd_reconnecting false "reconnecting".
Proof. repeat split; try reflexivity. discriminate. Qed.

Lemma updateSession_keeps_credentials now sid u s :
  Mongo.auth (Coordinator.mongoStorage (fst (Coordinator.updateSession now sid u s)))
  = Mongo.auth (Coordinator.mongoStorage s).
Proof.
  destruct s as [m p].
  unfold Coordinator.updateSession;
    cbn [Coordinator.mongoStorage Coordinator.postgresStorage].
  assert (Hm : Mongo.auth (fst (Mongo.updateSession now sid (Coordinator.stamp now u) m))
               = Mongo.auth m).
  { unfold Mongo.updateSession.
    destruct (Mongo.connected m), (Mongo.failing m); cbn [negb fst]; try reflexivity.
    destruct (Mongo.modify_first sid _ (Mongo.sessions m)); reflexivity. }
  destruct (Mongo.updateSession now sid (Coordinator.stamp now u) m) as [m1 r1].
  cbn [fst] in Hm.
  destruct (Mongo.connected m), (Postgres.connected p);
    try destruct (Postgres.updateSession now sid (Coordinator.stamp now u) p);
    cbn; try exact Hm; reflexivity.
Qed.

Lemma mongo_flags_updateSession now sid u s :
  let m := Coordinator.mongoStorage s in
  let m' := Coordinator.mongoStorage (fst (Coordinator.updateSession now sid u s)) in
  Mongo.connected m' = Mongo.connected m
  /\ Mongo.has_authBaileys m' = Mongo.has_authBaileys m
  /\ Mongo.failing m' = Mongo.failing m.
Proof.
  destruct s as [m p]. cbv zeta. cbn [Coordinator.mongoStorage].
  unfold Coordinator.updateSession; cbn [Coordinator.mongoStorage Coordinator.postgresStorage].
  assert (Hm : let m1 := fst (Mongo.updateSession now sid (Coordinator.stamp now u) m) in
               Mongo.connected m1 = Mongo.connected m
               /\ Mongo.has_authBaileys m1 = Mongo.has_authBaileys m
               /\ Mongo.failing m1 = Mongo.failing m).
  { cbv zeta. unfold Mongo.updateSession.
    destruct (Mongo.connected m) eqn:Hc, (Mongo.failing m) eqn:Hf; cbn [negb fst];
      try (rewrite Hc, Hf; repeat split; reflexivity).
    match goal with
    | |- context [Mongo.modify_first ?a ?f ?l] => destruct (Mongo.modify_first a f l)
    end; cbn; rewrite ?Hc, ?Hf; repeat split; reflexivity. }
  cbv zeta in Hm.
  destruct (Mongo.updateSession now sid (Coordinator.stamp now u) m) as [m1 r1].
  cbn [fst] in Hm.
  destruct (Mongo.connected m) eqn:Hc, (Postgres.connected p);
    try destruct (Postgres.updateSession now sid (Coordinator.stamp now u) p);
    cbn [fst Coordinator.mongoStorage]; rewrite ?Hc;
    first [exact Hm | rewrite <- Hc; exact Hm | repeat split; reflexivity].
Qed.

Lemma deleteAuthState_down sid m :
  ~ mongo_up m -> Mongo.deleteAuthState sid m = (m, false).
Proof.
  intros Hdown. unfold Mongo.deleteAuthState.
  destruct (Mongo.connected m) eqn:Hc, (Mongo.has_authBaileys m) eqn:Ha,
           (Mongo.failing m) eqn:Hf; cbn; try reflexivity.
  exfalso. apply Hdown. repeat split; assumption.
Qed.

(** What the 401 and 428 paths do. *)
Lemma close_with_purge_spec h sid cbs u w :
  let w' := close_with_purge h sid cbs u w in
  record_shows sid (storage w') (shows_status false "disconnected")
  /\ (world_mongo_up w -> credential_count sid w' = 0%nat)
  /\ heap w' = alter after_teardown h (heap w)
  /\ activeSockets w' = delete sid (activeSockets w)
  /\ sessionState w' = delete sid (sessionState w)
  /\ trace w' = (trace w ++ [EvCleanupAuthState sid] ++ teardown_calls_at h w
                         ++ error_notice cbs (lastDisconnect u))%list
  /\ timers w' = timers w
  /\ (~ world_mongo_up w -> stored_credentials w' = stored_credentials w)
  /\ handoffComplete w' = handoffComplete w
  /\ initializingSessions w' = initializingSessions w
  /\ voluntarilyDisconnected w' = voluntarilyDisconnected w.
Proof.
  unfold close_with_purge.
  set (w1 := storage_updateSession sid upd_disconnected w).
  set (w2 := fst (cleanupAuthState sid w1)).
  set (w3 := fst (_cleanupSocketOnly sid h w2)).
  set (w4 := registry_delete sid w3).
  pose proof (storage_updateSession_frame sid upd_disconnected w) as
    (U1 & U2 & U3 & U4 & U5 & U6 & U7 & U8 & U9). fold w1 in U1, U2, U3, U4, U5, U6, U7, U8, U9.
  pose proof (cleanupAuthState_spec sid w1) as
    (A1 & A1' & A2 & A3 & A4 & A5 & A6 & A7 & A8 & A9 & A10).
  fold w2 in A1, A1', A2, A3, A4, A5, A6, A7, A8, A9, A10.
  pose proof (cleanup_frame sid h w2) as (C1 & C2 & C3 & C4 & C5 & C6 & C7 & _).
  fold w3 in C1, C2, C3, C4, C5, C6, C7.
  destruct (cleanup_exact sid h w2) as [Hheap Hevs]. fold w3 in Hheap, Hevs.
  pose proof (notify_error_frame cbs (lastDisconnect u) w4) as
    (N1 & N2 & N3 & N4 & N5 & N6 & N7 & N8 & N9).
  cbv zeta in *.
  split.
  { intros r. rewrite N4. subst w4; wsimpl. rewrite C1, A1, U9.
    intros Hr.
    now apply (update_then_read (clock w) sid upd_disconnected false "disconnected"
                 (storage w) upd_disconnected_status r Hr). }
  split.
  { intros Hup. unfold credential_count. rewrite N4. subst w4; wsimpl. rewrite C1.
    apply A2. unfold world_mongo_up. rewrite U9. now apply mongo_up_updateSession. }
  split; [rewrite N1; subst w4; wsimpl; now rewrite Hheap, A3, U1|].
  split; [rewrite N2; subst w4; wsimpl; now rewrite C3, A4, U2|].
  split; [rewrite N3; subst w4; wsimpl; now rewrite C4, A5, U3|].
  split.
  { rewrite N9. subst w4; wsimpl. rewrite Hevs, A10, U8.
    unfold teardown_calls_at. rewrite A3, U1.
    now rewrite <- !List.app_assoc. }
  split; [rewrite N5; subst w4; wsimpl; now rewrite C2, A6, U4|].
  split.
  { intros Hdown. unfold stored_credentials. rewrite N4. subst w4; wsimpl. rewrite C1.
    subst w2. unfold cleanupAuthState.
    destruct (mongo_flags_updateSession (clock w) sid upd_disconnected (storage w))
      as (F1 & F2 & F3).
    rewrite deleteAuthState_down.
    2:{ rewrite U9. intros (G1 & G2 & G3). apply Hdown.
        unfold world_mongo_up, mongo_up. rewrite <- F1, <- F2, <- F3.
        repeat split; assumption. }
    wsimpl. cbn [Coordinator.mongoStorage]. rewrite U9.
    apply updateSession_keeps_credentials. }
  split; [rewrite N6; subst w4; wsimpl; now rewrite C7, A7, U5|].
  split; [rewrite N7; subst w4; wsimpl; now rewrite C5, A8, U6|].
  rewrite N8; subst w4; wsimpl; now rewrite C6, A9, U7.
Qed.

Lemma on_close_code h sid cbs err w :
  sid ∉ handoffComplete w ->
  on_connection_update h sid cbs (mkUpdate CClose (Some err)) w
  = if strict_eq (statusCode err) (JNum 401)
    then close_with_purge h sid cbs (mkUpdate CClose (Some err)) w
    else if strict_eq (statusCode err) (JNum 515)
    then setTimeout (TReconnect sid cbs reconnect_delay)
           (notify_error cbs (Some err)
              (storage_updateSession sid upd_reconnecting w))
    else if strict_eq (statusCode err) (JNum 428)
    then close_with_purge h sid cbs (mkUpdate CClose (Some err)) w
    else notify_error cbs (Some err)
           (registry_delete sid
              (fst (_cleanupSocketOnly sid h
                      (storage_updateSession sid upd_disconnected w)))).
Proof.
  intros Hni. unfold on_connection_update. cbn [u_connection].
  now rewrite bool_decide_eq_false_2 by assumption.
Qed.

(** C5 (as amended).  A close event with status code 401 on a session that
    is not handed off: every record that can be read back for the session
    afterwards is marked isConnected = false, connectionStatus
    disconnected; the purge of the credential blobs of the session is
    requested, and none remains provided the credential backend is
    connected and serving, while otherwise the blobs stay as stored; the
    transport is torn down (the socket object becomes [after_teardown] of
    itself, by exactly the calls of [teardown_calls]); the session is
    removed from the socket registry and from the session-state registry;
    the error callback is notified with the error; no timer is scheduled
    and the provider is not asked for a connection (no reconnect). *)
Theorem close_401_requires_new_pairing :
  forall (h : handle) (sid : string) (cbs : callbacks) (err : error) (w : world),
    sid ∉ handoffComplete w ->
    statusCode err = JNum 401 ->
    let w' := on_connection_update h sid cbs (mkUpdate CClose (Some err)) w in
    record_shows sid (storage w') (shows_status false "disconnected")
    /\ (world_mongo_up w -> credential_count sid w' = 0%nat)
    /\ (~ world_mongo_up w -> stored_credentials w' = stored_credentials w)
    /\ heap w' = alter after_teardown h (heap w)
    /\ activeSockets w' = delete sid (activeSockets w)
    /\ sessionState w' = delete sid (sessionState w)
    /\ trace w' = (trace w ++ [EvCleanupAuthState sid] ++ teardown_calls_at h w
                           ++ error_notice cbs (Some err))%list
    /\ timers w' = timers w.
Proof.
  intros h sid cbs err w Hni Hcode w'. subst w'.
  rewrite on_close_code by assumption. rewrite Hcode. cbn [strict_eq Z.eqb Pos.eqb].
  pose proof (close_with_purge_spec h sid cbs (mkUpdate CClose (Some err)) w) as H.
  cbv zeta in H. cbn [lastDisconnect] in H.
  destruct H as (H1 & H2 & H3 & H4 & H5 & H6 & H7 & H8 & _).
  split; [exact H1|]. split; [exact H2|]. split; [exact H8|]. split; [exact H3|].
  split; [exact H4|]. split; [exact H5|]. split; [exact H6|exact H7].
Qed.

Lemma close_401_requires_new_pairing_witness :
  credential_count "session_7" world_7_open = 2%nat
  /\ credential_count "session_7"
       (on_connection_update 0%nat "session_7" sample_callbacks (close_event 401)
          world_7_open) = 0%nat.
Proof.
  split; [vm_compute; reflexivity|].
  refine (proj1 (proj2 (close_401_requires_new_pairing 0%nat "session_7" sample_callbacks
            (mkError (JNum 401) (JStr "Connection Failure")) world_7_open _ _)) _).
  - apply (bool_decide_unpack _). vm_compute. exact I.
  - reflexivity.
  - repeat split; vm_compute; reflexivity.
Defined.

(** C5 (counterexample).  session_7 is paired and has two credential blobs
    stored when the connection to the credential backend is lost.  The
    close event with status code 401 then leaves both blobs in place: the
    purge returns at once on an adapter that is not connected. *)
Lemma close_401_blobs_survive_backend_down :
  let w' := on_connection_update 0%nat "session_7" sample_callbacks (close_event 401)
              world_7_backend_down in
  ("session_7" ∉ handoffComplete world_7_backend_down)
  /\ credential_count "session_7" world_7_backend_down = 2%nat
  /\ credential_count "session_7" w' = 2%nat
  /\ activeSockets w' !! "session_7" = None.
Proof.
  cbv zeta.
  split; [apply (bool_decide_unpack _); vm_compute; exact I|].
  split; [vm_compute; reflexivity|].
  split; vm_compute; reflexivity.
Qed.

(** ** The sessions a listing shows *)

Lemma insert_desc_perm {A : Type} (key : A -> Z) (x : A) (l : list A) :
  Permutation (insert_desc key x l) (x :: l).
Proof.
  induction l as [|y r IH]; cbn; [reflexivity|].
  destruct (key y <? key x); [reflexivity|].
  rewrite IH. apply perm_swap.
Qed.

Lemma sort_desc_perm {A : Type} (key : A -> Z) (l : list A) :
  Permutation (sort_desc key l) l.
Proof.
  induction l as [|x r IH]; cbn; [reflexivity|].
  rewrite insert_desc_perm. now constructor.
Qed.

Lemma modify_first_ids sid f l l' :
  (forall d, Mongo.d_sessionId (f d) = Mongo.d_sessionId d) ->
  Mongo.modify_first sid f l = Some l' ->
  List.map Mongo.d_sessionId l' = List.map Mongo.d_sessionId l.
Proof.
  intros Hf. revert l'. induction l as [|d r IH]; cbn; intros l' H; [discriminate|].
  destruct (String.eqb (Mongo.d_sessionId d) sid).
  - injection H as <-. cbn. now rewrite Hf.
  - destruct (Mongo.modify_first sid f r) as [r'|]; [|discriminate].
    injection H as <-. cbn. f_equal. now apply IH.
Qed.

Lemma mongo_listing_ids m :
  List.map sessionId (List.map Coordinator._formatSessionData (Mongo.getAllSessions m))
  = if negb (Mongo.connected m) || Mongo.failing m then []
    else List.map mongo_listed_id (sort_desc Mongo.d_updatedAt (Mongo.sessions m)).
Proof.
  unfold Mongo.getAllSessions.
  destruct (Mongo.connected m), (Mongo.failing m); cbn; try reflexivity.
  now rewrite !List.map_map.
Qed.

Lemma postgres_listing_ids p :
  List.map sessionId (List.map Coordinator._formatSessionData (Postgres.getAllSessions p))
  = if negb (Postgres.connected p) || Postgres.failing p then []
    else List.map postgres_listed_id
           (sort_desc Postgres.updated_at
              (List.filter Postgres.session_not_null (Postgres.users p))).
Proof.
  unfold Postgres.getAllSessions.
  destruct (Postgres.connected p), (Postgres.failing p); cbn; try reflexivity.
  now rewrite !List.map_map.
Qed.

Lemma mongo_update_listing now sid u m :
  Permutation
    (List.map sessionId
       (List.map Coordinator._formatSessionData
          (Mongo.getAllSessions (fst (Mongo.updateSession now sid u m)))))
    (List.map sessionId
       (List.map Coordinator._formatSessionData (Mongo.getAllSessions m))).
Proof.
  rewrite !mongo_listing_ids.
  unfold Mongo.updateSession.
  destruct (Mongo.connected m) eqn:Hc; cbn [negb orb fst]; [|now rewrite Hc].
  destruct (Mongo.failing m) eqn:Hf; cbn [fst]; [now rewrite Hc, Hf|].
  destruct (Mongo.modify_first sid (Mongo.apply_updates now u) (Mongo.sessions m))
    as [l'|] eqn:Hm; cbn [fst Mongo.set_sessions Mongo.connected Mongo.failing Mongo.sessions];
    rewrite ?Hc, ?Hf; cbn [negb orb]; [|reflexivity].
  apply modify_first_ids in Hm; [|reflexivity].
  unfold mongo_listed_id.
  rewrite <- !(List.map_map Mongo.d_sessionId JStr).
  apply Permutation_map.
  rewrite (Permutation_map _ (sort_desc_perm _ l')).
  rewrite (Permutation_map _ (sort_desc_perm _ (Mongo.sessions m))).
  now rewrite Hm.
Qed.

Lemma filter_map_preserve {A : Type} (p : A -> bool) (f : A -> A) (l : list A) :
  (forall x, p (f x) = p x) ->
  List.filter p (List.map f l) = List.map f (List.filter p l).
Proof.
  intros Hp. induction l as [|x r IH]; cbn; [reflexivity|].
  rewrite Hp. destruct (p x); cbn; now rewrite IH.
Qed.

Lemma set_parts_keep_session u :
  Forall (fun f : Postgres.row -> Postgres.row =>
            forall r, Postgres.session_id (f r) = Postgres.session_id r)
         (Postgres.set_parts u).
Proof.
  unfold Postgres.set_parts.
  repeat match goal with
         | |- context [if ?c then _ else _] => destruct c
         end; cbn [app]; repeat constructor.
Qed.

Lemma fold_keep_session parts :
  Forall (fun f : Postgres.row -> Postgres.row =>
            forall r, Postgres.session_id (f r) = Postgres.session_id r) parts ->
  forall r, Postgres.session_id (List.fold_left (fun acc f => f acc) parts r)
            = Postgres.session_id r.
Proof.
  induction 1 as [|f rest Hf Hrest IH]; intros r; cbn; [reflexivity|].
  now rewrite IH, Hf.
Qed.

Lemma postgres_update_users now sid u p :
  exists f, (forall r, Postgres.session_id (f r) = Postgres.session_id r)
            /\ Postgres.users (fst (Postgres.updateSession now sid u p))
               = List.map f (Postgres.users p)
            /\ Postgres.connected (fst (Postgres.updateSession now sid u p))
               = Postgres.connected p
            /\ Postgres.failing (fst (Postgres.updateSession now sid u p))
               = Postgres.failing p.
Proof.
  assert (Hid : exists f : Postgres.row -> Postgres.row,
             (forall r, Postgres.session_id (f r) = Postgres.session_id r)
             /\ Postgres.users p = List.map f (Postgres.users p)).
  { exists (fun r => r). split; [reflexivity|]. now rewrite List.map_id. }
  unfold Postgres.updateSession.
  destruct (Postgres.connected p) eqn:Hc; cbn [negb fst];
    [|destruct Hid as (f & A & B); exists f; repeat split; assumption].
  destruct (Postgres.failing p) eqn:Hf; cbn [fst];
    [destruct Hid as (f & A & B); exists f; repeat split; assumption|].
  destruct (0 <? length (Postgres.set_parts u))%nat; cbn [fst];
    [|destruct Hid as (f & A & B); exists f; repeat split; assumption].
  destruct (defined (reconnectAttempts u) && negb (Postgres.int_param_ok (reconnectAttempts u)));
    cbn [fst]; [destruct Hid as (f & A & B); exists f; repeat split; assumption|].
  eexists. split; [|split; [reflexivity|split; [exact Hc|exact Hf]]].
  intros r. cbn beta. destruct (Postgres.has_session sid r); [|reflexivity].
  unfold Postgres.touch. cbn [Postgres.session_id].
  apply fold_keep_session, set_parts_keep_session.
Qed.

Lemma postgres_update_listing now sid u p :
  Permutation
    (List.map sessionId
       (List.map Coordinator._formatSessionData
          (Postgres.getAllSessions (fst (Postgres.updateSession now sid u p)))))
    (List.map sessionId
       (List.map Coordinator._formatSessionData (Postgres.getAllSessions p))).
Proof.
  rewrite !postgres_listing_ids.
  destruct (postgres_update_users now sid u p) as (f & Hid & Hu & Hc & Hf).
  rewrite Hu, Hc, Hf.
  destruct (negb (Postgres.connected p) || Postgres.failing p); [reflexivity|].
  rewrite (Permutation_map _ (sort_desc_perm _ _)).
  rewrite (Permutation_map _ (sort_desc_perm _ (List.filter _ (Postgres.users p)))).
  rewrite filter_map_preserve.
  2:{ intros x. unfold Postgres.session_not_null. now rewrite Hid. }
  rewrite List.map_map.
  erewrite List.map_ext; [reflexivity|].
  intros x. unfold postgres_listed_id. now rewrite Hid.
Qed.

Lemma coordinator_update_listing now sid u s :
  Permutation
    (List.map sessionId
       (Coordinator.getAllSessions (fst (Coordinator.updateSession now sid u s))))
    (List.map sessionId (Coordinator.getAllSessions s)).
Proof.
  destruct s as [m p].
  unfold Coordinator.updateSession, Coordinator.getAllSessions;
    cbn [Coordinator.mongoStorage Coordinator.postgresStorage].
  pose proof (mongo_update_listing now sid (Coordinator.stamp now u) m) as Hm.
  pose proof (postgres_update_listing now sid (Coordinator.stamp now u) p) as Hp.
  pose proof (mongo_update_connected now sid (Coordinator.stamp now u) m) as Hmc.
  pose proof (postgres_update_connected now sid (Coordinator.stamp now u) p) as Hpc.
  destruct (Mongo.updateSession now sid (Coordinator.stamp now u) m) as [m1 r1].
  destruct (Postgres.updateSession now sid (Coordinator.stamp now u) p) as [p1 r2].
  cbn [fst] in Hm, Hp, Hmc, Hpc.
  destruct (Mongo.connected m) eqn:Em, (Postgres.connected p) eqn:Ep;
    cbn [fst Coordinator.mongoStorage Coordinator.postgresStorage];
    rewrite ?Hmc, ?Hpc, ?Em, ?Ep; try assumption; reflexivity.
Qed.

(** C6 (as amended).  A close event with status code 401 does not run the
    complete cleanup and deletes no record: getAllSessions lists the same
    sessions afterwards as before, so a session that was listed stays
    listed; every record that getSession reads back for it is marked
    isConnected = false, disconnected; and no credential blob remains for
    it provided the credential backend is connected and serving. *)
Theorem close_401_keeps_record_listed :
  forall (h : handle) (sid : string) (cbs : callbacks) (err : error) (w : world),
    sid ∉ handoffComplete w ->
    statusCode err = JNum 401 ->
    let w' := on_connection_update h sid cbs (mkUpdate CClose (Some err)) w in
    Permutation (List.map sessionId (getAllSessions w'))
                (List.map sessionId (getAllSessions w))
    /\ (In (JStr sid) (List.map sessionId (getAllSessions w)) ->
        In (JStr sid) (List.map sessionId (getAllSessions w')))
    /\ record_shows sid (storage w') (shows_status false "disconnected")
    /\ (world_mongo_up w -> credential_count sid w' = 0%nat).
Proof.
  intros h sid cbs err w Hni Hcode w'.
  assert (Hperm : Permutation (List.map sessionId (getAllSessions w'))
                              (List.map sessionId (getAllSessions w))).
  { subst w'. rewrite on_close_code by assumption. rewrite Hcode.
    cbn [strict_eq Z.eqb Pos.eqb]. unfold getAllSessions, close_with_purge.
    destruct (notify_error_frame cbs (lastDisconnect (mkUpdate CClose (Some err)))
                (registry_delete sid
                   (fst (_cleanupSocketOnly sid h
                      (fst (cleanupAuthState sid
                         (storage_updateSession sid upd_disconnected w)))))))
      as (_ & _ & _ & N4 & _).
    rewrite N4. wsimpl.
    destruct (cleanup_frame sid h
                (fst (cleanupAuthState sid
                        (storage_updateSession sid upd_disconnected w))))
      as (C1 & _).
    rewrite C1.
    destruct (cleanupAuthState_spec sid (storage_updateSession sid upd_disconnected w))
      as (_ & A & _).
    rewrite A. apply coordinator_update_listing. }
  split; [exact Hperm|].
  split; [intros Hin; eapply Permutation_in; [symmetry; exact Hperm|exact Hin]|].
  subst w'. rewrite on_close_code by assumption. rewrite Hcode.
  cbn [strict_eq Z.eqb Pos.eqb].
  destruct (close_with_purge_spec h sid cbs (mkUpdate CClose (Some err)) w)
    as (H1 & H2 & _).
  split; assumption.
Qed.

Lemma close_401_keeps_record_listed_witness :
  In (JStr "session_7")
     (List.map sessionId
        (getAllSessions
           (on_connection_update 0%nat "session_7" sample_callbacks (close_event 401)
              world_7_open))).
Proof.
  refine (proj1 (proj2 (close_401_keeps_record_listed 0%nat "session_7" sample_callbacks
            (mkError (JNum 401) (JStr "Connection Failure")) world_7_open _ _)) _).
  - apply (bool_decide_unpack _). vm_compute. exact I.
  - reflexivity.
  - vm_compute. left. reflexivity.
Defined.

(** C6 (counterexample).  After the close event with status code 401,
    session_7 is still in the result of getAllSessions (marked
    disconnected); only its credential blobs are gone. *)
Lemma close_401_session_still_listed :
  let w' := on_connection_update 0%nat "session_7" sample_callbacks (close_event 401)
              world_7_open in
  List.map (fun r => (sessionId r, isConnected r, connectionStatus r))
           (getAllSessions w')
  = [(JStr "session_7", JBool false, JStr "disconnected")]
  /\ credential_count "session_7" w' = 0%nat.
Proof. split; vm_compute; reflexivity. Qed.

(** ** Session manager: the 515 restart *)

Lemma attach_new_socket sid cbs s e w :
  ev s = Some e ->
  exists w',
    _setupConnectionHandler (next_handle w) sid cbs
      (set_connectionCallbacks (next_handle w) cbs
         (with_activeSockets (insert sid (next_handle w))
            (with_next_handle (S (next_handle w))
               (with_heap (insert (next_handle w) s) w))))
    = Some w'
    /\ registered_with_handler sid cbs (next_handle w) w'
    /\ storage w' = storage w /\ trace w' = trace w /\ timers w' = timers w.
Proof.
  intros He. unfold _setupConnectionHandler, set_connectionCallbacks. wsimpl.
  rewrite lookup_alter_eq, lookup_insert_eq. cbn [fmap option_fmap option_map ev].
  rewrite He. eexists. split; [reflexivity|].
  split; [|repeat split; reflexivity].
  split; [wsimpl; apply lookup_insert_eq|].
  wsimpl. rewrite lookup_insert_eq. do 2 eexists.
  split; [reflexivity|]. cbn. split; [reflexivity|].
  split; [apply List.in_or_app; right; now left|reflexivity].
Qed.

Lemma mark_disconnected_spec sid w :
  let w' := storage_updateSession sid upd_disconnected w in
  record_shows sid (storage w') (shows_status false "disconnected")
  /\ activeSockets w' = activeSockets w /\ heap w' = heap w
  /\ trace w' = trace w /\ timers w' = timers w.
Proof.
  cbv zeta. split; [|repeat split; reflexivity].
  intros r Hr. unfold storage_updateSession in Hr. wsimpl.
  now apply (update_then_read (clock w) sid upd_disconnected false "disconnected"
               (storage w) upd_disconnected_status r Hr).
Qed.

(** C7.  A close event with status code 515 on a session that is not handed
    off marks what can be read back for the session as reconnecting with
    detected = false, notifies the error callback, and schedules the
    reconnect with the fixed delay of 3000 ms, leaving socket and registry
    alone.  When that timer fires (in whatever state [w2] the manager is
    then): if no phone number can be read back from the persisted record,
    the provider is not called and the record is marked disconnected;
    otherwise the provider is asked for a connection with that phone number
    and allowPairing = false, and then a socket it returns is registered
    under the session with the state machine attached, while a null result
    or an exception marks the record disconnected. *)
Theorem close_515_reconnects :
  forall (h : handle) (sid : string) (cbs : callbacks) (err : error)
         (w : world) (c : conn_result) (w2 : world),
    sid ∉ handoffComplete w ->
    statusCode err = JNum 515 ->
    (let w' := on_connection_update h sid cbs (mkUpdate CClose (Some err)) w in
     record_shows sid (storage w')
       (fun r => shows_status false "reconnecting" r /\ detected r = JBool false)
     /\ trace w' = (trace w ++ error_notice cbs (Some err))%list
     /\ timers w' = (timers w ++ [TReconnect sid cbs 3000])%list
     /\ heap w' = heap w /\ activeSockets w' = activeSockets w)
    /\
    (let w3 := reconnect_after_515 c sid cbs w2 in
     (truthy (persisted_phone sid w2) = false ->
        trace w3 = trace w2
        /\ activeSockets w3 = activeSockets w2
        /\ record_shows sid (storage w3) (shows_status false "disconnected"))
     /\ (truthy (persisted_phone sid w2) = true ->
           trace w3 = (trace w2 ++ [EvCreateConnection sid (persisted_phone sid w2)
                                                       cbs false])%list
           /\ match c with
              | ConnSock s =>
                  (forall e, ev s = Some e ->
                     registered_with_handler sid cbs (next_handle w2) w3)
                  /\ (ev s = None ->
                        record_shows sid (storage w3) (shows_status false "disconnected"))
              | ConnNull | ConnThrow =>
                  record_shows sid (storage w3) (shows_status false "disconnected")
                  /\ activeSockets w3 = activeSockets w2
              end)).
Proof.
  intros h sid cbs err w c w2 Hni Hcode. split.
  - cbv zeta. rewrite on_close_code by assumption. rewrite Hcode.
    cbn [strict_eq Z.eqb Pos.eqb].
    destruct (notify_error_frame cbs (Some err)
                (storage_updateSession sid upd_reconnecting w))
      as (N1 & N2 & _ & N4 & N5 & _ & _ & _ & N9).
    wsimpl. rewrite N4, N9, N5, N1, N2.
    split; [|repeat split; reflexivity].
    intros r Hr. unfold storage_updateSession in Hr. wsimpl.
    destruct (update_then_read (clock w) sid upd_reconnecting false "reconnecting"
                (storage w) upd_reconnecting_status r Hr) as [A B].
    split; [exact A|]. now apply B.
  - cbv zeta. unfold reconnect_after_515. fold (persisted_phone sid w2).
    split.
    + intros Hp. rewrite Hp. cbn [negb].
      destruct (mark_disconnected_spec sid w2) as (A & B & _ & D & _).
      split; [exact D|]. split; [exact B|exact A].
    + intros Hp. rewrite Hp. cbn [negb].
      set (w1 := emit (EvCreateConnection sid (persisted_phone sid w2) cbs false) w2).
      destruct c as [s| |].
      * destruct (ev s) as [e|] eqn:He.
        -- destruct (attach_new_socket sid cbs s e w1 He) as (w' & Hw' & Hreg & _ & Htr & _).
           unfold alloc. cbv beta iota zeta.
           match goal with
           | |- context [match ?X with Some _ => _ | None => _ end] =>
               replace X with (Some w') by (symmetry; exact Hw')
           end.
           split; [exact Htr|]. split; [|discriminate].
           intros e0 _. exact Hreg.
        -- unfold alloc. cbv beta iota zeta.
           unfold _setupConnectionHandler, set_connectionCallbacks. wsimpl.
           rewrite lookup_alter_eq, lookup_insert_eq.
           cbn [fmap option_fmap option_map ev]. rewrite He.
           split; [reflexivity|]. split; [discriminate|]. intros _.
           apply mark_disconnected_spec.
      * destruct (mark_disconnected_spec sid w1) as (A & B & _ & D & _).
        split; [exact D|]. split; assumption.
      * destruct (mark_disconnected_spec sid w1) as (A & B & _ & D & _).
        split; [exact D|]. split; assumption.
Qed.

Lemma close_515_reconnects_witness :
  persisted_phone "session_7"
    (advance 3000
       (on_connection_update 0%nat "session_7" sample_callbacks (close_event 515)
          world_7_open)) = JStr "15550007:3"
  /\ trace (reconnect_after_515 (ConnSock fresh_sock) "session_7" sample_callbacks
              (advance 3000
                 (on_connection_update 0%nat "session_7" sample_callbacks
                    (close_event 515) world_7_open)))
     = (trace (advance 3000
                 (on_connection_update 0%nat "session_7" sample_callbacks
                    (close_event 515) world_7_open))
          ++ [EvCreateConnection "session_7"
                (persisted_phone "session_7"
                   (advance 3000
                      (on_connection_update 0%nat "session_7" sample_callbacks
                         (close_event 515) world_7_open)))
                sample_callbacks false])%list.
Proof.
  split; [vm_compute; reflexivity|].
  pose proof (close_515_reconnects 0%nat "session_7" sample_callbacks
                (mkError (JNum 515) (JStr "Connection Failure")) world_7_open
                (ConnSock fresh_sock)
                (advance 3000
                   (on_connection_update 0%nat "session_7" sample_callbacks
                      (close_event 515) world_7_open))) as H.
  specialize (H ltac:(apply (bool_decide_unpack _); vm_compute; exact I) eq_refl).
  destruct H as [_ [_ Hb]].
  exact (proj1 (Hb ltac:(vm_compute; reflexivity))).
Defined.

(** ** Session manager: interleaved creations *)

(** C4 (the code at the failing inputs).  Three interleaved calls of
    createSession for one session: the second call returns early because the
    session is initializing, and its [finally] removes the mark that the
    first call set; the third call then passes the guard while the first is
    still in flight.  The provider is asked for two connections, both
    sockets get the state machine attached, and the registry keeps only the
    second.  The same happens with two calls when the first one cleans up
    stale credentials: the complete cleanup it runs removes its own mark.
    In both runs no call leaves the session marked as initializing. *)
Theorem createSession_race_two_handles :
  (let r := pool_run race_schedule three_calls (new_manager sample_storage 0) in
   List.map snd (fst r)
   = [CsDone (Returned (RSock 0%nat)); CsDone (Returned RUndefined);
      CsDone (Returned (RSock 1%nat))]
   /\ created_for "session_42" (snd r) = 2%nat
   /\ listening_for "session_42" (snd r) = [0%nat; 1%nat]
   /\ activeSockets (snd r) !! "session_42" = Some 1%nat
   /\ "session_42" ∉ initializingSessions (snd r))
  /\
  (let r := pool_run stale_schedule two_calls (new_manager sample_storage 0) in
   List.map snd (fst r)
   = [CsDone (Returned (RSock 1%nat)); CsDone (Returned (RSock 0%nat))]
   /\ created_for "session_42" (snd r) = 2%nat
   /\ listening_for "session_42" (snd r) = [0%nat; 1%nat]
   /\ activeSockets (snd r) !! "session_42" = Some 1%nat
   /\ "session_42" ∉ initializingSessions (snd r)).
Proof.
  split; cbv zeta;
    (split; [vm_compute; reflexivity|]);
    (split; [vm_compute; reflexivity|]);
    (split; [vm_compute; reflexivity|]);
    (split; [vm_compute; reflexivity|]);
    apply (bool_decide_unpack _); vm_compute; exact I.
Qed.

(* ===================================================================== *)
(** * Further properties of the code                                      *)
(* ===================================================================== *)

(** ** Sanitised names *)

Lemma has_char_replace_same c d s :
  d <> c -> has_char c (Sanitize.replace_char c d s) = false.
Proof.
  intros Hd. induction s as [|x r IH]; cbn; [reflexivity|].
  rewrite IH, orb_false_r.
  destruct (Ascii.eqb_spec x c) as [->|Hx].
  - now apply Ascii.eqb_neq.
  - now apply Ascii.eqb_neq.
Qed.

Lemma has_char_replace_other c c' d s :
  d <> c -> has_char c s = false ->
  has_char c (Sanitize.replace_char c' d s) = false.
Proof.
  intros Hd. induction s as [|x r IH]; cbn; [reflexivity|].
  intros H. apply orb_false_iff in H as [Hx Hr].
  rewrite (IH Hr), orb_false_r.
  destruct (Ascii.eqb x c'); [now apply Ascii.eqb_neq|exact Hx].
Qed.

Lemma replace_char_absent c d s :
  has_char c s = false -> Sanitize.replace_char c d s = s.
Proof.
  induction s as [|x r IH]; cbn; [reflexivity|].
  intros H. apply orb_false_iff in H as [Hx Hr].
  now rewrite Hx, IH.
Qed.

Lemma replace_dcolon_absent s :
  has_char ":" s = false -> Sanitize.replace_dcolon s = s.
Proof.
  induction s as [|x r IH]; [reflexivity|].
  intros H. cbn [has_char] in H. apply orb_false_iff in H as [Hx Hr].
  assert (Hstep : Sanitize.replace_dcolon (String x r)
                  = String x (Sanitize.replace_dcolon r)).
  { apply Ascii.eqb_neq in Hx.
    destruct x as [[] [] [] [] [] [] [] []]; try reflexivity.
    contradiction Hx; reflexivity. }
  rewrite Hstep. now rewrite IH.
Qed.

(** X1.  The sanitised key never contains a colon, a slash or a backslash;
    a name that contains none of them is its own key; hence sanitising is
    idempotent: a key read back from getAllAuthFiles addresses the same
    entry as the name it came from. *)
Theorem sanitize_output_is_plain :
  forall s : string,
    plain_name (Sanitize.sanitize s)
    /\ (plain_name s -> Sanitize.sanitize s = s)
    /\ Sanitize.sanitize (Sanitize.sanitize s) = Sanitize.sanitize s.
Proof.
  assert (Hplain : forall s, plain_name (Sanitize.sanitize s)).
  { intros s. unfold plain_name, Sanitize.sanitize. repeat split.
    - apply has_char_replace_other; [discriminate|].
      apply has_char_replace_other; [discriminate|].
      apply has_char_replace_same; discriminate.
    - apply has_char_replace_other; [discriminate|].
      apply has_char_replace_same; discriminate.
    - apply has_char_replace_same; discriminate. }
  assert (Hid : forall s, plain_name s -> Sanitize.sanitize s = s).
  { intros s (H1 & H2 & H3). unfold Sanitize.sanitize.
    rewrite (replace_dcolon_absent s H1).
    rewrite (replace_char_absent ":" "-" s H1).
    rewrite (replace_char_absent "/" "_" s H2).
    now rewrite (replace_char_absent "\" "_" s H3). }
  intros s. split; [apply Hplain|]. split; [apply Hid|].
  apply Hid, Hplain.
Qed.

Lemma sanitize_output_is_plain_witness :
  Sanitize.sanitize "app-state-sync-key-AAAA" = "app-state-sync-key-AAAA".
Proof.
  apply (proj1 (proj2 (sanitize_output_is_plain "app-state-sync-key-AAAA"))).
  repeat split; reflexivity.
Defined.

(** ** Ordering of listings *)

Lemma insert_desc_sorted {A : Type} (key : A -> Z) (x : A) (l : list A) :
  StronglySorted (fun a b => key a >= key b) l ->
  StronglySorted (fun a b => key a >= key b) (insert_desc key x l).
Proof.
  induction 1 as [|y r Hr IH Hy]; cbn.
  - constructor; constructor.
  - destruct (key y <? key x) eqn:E.
    + apply Z.ltb_lt in E. constructor.
      * constructor; assumption.
      * constructor; [lia|].
        eapply List.Forall_impl; [|exact Hy]. cbn. intros a Ha. lia.
    + apply Z.ltb_ge in E. constructor; [exact IH|].
      apply List.Forall_forall. intros a Ha.
      apply (Permutation_in _ (insert_desc_perm key x r)) in Ha.
      destruct Ha as [<-|Ha]; [lia|].
      rewrite List.Forall_forall in Hy. now apply Hy.
Qed.

Lemma sort_desc_sorted {A : Type} (key : A -> Z) (l : list A) :
  StronglySorted (fun a b => key a >= key b) (sort_desc key l).
Proof.
  induction l as [|x r IH]; cbn; [constructor|].
  now apply insert_desc_sorted.
Qed.

Lemma sorted_map {A B : Type} (f : A -> B) (key : A -> Z) (key' : B -> Z) l :
  (forall a, key' (f a) = key a) ->
  StronglySorted (fun a b => key a >= key b) l ->
  StronglySorted (fun a b => key' a >= key' b) (List.map f l).
Proof.
  intros Hk. induction 1 as [|y r Hr IH Hy]; cbn; constructor; [exact IH|].
  apply List.Forall_forall. intros b Hb. apply List.in_map_iff in Hb as (a & <- & Ha).
  rewrite !Hk. rewrite List.Forall_forall in Hy. now apply Hy.
Qed.

(** X2.  getAllSessions of the coordinator lists the records most recently
    updated first, whichever backend serves the listing. *)
Theorem getAllSessions_most_recent_first :
  forall s : Coordinator.t,
    StronglySorted (fun a b => time_of (updatedAt a) >= time_of (updatedAt b))
                   (Coordinator.getAllSessions s).
Proof.
  intros [m p]. unfold Coordinator.getAllSessions, Postgres.getAllSessions,
    Mongo.getAllSessions; cbn [Coordinator.mongoStorage Coordinator.postgresStorage].
  destruct (Postgres.connected p); cbn [negb].
  - destruct (Postgres.failing p); [constructor|].
    rewrite List.map_map.
    apply (sorted_map _ Postgres.updated_at); [reflexivity|apply sort_desc_sorted].
  - destruct (Mongo.connected m); cbn [negb]; [|constructor].
    destruct (Mongo.failing m); [constructor|].
    rewrite List.map_map.
    apply (sorted_map _ Mongo.d_updatedAt); [reflexivity|apply sort_desc_sorted].
Qed.

(** ** MongoDB adapter: records *)

Lemma findOne_none_ids sid l :
  Mongo.findOne sid l = None <-> ~ In sid (List.map Mongo.d_sessionId l).
Proof.
  induction l as [|d r IH]; cbn; [tauto|].
  destruct (String.eqb_spec (Mongo.d_sessionId d) sid) as [E|E].
  - split; [discriminate|]. intros H. exfalso. apply H. now left.
  - rewrite IH. tauto.
Qed.

Lemma findOne_modify_first_other sid sid' f l l' :
  sid' <> sid ->
  (forall d, String.eqb (Mongo.d_sessionId d) sid = true ->
             String.eqb (Mongo.d_sessionId (f d)) sid = true) ->
  Mongo.modify_first sid f l = Some l' ->
  Mongo.findOne sid' l' = Mongo.findOne sid' l.
Proof.
  intros Hne Hf. revert l'. induction l as [|d r IH]; cbn; intros l' H; [discriminate|].
  destruct (String.eqb (Mongo.d_sessionId d) sid) eqn:E.
  - injection H as <-. cbn.
    pose proof (Hf d E) as E'. apply String.eqb_eq in E, E'.
    rewrite E, E'. apply not_eq_sym, String.eqb_neq in Hne. now rewrite Hne.
  - destruct (Mongo.modify_first sid f r) as [r'|]; [|discriminate].
    injection H as <-. cbn. destruct (String.eqb (Mongo.d_sessionId d) sid');
      [reflexivity|now apply IH].
Qed.

Lemma findOne_app_other sid' l d :
  Mongo.d_sessionId d <> sid' ->
  Mongo.findOne sid' (l ++ [d]) = Mongo.findOne sid' l.
Proof.
  intros Hne. induction l as [|x r IH]; cbn.
  - now apply String.eqb_neq in Hne as ->.
  - destruct (String.eqb (Mongo.d_sessionId x) sid'); [reflexivity|exact IH].
Qed.

Lemma findOne_replaceOne_other sid sid' d l :
  Mongo.d_sessionId d = sid -> sid' <> sid ->
  Mongo.findOne sid' (Mongo.replaceOne_upsert sid d l) = Mongo.findOne sid' l.
Proof.
  intros Hd Hne. unfold Mongo.replaceOne_upsert.
  destruct (Mongo.modify_first sid (fun _ => d) l) as [l'|] eqn:H.
  - eapply findOne_modify_first_other; [exact Hne| |exact H].
    intros d0 _. cbn beta. rewrite Hd. apply String.eqb_refl.
  - apply findOne_app_other. congruence.
Qed.

(** X3.  On a serving MongoDB adapter a save is accepted and a read of the
    same session returns the saved record with the defaults filled in: an
    owner taken from telegramId or else userId, isConnected false when
    omitted, connectionStatus disconnected, reconnectAttempts 0 and source
    web when missing or falsy, detected true unless it was the boolean
    false, and both timestamps set (createdAt only when none was given).
    The records of other sessions read as before. *)
Theorem mongo_save_then_get :
  forall (now : Z) (sid : string) (data : sdata) (m : Mongo.t),
    mongo_serving m ->
    snd (Mongo.saveSession now sid data m) = true
    /\ Mongo.getSession sid (fst (Mongo.saveSession now sid data m))
       = Some {| sessionId := JStr sid;
                 userId := Mongo.bson (js_or (telegramId data) (userId data));
                 telegramId := Mongo.bson (js_or (telegramId data) (userId data));
                 phoneNumber := Mongo.bson (phoneNumber data);
                 isConnected := if defined (isConnected data)
                                then isConnected data else JBool false;
                 connectionStatus := js_or (connectionStatus data) (JStr "disconnected");
                 reconnectAttempts := js_or (reconnectAttempts data) (JNum 0);
                 source := js_or (source data) (JStr "web");
                 detected := reported (detected data);
                 createdAt := js_or (createdAt data) (JDate now);
                 updatedAt := JDate now |}
    /\ (forall sid', sid' <> sid ->
          Mongo.getSession sid' (fst (Mongo.saveSession now sid data m))
          = Mongo.getSession sid' m).
Proof.
  intros now sid data m (Hc & Hf).
  unfold Mongo.saveSession, Mongo.getSession. rewrite Hc, Hf. cbn [negb fst snd].
  cbn [Mongo.set_sessions Mongo.connected Mongo.failing Mongo.sessions].
  rewrite Hc, Hf. cbn [negb].
  split; [reflexivity|]. split.
  - rewrite findOne_replaceOne_upsert by reflexivity. cbn [option_map].
    unfold Mongo.to_session. cbn. f_equal. f_equal.
    + unfold js_or at 1. destruct (truthy (js_or (source data) (JStr "web"))) eqn:E;
        [reflexivity|].
      unfold js_or in E. destruct (truthy (source data)) eqn:E2; [congruence|discriminate].
    + rewrite <- reported_neq_false. now destruct (neq_false (detected data)).
  - intros sid' Hne. now rewrite findOne_replaceOne_other.
Qed.

Lemma mongo_save_then_get_witness :
  option_map connectionStatus
    (Mongo.getSession "session_42"
       (fst (Mongo.saveSession 5 "session_42" empty_obj mongo_empty)))
  = Some (JStr "disconnected").
Proof.
  pose proof (mongo_save_then_get 5 "session_42" empty_obj mongo_empty
                (conj eq_refl eq_refl)) as (_ & H & _).
  rewrite H. reflexivity.
Defined.

Lemma modify_first_matching_ids sid f l l' :
  (forall d, Mongo.d_sessionId d = sid -> Mongo.d_sessionId (f d) = sid) ->
  Mongo.modify_first sid f l = Some l' ->
  List.map Mongo.d_sessionId l' = List.map Mongo.d_sessionId l.
Proof.
  intros Hf. revert l'. induction l as [|d r IH]; cbn; intros l' H; [discriminate|].
  destruct (String.eqb_spec (Mongo.d_sessionId d) sid) as [E|E].
  - injection H as <-. cbn. now rewrite (Hf d E), E.
  - destruct (Mongo.modify_first sid f r) as [r'|]; [|discriminate].
    injection H as <-. cbn. f_equal. now apply IH.
Qed.

Lemma classic_in sid (l : list Mongo.doc) :
  In sid (List.map Mongo.d_sessionId l) \/ ~ In sid (List.map Mongo.d_sessionId l).
Proof. destruct (List.in_dec string_dec sid (List.map Mongo.d_sessionId l)); tauto. Qed.

Lemma replaceOne_upsert_ids sid d l :
  Mongo.d_sessionId d = sid ->
  (In sid (List.map Mongo.d_sessionId l) ->
     List.map Mongo.d_sessionId (Mongo.replaceOne_upsert sid d l)
     = List.map Mongo.d_sessionId l)
  /\ (~ In sid (List.map Mongo.d_sessionId l) ->
       List.map Mongo.d_sessionId (Mongo.replaceOne_upsert sid d l)
       = (List.map Mongo.d_sessionId l ++ [sid])%list).
Proof.
  intros Hd. unfold Mongo.replaceOne_upsert.
  destruct (Mongo.modify_first sid (fun _ => d) l) as [l'|] eqn:H.
  - assert (Hin : In sid (List.map Mongo.d_sessionId l)).
    { destruct (classic_in sid l) as [Hin|Hnin]; [exact Hin|].
      apply findOne_none_ids in Hnin.
      apply (modify_first_none sid (fun _ => d)) in Hnin. congruence. }
    split; [|intros Hn; contradiction].
    intros _. eapply modify_first_matching_ids; [|exact H]. intros d0 _. exact Hd.
  - apply modify_first_none in H. apply findOne_none_ids in H.
    split; [intros Hin; contradiction|].
    intros _. rewrite List.map_app. cbn. now rewrite Hd.
Qed.

Lemma deleteOne_ids sid l l' :
  Mongo.deleteOne sid l = Some l' ->
  List.NoDup (List.map Mongo.d_sessionId l) ->
  List.NoDup (List.map Mongo.d_sessionId l')
  /\ ~ In sid (List.map Mongo.d_sessionId l')
  /\ (forall x, In x (List.map Mongo.d_sessionId l') ->
                In x (List.map Mongo.d_sessionId l)).
Proof.
  revert l'. induction l as [|d r IH]; cbn; intros l' H Hnd; [discriminate|].
  apply List.NoDup_cons_iff in Hnd as [Hd Hr].
  destruct (String.eqb_spec (Mongo.d_sessionId d) sid) as [E|E].
  - injection H as <-. subst sid. repeat split; [exact Hr|exact Hd|]. intros x Hx. now right.
  - destruct (Mongo.deleteOne sid r) as [r'|] eqn:Hdel; [|discriminate].
    injection H as <-. destruct (IH r' eq_refl Hr) as (A & B & C). cbn.
    repeat split.
    + apply List.NoDup_cons_iff. split; [|exact A]. intros Hin. apply Hd. now apply C.
    + intros [Hx|Hx]; [contradiction|]. now apply B.
    + intros x [Hx|Hx]; [now left|right; now apply C].
Qed.

Lemma deleteOne_none sid l :
  Mongo.deleteOne sid l = None <-> Mongo.findOne sid l = None.
Proof.
  induction l as [|d r IH]; cbn; [tauto|].
  destruct (String.eqb (Mongo.d_sessionId d) sid); [split; discriminate|].
  destruct (Mongo.deleteOne sid r); cbn.
  - split; [discriminate|]. intros H. apply IH in H. discriminate.
  - split; [|reflexivity]. intros _. now apply IH.
Qed.

(** X4.  The sessions collection holds at most one document per sessionId,
    and every write of the adapter keeps it so: a save replaces the
    document of the session or adds one, an update never adds a document,
    and a delete removes the one there is.  So after deleteSession the
    session can no longer be read, and the call reports whether there was
    a document. *)
Theorem mongo_one_document_per_session :
  forall (now : Z) (sid : string) (data : sdata) (m : Mongo.t),
    List.NoDup (mongo_ids m) ->
    List.NoDup (mongo_ids (fst (Mongo.saveSession now sid data m)))
    /\ List.NoDup (mongo_ids (fst (Mongo.updateSession now sid data m)))
    /\ mongo_ids (fst (Mongo.updateSession now sid data m)) = mongo_ids m
    /\ List.NoDup (mongo_ids (fst (Mongo.deleteSession sid m)))
    /\ Mongo.getSession sid (fst (Mongo.deleteSession sid m)) = None
    /\ (mongo_serving m ->
        (snd (Mongo.deleteSession sid m) = true <-> In sid (mongo_ids m))).
Proof.
  intros now sid data m Hnd. unfold mongo_ids in *.
  assert (Hupd : List.map Mongo.d_sessionId
                   (Mongo.sessions (fst (Mongo.updateSession now sid data m)))
                 = List.map Mongo.d_sessionId (Mongo.sessions m)).
  { unfold Mongo.updateSession.
    destruct (Mongo.connected m); cbn [negb fst]; [|reflexivity].
    destruct (Mongo.failing m); cbn [fst]; [reflexivity|].
    destruct (Mongo.modify_first sid (Mongo.apply_updates now data) (Mongo.sessions m))
      as [l'|] eqn:H; cbn [fst Mongo.set_sessions Mongo.sessions]; [|reflexivity].
    eapply modify_first_ids; [|exact H]. reflexivity. }
  split.
  { unfold Mongo.saveSession.
    destruct (Mongo.connected m); cbn [negb fst]; [|exact Hnd].
    destruct (Mongo.failing m); cbn [fst Mongo.set_sessions Mongo.sessions]; [exact Hnd|].
    match goal with
    | |- List.NoDup (List.map _ (Mongo.replaceOne_upsert sid ?d _)) =>
        destruct (replaceOne_upsert_ids sid d (Mongo.sessions m) eq_refl) as [Hyes Hno]
    end.
    destruct (classic_in sid (Mongo.sessions m)) as [Hin|Hnin].
    - now rewrite (Hyes Hin).
    - rewrite (Hno Hnin). apply List.NoDup_app; [exact Hnd| |].
      + constructor; [intros []|constructor].
      + intros x Hx [<-|[]]. contradiction. }
  split; [now rewrite Hupd|]. split; [exact Hupd|].
  unfold Mongo.deleteSession, Mongo.getSession, mongo_serving.
  destruct (Mongo.connected m) eqn:Hc; cbn [negb fst snd].
  2:{ rewrite Hc. cbn [negb]. split; [exact Hnd|]. split; [reflexivity|].
      intros [Hx _]; discriminate Hx. }
  destruct (Mongo.failing m) eqn:Hf; cbn [fst snd].
  { rewrite Hc, Hf. cbn [negb]. split; [exact Hnd|]. split; [reflexivity|].
    intros [_ Hx]; discriminate Hx. }
  destruct (Mongo.deleteOne sid (Mongo.sessions m)) as [l'|] eqn:Hdel;
    cbn [fst snd Mongo.set_sessions Mongo.sessions Mongo.connected Mongo.failing];
    rewrite ?Hc, ?Hf; cbn [negb].
  - destruct (deleteOne_ids sid _ _ Hdel Hnd) as (A & B & C).
    split; [exact A|]. split.
    + apply findOne_none_ids in B. now rewrite B.
    + intros _. split; [intros _|reflexivity].
      destruct (classic_in sid (Mongo.sessions m)) as [Hin|Hnin]; [exact Hin|].
      apply findOne_none_ids, deleteOne_none in Hnin. congruence.
  - split; [exact Hnd|]. apply deleteOne_none in Hdel. split; [now rewrite Hdel|].
    intros _. split; [discriminate|]. intros Hin. apply findOne_none_ids in Hdel.
    contradiction.
Qed.

Lemma mongo_one_document_per_session_witness :
  Mongo.getSession "session_42"
    (fst (Mongo.deleteSession "session_42"
            (fst (Mongo.saveSession 5 "session_42" empty_obj mongo_empty)))) = None.
Proof.
  assert (Hnd : List.NoDup
                  (mongo_ids (fst (Mongo.saveSession 5 "session_42" empty_obj mongo_empty)))).
  { cbn. constructor; [intros []|constructor]. }
  pose proof (mongo_one_document_per_session 0 "session_42" empty_obj
                (fst (Mongo.saveSession 5 "session_42" empty_obj mongo_empty)) Hnd)
    as (_ & _ & _ & _ & H & _).
  exact H.
Defined.

(** ** MongoDB adapter: connection retries *)

(** X5.  A failed connection attempt marks the adapter disconnected.  The
    first three failures schedule a retry, after 5000, 10000 and 20000 ms
    (the delay doubles and stays below the 30000 ms cap, which is never
    reached); from the fourth failure on nothing is scheduled, and the
    retry counter never exceeds maxRetries. *)
Theorem mongo_retry_schedule :
  forall m : Mongo.t,
    0 <= Mongo.retryCount m <= Mongo.maxRetries ->
    let m' := fst (Mongo.initConnection_failed m) in
    Mongo.connected m' = false
    /\ 0 <= Mongo.retryCount m' <= Mongo.maxRetries
    /\ Mongo.sessions m' = Mongo.sessions m /\ Mongo.auth m' = Mongo.auth m
    /\ (Mongo.retryCount m < Mongo.maxRetries ->
        Mongo.retryCount m' = Mongo.retryCount m + 1
        /\ snd (Mongo.initConnection_failed m) = Some (5000 * 2 ^ Mongo.retryCount m)
        /\ 5000 <= 5000 * 2 ^ Mongo.retryCount m <= 20000)
    /\ (Mongo.retryCount m = Mongo.maxRetries ->
        m' = Mongo.mkT false (Mongo.has_authBaileys m) (Mongo.failing m)
                       (Mongo.sessions m) (Mongo.auth m) (Mongo.retryCount m)
        /\ snd (Mongo.initConnection_failed m) = None).
Proof.
  intros m Hr. unfold Mongo.initConnection_failed, Mongo.maxRetries in *.
  destruct (Mongo.retryCount m <? 3) eqn:E;
    cbn [fst snd Mongo.connected Mongo.retryCount Mongo.sessions Mongo.auth].
  - apply Z.ltb_lt in E.
    assert (Hv : Mongo.retryCount m = 0 \/ Mongo.retryCount m = 1
                 \/ Mongo.retryCount m = 2) by lia.
    split; [reflexivity|]. split; [lia|]. split; [reflexivity|].
    split; [reflexivity|]. split.
    + intros _. split; [reflexivity|]. split.
      * unfold Mongo.retry_delay.
        destruct Hv as [-> | [-> | ->]]; reflexivity.
      * destruct Hv as [-> | [-> | ->]]; cbn; lia.
    + intros Heq. lia.
  - apply Z.ltb_ge in E.
    split; [reflexivity|]. split; [lia|]. split; [reflexivity|].
    split; [reflexivity|]. split.
    + intros Hlt. lia.
    + intros _. split; reflexivity.
Qed.

Lemma mongo_retry_schedule_witness :
  snd (Mongo.initConnection_failed (Mongo.mkT true true false [] [] 2)) = Some 20000.
Proof.
  pose proof (mongo_retry_schedule (Mongo.mkT true true false [] [] 2)) as H.
  cbv zeta in H.
  assert (Hr : 0 <= Mongo.retryCount (Mongo.mkT true true false [] [] 2) <= Mongo.maxRetries)
    by (cbn; unfold Mongo.maxRetries; lia).
  destruct (H Hr) as (_ & _ & _ & _ & Hlt & _).
  assert (Hl : Mongo.retryCount (Mongo.mkT true true false [] [] 2) < Mongo.maxRetries)
    by (cbn; unfold Mongo.maxRetries; lia).
  exact (proj1 (proj2 (Hlt Hl))).
Defined.

(** ** MongoDB adapter: purging credentials *)

Lemma auth_of_exclusive sid sid' a :
  sid' <> sid -> Mongo.auth_of sid a = true -> Mongo.auth_of sid' a = false.
Proof.
  unfold Mongo.auth_of. intros Hne H. apply String.eqb_eq in H.
  apply String.eqb_neq. congruence.
Qed.

Lemma filter_auth_of_other sid sid' l :
  sid' <> sid ->
  List.filter (Mongo.auth_of sid')
    (List.filter (fun a => negb (Mongo.auth_of sid a)) l)
  = List.filter (Mongo.auth_of sid') l.
Proof.
  intros Hne. induction l as [|a r IH]; [reflexivity|].
  cbn [List.filter]. destruct (Mongo.auth_of sid a) eqn:E1; cbn [negb List.filter].
  - now rewrite (auth_of_exclusive sid sid' a Hne E1).
  - destruct (Mongo.auth_of sid' a); now rewrite IH.
Qed.

Lemma find_auth_match_other sid sid' name l :
  sid' <> sid ->
  List.find (Mongo.auth_match sid' name)
    (List.filter (fun a => negb (Mongo.auth_of sid a)) l)
  = List.find (Mongo.auth_match sid' name) l.
Proof.
  intros Hne. induction l as [|a r IH]; [reflexivity|].
  cbn [List.filter List.find]. destruct (Mongo.auth_of sid a) eqn:E1;
    cbn [negb List.find].
  - assert (E2 : Mongo.auth_match sid' name a = false).
    { unfold Mongo.auth_match.
      pose proof (auth_of_exclusive sid sid' a Hne E1) as E. unfold Mongo.auth_of in E.
      now rewrite E. }
    now rewrite E2.
  - destruct (Mongo.auth_match sid' name a); [reflexivity|exact IH].
Qed.

Lemma filter_length_le {A : Type} (f : A -> bool) (l : list A) :
  (length (List.filter f l) <= length l)%nat.
Proof. induction l as [|a r IH]; cbn; [lia|]. destruct (f a); cbn; lia. Qed.

Lemma filter_split_length {A : Type} (f : A -> bool) (l : list A) :
  (length l = length (List.filter f l)
              + length (List.filter (fun a => negb (f a)) l))%nat.
Proof.
  induction l as [|a r IH]; cbn; [reflexivity|]. destruct (f a); cbn; lia.
Qed.

(** X6.  deleteAuthState on a serving adapter removes every credential
    blob of the session and nothing else: the session has no blob name
    left, the blobs of every other session are listed and read as before,
    the session records are untouched, and the call returns true exactly
    when there was something to delete. *)
Theorem deleteAuthState_purges_one_session :
  forall (sid : string) (m : Mongo.t),
    mongo_up m ->
    let m' := fst (Mongo.deleteAuthState sid m) in
    Mongo.getAllAuthFiles sid m' = []
    /\ (forall sid', sid' <> sid ->
          Mongo.getAllAuthFiles sid' m' = Mongo.getAllAuthFiles sid' m
          /\ forall name, Mongo.readAuthData sid' name m' = Mongo.readAuthData sid' name m)
    /\ Mongo.sessions m' = Mongo.sessions m
    /\ (snd (Mongo.deleteAuthState sid m) = true
        <-> Mongo.getAllAuthFiles sid m <> []).
Proof.
  intros sid m Hup. pose proof Hup as (Hc & Ha & Hf). cbv zeta.
  pose proof (count_after_deleteAuthState sid m Hup) as Hcnt.
  unfold Mongo.getAllAuthFiles, Mongo.readAuthData, Mongo.deleteAuthState in *.
  rewrite Hc, Ha, Hf in *. cbn [negb orb fst snd] in *.
  cbn [Mongo.set_auth Mongo.connected Mongo.has_authBaileys Mongo.failing Mongo.auth
       Mongo.sessions] in *.
  rewrite Hc, Ha, Hf. cbn [negb orb].
  split; [now rewrite Hcnt|]. split; [|split; [reflexivity|]].
  - intros sid' Hne. split.
    + now rewrite filter_auth_of_other.
    + intros name. now rewrite find_auth_match_other.
  - pose proof (filter_split_length (Mongo.auth_of sid) (Mongo.auth m)) as Hlen.
    split.
    + intros H. apply Nat.ltb_lt in H. intros Hnil.
      apply (f_equal (@length _)) in Hnil. rewrite List.length_map in Hnil.
      cbn in Hnil. lia.
    + intros H. apply Nat.ltb_lt.
      destruct (List.filter (Mongo.auth_of sid) (Mongo.auth m)) as [|a r] eqn:E;
        [contradiction|]. cbn in Hlen. lia.
Qed.

Lemma deleteAuthState_purges_one_session_witness :
  Mongo.getAllAuthFiles "session_7"
    (fst (Mongo.deleteAuthState "session_7"
            (Coordinator.mongoStorage (storage world_7_open)))) = [].
Proof.
  refine (proj1 (deleteAuthState_purges_one_session "session_7"
                   (Coordinator.mongoStorage (storage world_7_open)) _)).
  repeat split; vm_compute; reflexivity.
Defined.

(** ** The two backends disagree *)

(** X7.  PostgreSQL writes only isConnected, a non-empty connectionStatus,
    phoneNumber, reconnectAttempts and detected: an update that carries
    none of them (for instance only a new source) is rejected there and
    changes nothing, while a serving MongoDB adapter that holds the record
    accepts it and stores the source.  Through the coordinator such an
    update succeeds and leaves PostgreSQL as it was. *)
Theorem source_update_reaches_mongo_only :
  forall (now : Z) (sid : string) (u : sdata) (s : Coordinator.t),
    nothing_for_postgres u ->
    Postgres.updateSession now sid (Coordinator.stamp now u) (Coordinator.postgresStorage s)
    = (Coordinator.postgresStorage s, false)
    /\ Coordinator.postgresStorage (fst (Coordinator.updateSession now sid u s))
       = Coordinator.postgresStorage s
    /\ (mongo_serving (Coordinator.mongoStorage s) ->
        In sid (mongo_ids (Coordinator.mongoStorage s)) ->
        defined (source u) = true ->
        snd (Coordinator.updateSession now sid u s) = true
        /\ option_map Mongo.d_source
             (Mongo.findOne sid
                (Mongo.sessions
                   (Coordinator.mongoStorage (fst (Coordinator.updateSession now sid u s)))))
           = Some (source u)).
Proof.
  intros now sid u [m p] (H1 & H2 & H3 & H4 & H5).
  cbn [Coordinator.mongoStorage Coordinator.postgresStorage].
  assert (Hpg : Postgres.updateSession now sid (Coordinator.stamp now u) p = (p, false)).
  { unfold Postgres.updateSession.
    destruct (Postgres.connected p); cbn [negb]; [|reflexivity].
    destruct (Postgres.failing p); [reflexivity|].
    unfold Postgres.set_parts. cbn [Coordinator.stamp Obj.isConnected connectionStatus
      phoneNumber reconnectAttempts detected].
    rewrite H1, H2, H3, H4, H5. reflexivity. }
  split; [exact Hpg|].
  unfold Coordinator.updateSession;
    cbn [Coordinator.mongoStorage Coordinator.postgresStorage].
  rewrite Hpg.
  split.
  { destruct (Mongo.connected m);
      [destruct (Mongo.updateSession now sid (Coordinator.stamp now u) m)|];
      destruct (Postgres.connected p); reflexivity. }
  intros (Hc & Hf) Hin Hsrc. unfold mongo_ids in Hin.
  rewrite Hc. unfold Mongo.updateSession. rewrite Hc, Hf. cbn [negb].
  destruct (Mongo.modify_first sid (Mongo.apply_updates now (Coordinator.stamp now u))
              (Mongo.sessions m)) as [l'|] eqn:Hm.
  - apply findOne_modify_first in Hm; [|intros d Hd; exact Hd].
    destruct (Mongo.findOne sid (Mongo.sessions m)) as [d|] eqn:F.
    + destruct (Postgres.connected p);
        cbn [fst snd Coordinator.mongoStorage Mongo.set_sessions Mongo.sessions orb];
        rewrite Hm; cbn; rewrite Hsrc; split; reflexivity.
    + apply findOne_none_ids in F. contradiction.
  - apply modify_first_none, findOne_none_ids in Hm. contradiction.
Qed.

Lemma source_update_reaches_mongo_only_witness :
  snd (Coordinator.updateSession 9 "session_42" (only_source "api") (storage world_created))
  = true
  /\ Coordinator.postgresStorage
       (fst (Coordinator.updateSession 9 "session_42" (only_source "api")
               (storage world_created)))
     = Coordinator.postgresStorage (storage world_created).
Proof.
  pose proof (source_update_reaches_mongo_only 9 "session_42" (only_source "api")
                (storage world_created)) as H.
  assert (Hn : nothing_for_postgres (only_source "api")) by (repeat split; reflexivity).
  destruct (H Hn) as (_ & Hp & Hm).
  split; [|exact Hp].
  refine (proj1 (Hm _ _ _)).
  - split; vm_compute; reflexivity.
  - vm_compute. left. reflexivity.
  - reflexivity.
Defined.

Lemma postgres_listed_has_row sid p :
  In (JStr sid)
     (List.map sessionId
        (List.map Coordinator._formatSessionData (Postgres.getAllSessions p))) ->
  postgres_serving p
  /\ exists r, In r (Postgres.users p) /\ Postgres.session_id r = Some sid.
Proof.
  rewrite postgres_listing_ids. unfold postgres_serving.
  destruct (Postgres.connected p), (Postgres.failing p); cbn [negb orb];
    try (intros []).
  intros H. split; [split; reflexivity|].
  apply List.in_map_iff in H as (r & Hr & Hin).
  apply (Permutation_in _ (sort_desc_perm _ _)) in Hin.
  apply List.filter_In in Hin as [Hin _].
  exists r. split; [exact Hin|].
  unfold postgres_listed_id in Hr. destruct (Postgres.session_id r); [|discriminate].
  now injection Hr as ->.
Qed.

(** X8.  The two read paths use opposite precedences.  While PostgreSQL is
    connected, a session that only MongoDB holds (PostgreSQL has no row
    for it) is found by getSession and is missing from getAllSessions. *)
Theorem session_found_but_not_listed :
  forall (sid : string) (s : Coordinator.t) (d : sdata),
    Postgres.connected (Coordinator.postgresStorage s) = true ->
    postgres_lacks sid (Coordinator.postgresStorage s) ->
    Mongo.connected (Coordinator.mongoStorage s) = true ->
    Mongo.getSession sid (Coordinator.mongoStorage s) = Some d ->
    Coordinator.getSession sid s = Some (Coordinator._formatSessionData d)
    /\ ~ In (JStr sid) (List.map sessionId (Coordinator.getAllSessions s)).
Proof.
  intros sid [m p] d Hp Hlack Hm Hget.
  cbn [Coordinator.mongoStorage Coordinator.postgresStorage] in *.
  unfold Coordinator.getSession, Coordinator.getAllSessions;
    cbn [Coordinator.mongoStorage Coordinator.postgresStorage].
  rewrite Hm, Hp, Hget. split; [reflexivity|].
  intros Hin. apply postgres_listed_has_row in Hin as (_ & r & Hr & Hs).
  exact (Hlack r Hr Hs).
Qed.

Lemma session_found_but_not_listed_witness :
  is_Some (Coordinator.getSession "session_9" (storage world_created_prefixed))
  /\ ~ In (JStr "session_9")
         (List.map sessionId (Coordinator.getAllSessions (storage world_created_prefixed))).
Proof.
  assert (Hg : Mongo.getSession "session_9"
                 (Coordinator.mongoStorage (storage world_created_prefixed))
               = Some (Mongo.to_session
                         (Mongo.mkDoc "session_9" (JStr "session_9") (JStr "15550009")
                            (JBool false) (JStr "connecting") (JNum 0) (JStr "web")
                            (JBool false) (JDate 0) 0)))
    by (vm_compute; reflexivity).
  destruct (session_found_but_not_listed "session_9" (storage world_created_prefixed) _
              ltac:(vm_compute; reflexivity)
              ltac:(intros r Hr; vm_compute in Hr; destruct Hr)
              ltac:(vm_compute; reflexivity) Hg) as [H1 H2].
  split; [rewrite H1; eexists; reflexivity|exact H2].
Defined.

(** ** Complete deletion *)

Lemma postgres_find_after_delete sid l :
  List.find (Postgres.has_session sid)
            (List.filter (fun r => negb (Postgres.has_session sid r)) l) = None.
Proof.
  induction l as [|r rest IH]; cbn; [reflexivity|].
  destruct (Postgres.has_session sid r) eqn:E; cbn; [exact IH|].
  now rewrite E.
Qed.

Lemma postgres_get_after_delete sid p :
  Postgres.getSession sid (fst (Postgres.completelyDeleteSession sid p)) = None.
Proof.
  unfold Postgres.completelyDeleteSession, Postgres.getSession.
  destruct (Postgres.connected p) eqn:Hc; cbn [negb fst]; [|now rewrite Hc].
  destruct (Postgres.failing p) eqn:Hf; cbn [fst]; [now rewrite Hc, Hf|].
  cbn [Postgres.set_users Postgres.connected Postgres.failing Postgres.users].
  rewrite Hc, Hf. cbn [negb]. now rewrite postgres_find_after_delete.
Qed.

Lemma postgres_delete_connected sid p :
  Postgres.connected (fst (Postgres.completelyDeleteSession sid p)) = Postgres.connected p.
Proof.
  unfold Postgres.completelyDeleteSession.
  destruct (Postgres.connected p) eqn:Hc, (Postgres.failing p); cbn; now rewrite ?Hc.
Qed.

Lemma mongo_delete_flags sid m :
  Mongo.connected (fst (Mongo.deleteSession sid m)) = Mongo.connected m
  /\ Mongo.has_authBaileys (fst (Mongo.deleteSession sid m)) = Mongo.has_authBaileys m
  /\ Mongo.failing (fst (Mongo.deleteSession sid m)) = Mongo.failing m
  /\ Mongo.auth (fst (Mongo.deleteSession sid m)) = Mongo.auth m.
Proof.
  unfold Mongo.deleteSession.
  destruct (Mongo.connected m) eqn:Hc, (Mongo.failing m) eqn:Hf; cbn [negb fst];
    try (repeat split; assumption || reflexivity).
  destruct (Mongo.deleteOne sid (Mongo.sessions m)); cbn;
    repeat split; assumption || reflexivity.
Qed.

Lemma mongo_one_document_per_session_aux sid m :
  List.NoDup (mongo_ids m) ->
  Mongo.getSession sid (fst (Mongo.deleteSession sid m)) = None.
Proof.
  intros Hnd. unfold mongo_ids in Hnd. unfold Mongo.deleteSession, Mongo.getSession.
  destruct (Mongo.connected m) eqn:Hc; cbn [negb fst]; [|now rewrite Hc].
  destruct (Mongo.failing m) eqn:Hf; cbn [fst]; [now rewrite Hc, Hf|].
  destruct (Mongo.deleteOne sid (Mongo.sessions m)) as [l'|] eqn:Hdel;
    cbn [fst Mongo.set_sessions Mongo.sessions Mongo.connected Mongo.failing];
    rewrite ?Hc, ?Hf; cbn [negb].
  - destruct (deleteOne_ids sid _ _ Hdel Hnd) as (_ & B & _).
    apply findOne_none_ids in B. now rewrite B.
  - apply deleteOne_none in Hdel. now rewrite Hdel.
Qed.

Lemma deleteAuthState_purges_aux sid m :
  mongo_up m -> Mongo.getAllAuthFiles sid (fst (Mongo.deleteAuthState sid m)) = [].
Proof.
  intros Hup. pose proof Hup as (Hc & Ha & Hf).
  pose proof (count_after_deleteAuthState sid m Hup) as Hcnt.
  unfold Mongo.getAllAuthFiles, Mongo.deleteAuthState in *.
  rewrite Hc, Ha, Hf in *. cbn [negb orb fst] in *.
  cbn [Mongo.set_auth Mongo.connected Mongo.has_authBaileys Mongo.failing Mongo.auth] in *.
  rewrite Hc, Ha, Hf. cbn [negb orb]. now rewrite Hcnt.
Qed.

Lemma coordinator_delete_spec :
  forall (sid : string) (s : Coordinator.t),
    List.NoDup (mongo_ids (Coordinator.mongoStorage s)) ->
    let m := Coordinator.mongoStorage s in
    let p := Coordinator.postgresStorage s in
    let s' := fst (Coordinator.completelyDeleteSession sid s) in
    Coordinator.getSession sid s' = None
    /\ (mongo_up m -> Mongo.getAllAuthFiles sid (Coordinator.mongoStorage s') = [])
    /\ (snd (Coordinator.completelyDeleteSession sid s) = true
        <-> (Mongo.connected m = true
             /\ (snd (Mongo.deleteSession sid m) = true
                 \/ snd (Mongo.deleteAuthState sid (fst (Mongo.deleteSession sid m))) = true))
            \/ (Postgres.connected p = true
                /\ snd (Postgres.completelyDeleteSession sid p) = true)).
Proof.
  intros sid [m p] Hnd. cbn [Coordinator.mongoStorage Coordinator.postgresStorage] in *.
  cbv zeta.
  pose proof (mongo_one_document_per_session_aux sid m Hnd) as Hgone.
  pose proof (mongo_delete_flags sid m) as (F1 & F2 & F3 & F4).
  pose proof (postgres_get_after_delete sid p) as Hpg.
  pose proof (postgres_delete_connected sid p) as Hpc.
  unfold Coordinator.completelyDeleteSession;
    cbn [Coordinator.mongoStorage Coordinator.postgresStorage].
  destruct (Mongo.deleteSession sid m) as [m1 r1] eqn:E1. cbn [fst snd] in *.
  pose proof (getSession_after_deleteAuthState sid sid m1) as (G1 & G2 & _).
  destruct (Mongo.deleteAuthState sid m1) as [m2 r2] eqn:E2. cbn [fst snd] in *.
  destruct (Postgres.completelyDeleteSession sid p) as [p1 r3] eqn:E3. cbn [fst snd] in *.
  split; [|split].
  - unfold Coordinator.getSession.
    destruct (Mongo.connected m) eqn:Hm, (Postgres.connected p) eqn:Hp;
      cbn [fst Coordinator.mongoStorage Coordinator.postgresStorage];
      rewrite ?G2, ?F1, ?Hm, ?Hpc, ?Hp, ?G1, ?Hgone, ?Hpg; reflexivity.
  - intros Hup. pose proof Hup as (Hc & Ha & Hf). rewrite Hc.
    assert (Hup1 : mongo_up m1) by (repeat split; congruence).
    pose proof (deleteAuthState_purges_aux sid m1 Hup1) as Hz. rewrite E2 in Hz.
    destruct (Postgres.connected p); exact Hz.
  - destruct (Mongo.connected m), (Postgres.connected p); cbn;
      destruct r1, r2, r3; cbn; intuition congruence.
Qed.

Lemma mongo_listed_in_ids sid m :
  In (JStr sid)
     (List.map sessionId
        (List.map Coordinator._formatSessionData (Mongo.getAllSessions m))) ->
  mongo_serving m /\ In sid (mongo_ids m).
Proof.
  rewrite mongo_listing_ids. unfold mongo_serving.
  destruct (Mongo.connected m), (Mongo.failing m); cbn [negb orb]; try (intros []).
  intros H. split; [split; reflexivity|].
  apply List.in_map_iff in H as (d & Hd & Hin).
  apply (Permutation_in _ (sort_desc_perm _ _)) in Hin.
  unfold mongo_listed_id in Hd. injection Hd as <-.
  unfold mongo_ids. now apply List.in_map.
Qed.

Lemma mongo_ids_after_delete sid m :
  List.NoDup (mongo_ids m) ->
  mongo_serving m ->
  ~ In sid (mongo_ids (fst (Mongo.deleteSession sid m))).
Proof.
  unfold mongo_ids. intros Hnd (Hc & Hf). unfold Mongo.deleteSession.
  rewrite Hc, Hf. cbn [negb].
  destruct (Mongo.deleteOne sid (Mongo.sessions m)) as [l'|] eqn:Hdel;
    cbn [fst Mongo.set_sessions Mongo.sessions].
  - now destruct (deleteOne_ids sid _ _ Hdel Hnd) as (_ & B & _).
  - now apply deleteOne_none, findOne_none_ids in Hdel.
Qed.

Lemma postgres_not_listed_after_delete sid p :
  ~ In (JStr sid)
      (List.map sessionId
         (List.map Coordinator._formatSessionData
            (Postgres.getAllSessions (fst (Postgres.completelyDeleteSession sid p))))).
Proof.
  intros Hin. apply postgres_listed_has_row in Hin as ((Hc & Hf) & r & Hr & Hs).
  unfold Postgres.completelyDeleteSession in Hc, Hf, Hr.
  destruct (Postgres.connected p) eqn:Ec; cbn [negb fst] in Hc, Hf, Hr; [|congruence].
  destruct (Postgres.failing p) eqn:Ef;
    cbn [fst Postgres.set_users Postgres.users Postgres.failing] in Hf, Hr; [congruence|].
  apply List.filter_In in Hr as [_ Hr]. unfold Postgres.has_session in Hr.
  rewrite Hs, String.eqb_refl in Hr. discriminate.
Qed.

Lemma mongo_not_listed_after_delete sid m :
  List.NoDup (mongo_ids m) ->
  ~ In (JStr sid)
      (List.map sessionId
         (List.map Coordinator._formatSessionData
            (Mongo.getAllSessions
               (fst (Mongo.deleteAuthState sid (fst (Mongo.deleteSession sid m))))))).
Proof.
  intros Hnd Hin. apply mongo_listed_in_ids in Hin as ((Hc & Hf) & Hin).
  destruct (getSession_after_deleteAuthState sid sid (fst (Mongo.deleteSession sid m)))
    as (_ & G2 & G3 & G4).
  destruct (mongo_delete_flags sid m) as (F1 & _ & F3 & _).
  unfold mongo_ids in Hin. rewrite G3 in Hin.
  apply (mongo_ids_after_delete sid m Hnd); [|exact Hin].
  split; congruence.
Qed.

Lemma coordinator_delete_not_listed sid s :
  List.NoDup (mongo_ids (Coordinator.mongoStorage s)) ->
  ~ In (JStr sid)
      (List.map sessionId
         (Coordinator.getAllSessions (fst (Coordinator.completelyDeleteSession sid s)))).
Proof.
  destruct s as [m p]. cbn [Coordinator.mongoStorage]. intros Hnd.
  unfold Coordinator.completelyDeleteSession, Coordinator.getAllSessions;
    cbn [Coordinator.mongoStorage Coordinator.postgresStorage].
  pose proof (postgres_delete_connected sid p) as Hpc.
  pose proof (postgres_not_listed_after_delete sid p) as Hpg.
  pose proof (mongo_not_listed_after_delete sid m Hnd) as Hmg.
  destruct (Mongo.deleteSession sid m) as [m1 r1] eqn:E1. cbn [fst] in *.
  destruct (Mongo.deleteAuthState sid m1) as [m2 r2] eqn:E2. cbn [fst] in *.
  destruct (Postgres.completelyDeleteSession sid p) as [p1 r3] eqn:E3. cbn [fst] in *.
  destruct (Mongo.connected m) eqn:Hm, (Postgres.connected p) eqn:Hp;
    cbn [fst Coordinator.mongoStorage Coordinator.postgresStorage];
    rewrite ?Hpc, ?Hp, ?Hm; try exact Hpg; try (intros []).
  destruct (Mongo.connected m2); [exact Hmg|intros []].
Qed.

(** X9.  completelyDeleteSession starts a delete on every connected
    backend and succeeds when one of them removed something (the record in
    MongoDB, its credential blobs, or the row in PostgreSQL).  Afterwards
    the session can no longer be read back, MongoDB holding at most one
    document per sessionId, and no credential blob is left once the
    credential backend serves. *)
Theorem completelyDeleteSession_removes_session :
  forall (sid : string) (s : Coordinator.t),
    List.NoDup (mongo_ids (Coordinator.mongoStorage s)) ->
    let m := Coordinator.mongoStorage s in
    let p := Coordinator.postgresStorage s in
    let s' := fst (Coordinator.completelyDeleteSession sid s) in
    Coordinator.getSession sid s' = None
    /\ (mongo_up m -> Mongo.getAllAuthFiles sid (Coordinator.mongoStorage s') = [])
    /\ (snd (Coordinator.completelyDeleteSession sid s) = true
        <-> (Mongo.connected m = true
             /\ (snd (Mongo.deleteSession sid m) = true
                 \/ snd (Mongo.deleteAuthState sid (fst (Mongo.deleteSession sid m))) = true))
            \/ (Postgres.connected p = true
                /\ snd (Postgres.completelyDeleteSession sid p) = true)).
Proof. exact coordinator_delete_spec. Qed.

Lemma completelyDeleteSession_removes_session_witness :
  Coordinator.getSession "session_7"
    (fst (Coordinator.completelyDeleteSession "session_7" (storage world_7_open))) = None.
Proof.
  refine (proj1 (completelyDeleteSession_removes_session "session_7"
                   (storage world_7_open) _)).
  vm_compute. constructor; [intros []|constructor].
Defined.

(** ** Session manager: complete cleanup and voluntary disconnect *)

Lemma performCompleteUserCleanup_storage sid w :
  storage (fst (performCompleteUserCleanup sid w))
  = storage (fst (cleanupAuthState sid
       (with_storage (fst (Coordinator.completelyDeleteSession sid (storage w))) w))).
Proof.
  unfold performCompleteUserCleanup.
  destruct (activeSockets w !! sid) as [h|].
  - pose proof (cleanup_frame sid h w) as (Hst & _).
    destruct (_cleanupSocketOnly sid h w) as [w1 r]. cbn [fst] in Hst. wsimpl.
    rewrite Hst.
    destruct (Coordinator.completelyDeleteSession sid (storage w)) as [st rdb].
    unfold cleanupAuthState. wsimpl.
    destruct (Mongo.deleteAuthState sid (Coordinator.mongoStorage st)); reflexivity.
  - wsimpl.
    destruct (Coordinator.completelyDeleteSession sid (storage w)) as [st rdb].
    unfold cleanupAuthState. wsimpl.
    destruct (Mongo.deleteAuthState sid (Coordinator.mongoStorage st)); reflexivity.
Qed.

Lemma mongo_up_after_delete sid s :
  mongo_up (Coordinator.mongoStorage s) ->
  mongo_up (Coordinator.mongoStorage (fst (Coordinator.completelyDeleteSession sid s))).
Proof.
  destruct s as [m p]. cbn [Coordinator.mongoStorage]. intros (Hc & Ha & Hf).
  unfold Coordinator.completelyDeleteSession;
    cbn [Coordinator.mongoStorage Coordinator.postgresStorage].
  rewrite Hc.
  destruct (mongo_delete_flags sid m) as (F1 & F2 & F3 & _).
  destruct (Mongo.deleteSession sid m) as [m1 r1]. cbn [fst] in *.
  assert (Hup1 : mongo_up m1) by (repeat split; congruence).
  assert (Hup2 : mongo_up (fst (Mongo.deleteAuthState sid m1))).
  { destruct Hup1 as (A & B & C). unfold Mongo.deleteAuthState. rewrite A, B, C.
    cbn. repeat split; assumption. }
  destruct (Mongo.deleteAuthState sid m1) as [m2 r2]. cbn [fst] in *.
  destruct (Postgres.connected p);
    [destruct (Postgres.completelyDeleteSession sid p)|]; exact Hup2.
Qed.

(** X10.  performCompleteUserCleanup forgets the session everywhere in the
    process (socket registry, session state, initializing and handed-off
    sets), marks it voluntarily disconnected, and leaves the other
    sessions' registrations alone.  The socket it had registered is torn
    down: that socket object becomes [after_teardown] of itself and the
    calls made on it are exactly [teardown_calls] (flush when buffering,
    removeAllListeners, ws.close(1000) when the transport is open),
    followed by the request to purge the credentials; with no socket
    registered no socket object is touched.  In storage the session can no
    longer be read back nor is it listed by getAllSessions (MongoDB holding
    at most one document per sessionId), and no credential blob remains
    once the credential backend serves.  No timer is scheduled. *)
Theorem performCompleteUserCleanup_forgets_session :
  forall (sid : string) (w : world),
    List.NoDup (mongo_ids (Coordinator.mongoStorage (storage w))) ->
    let w' := fst (performCompleteUserCleanup sid w) in
    activeSockets w' !! sid = None
    /\ sessionState w' !! sid = None
    /\ (sid ∉ initializingSessions w')
    /\ (sid ∈ voluntarilyDisconnected w')
    /\ (sid ∉ handoffComplete w')
    /\ (forall sid', sid' <> sid ->
          activeSockets w' !! sid' = activeSockets w !! sid'
          /\ sessionState w' !! sid' = sessionState w !! sid')
    /\ (forall h, activeSockets w !! sid = Some h ->
          heap w' = alter after_teardown h (heap w)
          /\ trace w' = (trace w ++ teardown_calls_at h w
                                 ++ [EvCleanupAuthState sid])%list)
    /\ (activeSockets w !! sid = None ->
          heap w' = heap w
          /\ trace w' = (trace w ++ [EvCleanupAuthState sid])%list)
    /\ Coordinator.getSession sid (storage w') = None
    /\ ~ In (JStr sid) (List.map sessionId (getAllSessions w'))
    /\ (world_mongo_up w -> credential_count sid w' = 0%nat)
    /\ timers w' = timers w.
Proof.
  intros sid w Hnd w'.
  assert (Hst : storage w'
                = storage (fst (cleanupAuthState sid
                     (with_storage
                        (fst (Coordinator.completelyDeleteSession sid (storage w))) w)))).
  { apply performCompleteUserCleanup_storage. }
  set (wd := with_storage (fst (Coordinator.completelyDeleteSession sid (storage w))) w)
    in Hst.
  destruct (cleanupAuthState_spec sid wd) as (A1 & A2 & A3 & _).
  assert (Hreg : activeSockets w' = delete sid (activeSockets w)
                 /\ sessionState w' = delete sid (sessionState w)
                 /\ initializingSessions w' = initializingSessions w ∖ {[ sid ]}
                 /\ voluntarilyDisconnected w' = {[ sid ]} ∪ voluntarilyDisconnected w
                 /\ handoffComplete w' = handoffComplete w ∖ {[ sid ]}
                 /\ timers w' = timers w
                 /\ heap w' = heap (match activeSockets w !! sid with
                                    | Some h => fst (_cleanupSocketOnly sid h w)
                                    | None => w
                                    end)
                 /\ trace w' = (trace (match activeSockets w !! sid with
                                       | Some h => fst (_cleanupSocketOnly sid h w)
                                       | None => w
                                       end) ++ [EvCleanupAuthState sid])%list).
  { subst w'. unfold performCompleteUserCleanup.
    destruct (activeSockets w !! sid) as [h|].
    - pose proof (cleanup_frame sid h w) as (_ & C2 & C3 & C4 & C5 & C6 & C7 & _).
      destruct (_cleanupSocketOnly sid h w) as [w1 r]. cbn [fst] in *. wsimpl.
      destruct (Coordinator.completelyDeleteSession sid (storage w1)) as [st rdb].
      unfold cleanupAuthState. wsimpl.
      destruct (Mongo.deleteAuthState sid (Coordinator.mongoStorage st)). wsimpl.
      rewrite C2, C3, C4, C5, C6, C7. repeat split; reflexivity.
    - wsimpl.
      destruct (Coordinator.completelyDeleteSession sid (storage w)) as [st rdb].
      unfold cleanupAuthState. wsimpl.
      destruct (Mongo.deleteAuthState sid (Coordinator.mongoStorage st)). wsimpl.
      repeat split; reflexivity. }
  destruct Hreg as (R1 & R2 & R3 & R4 & R5 & R6 & R7 & R8).
  split; [rewrite R1; apply lookup_delete_eq|].
  split; [rewrite R2; apply lookup_delete_eq|].
  split; [rewrite R3; set_solver|].
  split; [rewrite R4; set_solver|].
  split; [rewrite R5; set_solver|].
  split.
  { intros sid' Hne. rewrite R1, R2. split; apply lookup_delete_ne; congruence. }
  split.
  { intros h Hh. rewrite R7, R8.
    repeat match goal with
    | |- context [match ?X with Some _ => _ | None => _ end] =>
        replace X with (Some h) by (symmetry; exact Hh)
    end.
    destruct (cleanup_exact sid h w) as [E1 E2]. rewrite E1, E2.
    split; [reflexivity|now rewrite <- List.app_assoc]. }
  split.
  { intros Hn. rewrite R7, R8.
    repeat match goal with
    | |- context [match ?X with Some _ => _ | None => _ end] =>
        replace X with (@None handle) by (symmetry; exact Hn)
    end.
    split; reflexivity. }
  split.
  { rewrite Hst, A1. subst wd. wsimpl.
    now apply (proj1 (coordinator_delete_spec sid (storage w) Hnd)). }
  split.
  { unfold getAllSessions. rewrite Hst, A2. subst wd. wsimpl.
    now apply coordinator_delete_not_listed. }
  split.
  { intros Hup. unfold credential_count. rewrite Hst. apply A3.
    unfold world_mongo_up. subst wd. wsimpl. now apply mongo_up_after_delete. }
  exact R6.
Qed.

Lemma performCompleteUserCleanup_forgets_session_witness :
  ~ In (JStr "session_7")
      (List.map sessionId
         (getAllSessions (fst (performCompleteUserCleanup "session_7" world_7_open))))
  /\ credential_count "session_7" (fst (performCompleteUserCleanup "session_7" world_7_open))
     = 0%nat.
Proof.
  assert (Hnd : List.NoDup (mongo_ids (Coordinator.mongoStorage (storage world_7_open))))
    by (vm_compute; constructor; [intros []|constructor]).
  destruct (performCompleteUserCleanup_forgets_session "session_7" world_7_open Hnd)
    as (_ & _ & _ & _ & _ & _ & _ & _ & _ & H1 & H2 & _).
  split; [exact H1|].
  apply H2. repeat split; vm_compute; reflexivity.
Defined.

(** What a transport-only disconnect does to a world whose record has been
    marked disconnected. *)
Lemma teardown_and_forget_spec h sid w :
  let w' := registry_delete sid (fst (_cleanupSocketOnly sid h w)) in
  storage w' = storage w /\ timers w' = timers w
  /\ activeSockets w' !! sid = None /\ sessionState w' !! sid = None
  /\ handoffComplete w' = handoffComplete w
  /\ initializingSessions w' = initializingSessions w
  /\ voluntarilyDisconnected w' = voluntarilyDisconnected w
  /\ heap w' = alter after_teardown h (heap w)
  /\ trace w' = (trace w ++ teardown_calls_at h w)%list.
Proof.
  cbv zeta.
  pose proof (cleanup_frame sid h w) as (C1 & C2 & C3 & C4 & C5 & C6 & C7 & _).
  destruct (cleanup_exact sid h w) as [Hheap Hevs].
  wsimpl.
  split; [exact C1|]. split; [exact C2|].
  split; [apply lookup_delete_eq|]. split; [apply lookup_delete_eq|].
  split; [exact C7|]. split; [exact C5|]. split; [exact C6|].
  split; [exact Hheap|exact Hevs].
Qed.

(** X11.  A voluntary (non-forced) disconnect returns true; the session is
    marked voluntarily disconnected and no longer handed off or
    initializing, both registries forget it, and what can be read back of
    its record is marked disconnected.  Its registered socket is torn
    down: the socket object becomes [after_teardown] of itself, and the
    calls made are exactly [teardown_calls] (flush when buffering,
    removeAllListeners, ws.close(1000) when the transport is open) and
    nothing else, so no callback is invoked; with no socket registered
    nothing is called at all.  The credential blobs stay exactly as
    stored, so the session can be resumed without pairing again; no timer
    is set. *)
Theorem disconnectSession_keeps_credentials :
  forall (sid : string) (w : world),
    let w' := fst (disconnectSession sid false w) in
    snd (disconnectSession sid false w) = DDone true
    /\ (sid ∈ voluntarilyDisconnected w')
    /\ (sid ∉ handoffComplete w')
    /\ (sid ∉ initializingSessions w')
    /\ activeSockets w' !! sid = None
    /\ sessionState w' !! sid = None
    /\ (forall h, activeSockets w !! sid = Some h ->
          heap w' = alter after_teardown h (heap w)
          /\ trace w' = (trace w ++ teardown_calls_at h w)%list)
    /\ (activeSockets w !! sid = None -> heap w' = heap w /\ trace w' = trace w)
    /\ record_shows sid (storage w') (shows_status false "disconnected")
    /\ stored_credentials w' = stored_credentials w
    /\ timers w' = timers w.
Proof.
  intros sid w. cbv zeta. unfold disconnectSession. cbn [fst snd].
  set (w3 := with_handoff (fun s => s ∖ {[ sid ]})
               (with_voluntarily (union {[ sid ]})
                  (with_initializing (fun s => s ∖ {[ sid ]}) w))).
  assert (Hw3 : activeSockets w3 = activeSockets w /\ heap w3 = heap w
                /\ storage w3 = storage w /\ trace w3 = trace w /\ timers w3 = timers w
                /\ clock w3 = clock w)
    by (repeat split; reflexivity).
  destruct Hw3 as (E1 & E2 & E3 & E4 & E5 & E6).
  set (w4 := match activeSockets w3 !! sid with
             | Some h => fst (_cleanupSocketOnly sid h w3)
             | None => w3
             end).
  assert (Hw4 : storage w4 = storage w /\ timers w4 = timers w /\ clock w4 = clock w
                /\ handoffComplete w4 = handoffComplete w3
                /\ initializingSessions w4 = initializingSessions w3
                /\ voluntarilyDisconnected w4 = voluntarilyDisconnected w3
                /\ (forall h, activeSockets w !! sid = Some h ->
                      heap w4 = alter after_teardown h (heap w)
                      /\ trace w4 = (trace w ++ teardown_calls_at h w)%list)
                /\ (activeSockets w !! sid = None ->
                      heap w4 = heap w /\ trace w4 = trace w)).
  { subst w4. rewrite E1. destruct (activeSockets w !! sid) as [h|] eqn:Hh.
    - pose proof (cleanup_frame sid h w3) as (C1 & C2 & _ & _ & C5 & C6 & C7 & C8 & _).
      destruct (cleanup_exact sid h w3) as [Hheap Hevs].
      split; [now rewrite C1|]. split; [now rewrite C2|]. split; [now rewrite C8|].
      split; [exact C7|]. split; [exact C5|]. split; [exact C6|]. split.
      + intros h0 Hh0. injection Hh0 as <-.
        rewrite Hheap, Hevs. unfold teardown_calls_at. rewrite E2, E4.
        split; reflexivity.
      + intros Hn. discriminate Hn.
    - split; [exact E3|]. split; [exact E5|]. split; [exact E6|].
      split; [reflexivity|]. split; [reflexivity|]. split; [reflexivity|].
      split; [intros h Hh0; discriminate|].
      intros _. split; [exact E2|exact E4]. }
  destruct Hw4 as (F1 & F2 & F3 & F4 & F5 & F6 & F7 & F8).
  unfold storage_updateSession. wsimpl.
  split; [reflexivity|].
  split; [rewrite F6; subst w3; wsimpl; set_solver|].
  split; [rewrite F4; subst w3; wsimpl; set_solver|].
  split; [rewrite F5; subst w3; wsimpl; set_solver|].
  split; [apply lookup_delete_eq|]. split; [apply lookup_delete_eq|].
  split; [exact F7|].
  split; [exact F8|].
  split.
  { intros r Hr.
    now apply (update_then_read (clock w4) sid upd_disconnected false "disconnected"
                 (storage w4) upd_disconnected_status r Hr). }
  split.
  { unfold stored_credentials. wsimpl. rewrite updateSession_keeps_credentials.
    now rewrite F1. }
  exact F2.
Qed.

(** X12.  A close event with any status code other than 401, 515 and 428
    (or with none), on a session that is not handed off: the record read
    back is marked disconnected; the transport is torn down (the socket
    object becomes [after_teardown] of itself, by exactly the calls of
    [teardown_calls]: flush when buffering, removeAllListeners,
    ws.close(1000) when the transport is open); both registries forget
    the session and the error callback is notified after the teardown;
    the credential blobs stay exactly as stored and no timer is set. *)
Theorem ordinary_close_keeps_credentials :
  forall (h : handle) (sid : string) (cbs : callbacks) (u : update) (w : world),
    sid ∉ handoffComplete w ->
    ordinary_close u ->
    let w' := on_connection_update h sid cbs u w in
    record_shows sid (storage w') (shows_status false "disconnected")
    /\ stored_credentials w' = stored_credentials w
    /\ heap w' = alter after_teardown h (heap w)
    /\ activeSockets w' !! sid = None
    /\ sessionState w' !! sid = None
    /\ trace w' = (trace w ++ teardown_calls_at h w
                           ++ error_notice cbs (lastDisconnect u))%list
    /\ timers w' = timers w.
Proof.
  intros h sid cbs u w Hni (Hc & H401 & H515 & H428). cbv zeta.
  unfold on_connection_update. rewrite Hc.
  rewrite bool_decide_eq_false_2 by assumption. rewrite H401, H515, H428.
  set (w1 := storage_updateSession sid upd_disconnected w).
  destruct (teardown_and_forget_spec h sid w1) as (T1 & T2 & T3 & T4 & _ & _ & _ & T8 & T9).
  destruct (notify_error_frame cbs (lastDisconnect u)
              (registry_delete sid (fst (_cleanupSocketOnly sid h w1))))
    as (N1 & N2 & N3 & N4 & N5 & _ & _ & _ & N9).
  cbv zeta in *.
  split.
  { intros r. rewrite N4, T1. subst w1. unfold storage_updateSession. wsimpl. intros Hr.
    now apply (update_then_read (clock w) sid upd_disconnected false "disconnected"
                 (storage w) upd_disconnected_status r Hr). }
  split.
  { unfold stored_credentials. rewrite N4, T1. subst w1. unfold storage_updateSession.
    wsimpl. apply updateSession_keeps_credentials. }
  split; [rewrite N1, T8; reflexivity|].
  split; [now rewrite N2|]. split; [now rewrite N3|].
  split.
  { rewrite N9, T9. subst w1. unfold storage_updateSession, teardown_calls_at. wsimpl.
    now rewrite <- List.app_assoc. }
  rewrite N5, T2. reflexivity.
Qed.

Lemma ordinary_close_keeps_credentials_witness :
  stored_credentials
    (on_connection_update 0%nat "session_7" sample_callbacks (close_event 408) world_7_open)
  = stored_credentials world_7_open.
Proof.
  refine (proj1 (proj2 (ordinary_close_keeps_credentials 0%nat "session_7" sample_callbacks
             (close_event 408) world_7_open _ _))).
  - apply (bool_decide_unpack _). vm_compute. exact I.
  - split; [reflexivity|]. split; [reflexivity|]. split; reflexivity.
Defined.

Lemma disconnectSession_keeps_credentials_witness :
  stored_credentials (fst (disconnectSession "session_7" false world_7_open))
  = stored_credentials world_7_open.
Proof.
  destruct (disconnectSession_keeps_credentials "session_7" world_7_open)
    as (_ & _ & _ & _ & _ & _ & _ & _ & _ & Hc & _).
  exact Hc.
Defined.

(** X13.  A close event with status code 428 (connection replaced) on a
    session that is not handed off is handled like a logout: the record
    read back is marked disconnected; the credential blobs of the session
    are purged (none remains once the credential backend serves); the
    transport is torn down (the socket object becomes [after_teardown] of
    itself, by exactly the calls of [teardown_calls]: flush when
    buffering, removeAllListeners, ws.close(1000) when the transport is
    open); the registries forget the session; the error callback is
    notified last; and nothing is scheduled. *)
Theorem close_428_purges_credentials :
  forall (h : handle) (sid : string) (cbs : callbacks) (err : error) (w : world),
    sid ∉ handoffComplete w ->
    statusCode err = JNum 428 ->
    let w' := on_connection_update h sid cbs (mkUpdate CClose (Some err)) w in
    record_shows sid (storage w') (shows_status false "disconnected")
    /\ (world_mongo_up w -> credential_count sid w' = 0%nat)
    /\ heap w' = alter after_teardown h (heap w)
    /\ activeSockets w' = delete sid (activeSockets w)
    /\ sessionState w' = delete sid (sessionState w)
    /\ trace w' = (trace w ++ [EvCleanupAuthState sid] ++ teardown_calls_at h w
                           ++ error_notice cbs (Some err))%list
    /\ timers w' = timers w.
Proof.
  intros h sid cbs err w Hni Hcode w'. subst w'.
  rewrite on_close_code by assumption. rewrite Hcode. cbn [strict_eq Z.eqb Pos.eqb].
  pose proof (close_with_purge_spec h sid cbs (mkUpdate CClose (Some err)) w) as H.
  cbv zeta in H. cbn [lastDisconnect] in H.
  destruct H as (H1 & H2 & H3 & H4 & H5 & H6 & H7 & _).
  repeat (split; [assumption|]). assumption.
Qed.

Lemma close_428_purges_credentials_witness :
  credential_count "session_7"
    (on_connection_update 0%nat "session_7" sample_callbacks (close_event 428)
       world_7_open) = 0%nat.
Proof.
  refine (proj1 (proj2 (close_428_purges_credentials 0%nat "session_7" sample_callbacks
            (mkError (JNum 428) (JStr "Connection Failure")) world_7_open _ _)) _).
  - apply (bool_decide_unpack _). vm_compute. exact I.
  - reflexivity.
  - repeat split; vm_compute; reflexivity.
Defined.

(** ** Session manager: the open event *)

Lemma upd_connected_status phone : status_update (upd_connected phone) true "connected".
Proof. repeat split; try reflexivity. discriminate. Qed.

(** X14.  An open event marks what can be read back of the record as
    connected with detected still false, updates the in-process state of
    the session, calls onConnected when given, and schedules exactly one
    handoff for this socket with the configured delay; socket, registry
    and flag sets are left as they are. *)
Theorem open_marks_connected_and_schedules_handoff :
  forall (h : handle) (sid : string) (cbs : callbacks) (ld : option error) (w : world),
    let w' := on_connection_update h sid cbs (mkUpdate COpen ld) w in
    record_shows sid (storage w')
      (fun r => shows_status true "connected" r /\ detected r = JBool false)
    /\ sessionState w'
       = alter (fun e => mkSstate (ss_userId e) (ss_phoneNumber e) (ss_source e)
                                  true "connected" (ss_callbacks e)) sid (sessionState w)
    /\ trace w' = (trace w ++ connected_notice cbs)%list
    /\ timers w' = (timers w ++ [THandoff sid h (handoffTimeout w)])%list
    /\ heap w' = heap w /\ activeSockets w' = activeSockets w
    /\ handoffComplete w' = handoffComplete w.
Proof.
  intros h sid cbs ld w. cbv zeta. unfold on_connection_update. cbn [u_connection].
  set (phone := match heap w !! h with Some s => user_phone s | None => JNull end).
  unfold notify_connected, connected_notice, sessionState_update, storage_updateSession.
  split.
  { intros r Hr.
    assert (Hr' : Coordinator.getSession sid
                    (fst (Coordinator.updateSession (clock w) sid (upd_connected phone)
                            (storage w))) = Some r).
    { destruct (onConnected cbs); exact Hr. }
    destruct (update_then_read (clock w) sid (upd_connected phone) true "connected"
                (storage w) (upd_connected_status phone) r Hr') as [A B].
    split; [exact A|]. now apply B. }
  destruct (onConnected cbs); wsimpl; rewrite ?List.app_nil_r;
    repeat split; reflexivity.
Qed.

(** ** Session manager: the handoff timer after the handoff *)

Lemma after_teardown_not_live s : sock_live (after_teardown s) = false.
Proof. reflexivity. Qed.

(** X15.  Handoff is idempotent: if the timer body runs a second time for
    the same socket after a completed handoff (or after any teardown of
    that socket), it finds the socket not live and changes nothing.  And
    a socket that was torn down has no listener left: an event it still
    emits reaches no handler at all. *)
Theorem handoff_twice_is_noop :
  forall (fault fault' : bool) (sid : string) (h : handle) (u : update) (w : world),
    let w' := _handoffToMainServer fault sid h w in
    _handoffToMainServer fault' sid h w' = w'
    /\ (is_live h w = true -> deliver h u w' = w').
Proof.
  intros fault fault' sid h u w. cbv zeta.
  destruct (is_live h w) eqn:Hlive.
  - assert (Hs : exists s, heap w !! h = Some s).
    { unfold is_live in Hlive. destruct (heap w !! h); [eauto|discriminate]. }
    destruct Hs as [s Hs].
    set (marked := mark_handed_off sid w).
    pose proof (cleanup_heap_same sid h marked s Hs) as Hs'.
    assert (Hheap : heap (_handoffToMainServer fault sid h w) !! h
                    = Some (after_teardown s)).
    { unfold _handoffToMainServer, handoff_resume, handoff_begin.
      rewrite Hlive. cbn [negb].
      destruct fault; wsimpl; exact Hs'. }
    split.
    + apply handoff_not_live. unfold is_live. rewrite Hheap.
      apply after_teardown_not_live.
    + intros _. unfold deliver. rewrite Hheap.
      unfold after_teardown. cbn [ev].
      destruct (ev s) as [e|]; reflexivity.
  - rewrite (handoff_not_live fault sid h w Hlive).
    split; [now apply handoff_not_live|discriminate].
Qed.

Lemma handoff_twice_is_noop_witness :
  deliver 0%nat (close_event 401) world_handed_off = world_handed_off.
Proof.
  refine (proj2 (handoff_twice_is_noop false false "session_42" 0%nat (close_event 401)
                   (advance 15000 world_open)) _).
  vm_compute. reflexivity.
Defined.

(** ** Session manager: createSession from start to end *)

Lemma cs_run_step n a o pc w :
  (forall r, pc <> CsDone r) ->
  cs_run (S n) a o pc w
  = cs_run n a o (snd (cs_step a o pc w)) (fst (cs_step a o pc w)).
Proof.
  intros Hpc. cbn [cs_run].
  destruct pc; try (now destruct (cs_step a o _ w)).
  exfalso. eapply Hpc. reflexivity.
Qed.

Ltac cs_cases :=
  unfold cs_limit_and_mark, call_createConnection, cs_finally, alloc;
  repeat match goal with
         | |- context [if ?c then _ else _] => destruct c
         | |- context [match activeSockets ?w !! ?k with _ => _ end] =>
             destruct (activeSockets w !! k)
         | |- context [match conn ?o with _ => _ end] => destruct (conn o)
         | |- context [match _setupConnectionHandler ?h ?s ?c ?w with _ => _ end] =>
             destruct (_setupConnectionHandler h s c w)
         end.

Lemma cs_step_progress a o pc w :
  (forall r, pc <> CsDone r) ->
  (turns_left (snd (cs_step a o pc w)) < turns_left pc)%nat.
Proof.
  intros Hpc. destruct pc; try (exfalso; eapply Hpc; reflexivity);
    cbn [cs_step]; cs_cases; cbn; lia.
Qed.

Lemma cs_step_done_unmarked a o pc w r :
  (forall r', pc <> CsDone r') ->
  snd (cs_step a o pc w) = CsDone r ->
  session_id_of (arg_userIdStr a) ∉ initializingSessions (fst (cs_step a o pc w)).
Proof.
  intros Hpc. destruct pc; try (exfalso; eapply Hpc; reflexivity);
    cbn [cs_step]; cs_cases; cbn [fst snd];
    try discriminate; intros _; wsimpl; set_solver.
Qed.

Lemma cs_run_settles n a o pc w :
  (turns_left pc <= n)%nat ->
  (forall r, pc <> CsDone r) ->
  exists r, snd (cs_run n a o pc w) = CsDone r
            /\ session_id_of (arg_userIdStr a)
                 ∉ initializingSessions (fst (cs_run n a o pc w)).
Proof.
  revert pc w. induction n as [|n IH]; intros pc w Hn Hpc.
  - destruct pc; cbn in Hn; try lia. exfalso. eapply Hpc. reflexivity.
  - rewrite cs_run_step by assumption.
    pose proof (cs_step_progress a o pc w Hpc) as Hlt.
    destruct (snd (cs_step a o pc w)) as [| | | | | h | r] eqn:Hnext.
    7:{ rewrite cs_run_done. exists r. split; [reflexivity|].
        now apply (cs_step_done_unmarked a o pc w r). }
    all: apply IH; [lia|intros r; discriminate].
Qed.

(** X16.  Every call of createSession that runs without interleaving
    settles: it returns or throws.  Whatever the outcome, and whatever the
    provider answers, the sessionId is not in the initializing set
    afterwards. *)
Theorem createSession_settles_unmarked :
  forall (a : cs_args) (o : oracle) (w : world),
    exists r, snd (createSession a o w) = CsDone r
              /\ session_id_of (arg_userIdStr a)
                   ∉ initializingSessions (fst (createSession a o w)).
Proof.
  intros a o w. unfold createSession. apply cs_run_settles.
  - cbn. lia.
  - intros r. discriminate.
Qed.

(** X17.  The session ceiling: a call for a session that the guards let
    through, made when the socket registry already holds maxSessions
    entries, throws the limit error; the provider is not called and
    nothing changes. *)
Theorem createSession_capacity_exceeded :
  forall (a : cs_args) (o : oracle) (w : world),
    fresh_session (session_id_of (arg_userIdStr a)) w ->
    (maxSessions w <= size (activeSockets w))%nat ->
    createSession a o w = (w, CsDone (Thrown (ErrLimit (maxSessions w)))).
Proof.
  intros a o w (Hni & Hnh & Hreg) Hfull.
  rewrite createSession_first_turn. cbn [cs_step].
  rewrite !bool_decide_eq_false_2 by assumption.
  match goal with
  | |- context [match ?X with Some _ => _ | None => _ end] =>
      replace X with (@None handle) by (symmetry; exact Hreg)
  end.
  unfold cs_limit_and_mark.
  apply Nat.leb_le in Hfull. rewrite Hfull.
  unfold cs_finally. cbn [fst snd]. rewrite cs_run_done.
  now rewrite finally_absent.
Qed.

Lemma createSession_capacity_exceeded_witness :
  createSession args_7 oracle_fresh
    (mkWorld (heap world_created) (next_handle world_created) (activeSockets world_created)
       (sessionState world_created) (initializingSessions world_created)
       (voluntarilyDisconnected world_created) (handoffComplete world_created)
       (storage world_created) [] [] 0 1%nat 15000)
  = (mkWorld (heap world_created) (next_handle world_created) (activeSockets world_created)
       (sessionState world_created) (initializingSessions world_created)
       (voluntarilyDisconnected world_created) (handoffComplete world_created)
       (storage world_created) [] [] 0 1%nat 15000,
     CsDone (Thrown (ErrLimit 1%nat))).
Proof.
  apply (createSession_capacity_exceeded args_7 oracle_fresh
           (mkWorld (heap world_created) (next_handle world_created)
              (activeSockets world_created) (sessionState world_created)
              (initializingSessions world_created) (voluntarilyDisconnected world_created)
              (handoffComplete world_created) (storage world_created) [] [] 0 1%nat 15000)).
  - split; [apply (bool_decide_unpack _); vm_compute; exact I|].
    split; [apply (bool_decide_unpack _); vm_compute; exact I|].
    vm_compute. reflexivity.
  - apply Nat.leb_le. vm_compute. reflexivity.
Defined.

Lemma setup_handler_some h sid cbs w s e :
  heap w !! h = Some s -> ev s = Some e ->
  _setupConnectionHandler h sid cbs w
  = Some (with_heap
            (insert h (mkSock (user s) (readyState s) (ws s)
                              (Some (mkEv (buffering e) (listeners e ++ [(sid, cbs)])))
                              (connectionCallbacks s))) w).
Proof.
  intros Hs He. unfold _setupConnectionHandler. now rewrite Hs, He.
Qed.

(** The turn that receives the provider's socket. *)
Lemma cs_step_create_ok a o w s e :
  conn o = ConnSock s -> ev s = Some e ->
  let sid := session_id_of (arg_userIdStr a) in
  let h := next_handle w in
  let w' := fst (cs_step a o CsAwaitCreate w) in
  snd (cs_step a o CsAwaitCreate w) = CsAwaitSave h
  /\ registered_with_handler sid (arg_callbacks a) h w'
  /\ sessionState w' !! sid
     = Some (mkSstate (arg_userIdStr a) (arg_phoneNumber a) (arg_source a)
                      false "connecting" (arg_callbacks a))
  /\ storage w' = storage w /\ trace w' = trace w /\ timers w' = timers w
  /\ clock w' = clock w
  /\ initializingSessions w' = initializingSessions w.
Proof.
  intros Hc He. cbv zeta. cbn [cs_step]. rewrite Hc. unfold alloc.
  cbv beta iota zeta.
  set (sid := session_id_of (arg_userIdStr a)).
  set (h := next_handle w).
  set (w4 := with_sessionState _ _).
  assert (Hh : heap w4 !! h
               = Some (mkSock (user s) (readyState s) (ws s) (ev s)
                              (Some (arg_callbacks a)))).
  { subst w4. unfold set_connectionCallbacks. wsimpl.
    rewrite lookup_alter_eq, lookup_insert_eq. reflexivity. }
  rewrite (setup_handler_some h sid (arg_callbacks a) w4 _ e Hh He).
  cbn [fst snd]. split; [reflexivity|]. split.
  { split.
    - subst w4. unfold set_connectionCallbacks. wsimpl. apply lookup_insert_eq.
    - wsimpl. rewrite lookup_insert_eq. do 2 eexists.
      split; [reflexivity|]. cbn. split; [reflexivity|].
      split; [apply List.in_or_app; right; now left|reflexivity]. }
  split.
  { subst w4. unfold set_connectionCallbacks. wsimpl. apply lookup_insert_eq. }
  subst w4. unfold set_connectionCallbacks. wsimpl. repeat split; reflexivity.
Qed.

(** X18.  A creation that the guards let through, below the session
    ceiling, with no stale credentials reported and a socket returned by
    the provider: the call returns that socket; the socket is registered
    for the session with the state machine attached and the caller's
    callbacks stored on it; the in-process state of the session is seeded
    as connecting; storage is what saveSession of the coordinator makes of
    the record with the owner id as userId and telegramId, the given phone
    number and source, isConnected = false, connectionStatus connecting,
    reconnectAttempts 0 and detected = false; the provider was asked for
    exactly one connection; no timer is set and the session is no longer
    marked initializing. *)
Theorem createSession_registers_and_persists :
  forall (a : cs_args) (o : oracle) (w : world) (s : sock) (e : evT),
    fresh_session (session_id_of (arg_userIdStr a)) w ->
    (size (activeSockets w) < maxSessions w)%nat ->
    auth_present o = false ->
    conn o = ConnSock s ->
    ev s = Some e ->
    let sid := session_id_of (arg_userIdStr a) in
    let w' := fst (createSession a o w) in
    snd (createSession a o w) = CsDone (Returned (RSock (next_handle w)))
    /\ registered_with_handler sid (arg_callbacks a) (next_handle w) w'
    /\ sessionState w' !! sid
       = Some (mkSstate (arg_userIdStr a) (arg_phoneNumber a) (arg_source a)
                        false "connecting" (arg_callbacks a))
    /\ storage w'
       = fst (Coordinator.saveSession (clock w) sid
                {| sessionId := JUndefined;
                   userId := JStr (arg_userIdStr a);
                   telegramId := JStr (arg_userIdStr a);
                   phoneNumber := arg_phoneNumber a;
                   isConnected := JBool false;
                   connectionStatus := JStr "connecting";
                   reconnectAttempts := JNum 0;
                   source := JStr (arg_source a);
                   detected := JBool false;
                   createdAt := JUndefined;
                   updatedAt := JUndefined |}
                (storage w))
    /\ trace w' = (trace w ++ creation_calls a)%list
    /\ timers w' = timers w
    /\ (sid ∉ initializingSessions w').
Proof.
  intros a o w s e (Hni & Hnh & Hreg) Hroom Hauth Hconn He. cbv zeta.
  set (sid := session_id_of (arg_userIdStr a)) in *.
  (* the state in which the provider is asked for the connection *)
  set (w1 := with_initializing (union {[ sid ]}) w).
  set (wc := emit (EvCreateConnection sid (arg_phoneNumber a) (arg_callbacks a)
                     (arg_allowPairing a))
               (if negb (arg_isReconnect a) && arg_allowPairing a
                then emit (EvCheckAuth sid) w1 else w1)).
  destruct (cs_step_create_ok a o wc s e Hconn He)
    as (P1 & P2 & P3 & P4 & P5 & P6 & P7 & P8).
  fold sid in P2, P3.
  assert (Hrun : createSession a o w
                 = (with_initializing (fun x => x ∖ {[ sid ]})
                      (storage_saveSession sid (initial_record a)
                         (fst (cs_step a o CsAwaitCreate wc))),
                    CsDone (Returned (RSock (next_handle wc))))).
  { assert (Hfrom : forall n, cs_run (S (S n)) a o CsAwaitCreate wc
                              = (with_initializing (fun x => x ∖ {[ sid ]})
                                   (storage_saveSession sid (initial_record a)
                                      (fst (cs_step a o CsAwaitCreate wc))),
                                 CsDone (Returned (RSock (next_handle wc))))).
    { intros n. rewrite cs_run_step by (intros ?; discriminate). rewrite P1.
      rewrite cs_run_step by (intros ?; discriminate).
      cbn [cs_step cs_finally fst snd]. now rewrite cs_run_done. }
    unfold createSession. rewrite cs_run_step by (intros ?; discriminate). cbn [cs_step].
    fold sid. rewrite !bool_decide_eq_false_2 by assumption.
    match goal with
    | |- context [match ?X with Some _ => _ | None => _ end] =>
        replace X with (@None handle) by (symmetry; exact Hreg)
    end.
    unfold cs_limit_and_mark. fold sid.
    assert (Hlt : (maxSessions w <=? size (activeSockets w))%nat = false)
      by (apply Nat.leb_gt; exact Hroom).
    rewrite Hlt. fold w1.
    destruct (negb (arg_isReconnect a) && arg_allowPairing a) eqn:Hb; cbn [fst snd].
    - rewrite cs_run_step by (intros ?; discriminate). cbn [cs_step]. rewrite Hauth.
      unfold call_createConnection. fold sid. cbn [fst snd].
      apply Hfrom.
    - unfold call_createConnection. fold sid. cbn [fst snd].
      apply Hfrom. }
  rewrite Hrun. cbn [fst snd].
  assert (Hnext : next_handle wc = next_handle w)
    by (subst wc w1; destruct (negb (arg_isReconnect a) && arg_allowPairing a); reflexivity).
  assert (Hclock : clock wc = clock w)
    by (subst wc w1; destruct (negb (arg_isReconnect a) && arg_allowPairing a); reflexivity).
  assert (Hstore : storage wc = storage w)
    by (subst wc w1; destruct (negb (arg_isReconnect a) && arg_allowPairing a); reflexivity).
  assert (Htimers : timers wc = timers w)
    by (subst wc w1; destruct (negb (arg_isReconnect a) && arg_allowPairing a); reflexivity).
  assert (Htrace : trace wc = (trace w ++ creation_calls a)%list).
  { subst wc w1. unfold creation_calls. fold sid.
    destruct (negb (arg_isReconnect a) && arg_allowPairing a); wsimpl;
      rewrite <- ?List.app_assoc; reflexivity. }
  rewrite Hnext in *.
  unfold storage_saveSession. wsimpl.
  split; [reflexivity|].
  split; [exact P2|]. split; [exact P3|].
  split; [rewrite P4, P7, Hstore, Hclock; reflexivity|].
  split; [now rewrite P5, Htrace|].
  split; [now rewrite P6, Htimers|].
  set_solver.
Qed.

Lemma createSession_registers_and_persists_witness :
  snd (createSession args_42 oracle_fresh (new_manager sample_storage 0))
  = CsDone (Returned (RSock 0%nat)).
Proof.
  refine (proj1 (createSession_registers_and_persists args_42 oracle_fresh
                   (new_manager sample_storage 0) fresh_sock (mkEv false []) _ _ _ _ _)).
  - split; [apply (bool_decide_unpack _); vm_compute; exact I|].
    split; [apply (bool_decide_unpack _); vm_compute; exact I|].
    vm_compute. reflexivity.
  - apply Nat.ltb_lt. vm_compute. reflexivity.
  - reflexivity.
  - reflexivity.
  - reflexivity.
Defined.

(** X19.  A creation that the guards let through (the session is neither
    initializing, handed off nor registered), below the session ceiling
    and with no stale credentials reported: when the provider returns no
    socket, or throws, the call throws (the creation error, or the
    provider's own); the socket registry, the session state, the sockets
    and storage are as before, so no record is persisted, and the session
    is not left marked as initializing; the only calls made are those to
    the provider. *)
Theorem createSession_failure_leaves_no_trace :
  forall (a : cs_args) (o : oracle) (w : world),
    fresh_session (session_id_of (arg_userIdStr a)) w ->
    (size (activeSockets w) < maxSessions w)%nat ->
    auth_present o = false ->
    conn o = ConnNull \/ conn o = ConnThrow ->
    let w' := fst (createSession a o w) in
    snd (createSession a o w)
    = CsDone (Thrown (match conn o with ConnThrow => ErrProvider | _ => ErrCreateFailed end))
    /\ activeSockets w' = activeSockets w
    /\ sessionState w' = sessionState w
    /\ heap w' = heap w
    /\ storage w' = storage w
    /\ initializingSessions w' = initializingSessions w
    /\ trace w' = (trace w ++ creation_calls a)%list.
Proof.
  intros a o w (Hni & Hnh & Hreg) Hroom Hauth Hconn. cbv zeta.
  set (sid := session_id_of (arg_userIdStr a)) in *.
  assert (Hlt : (maxSessions w <=? size (activeSockets w))%nat = false)
    by (apply Nat.leb_gt; exact Hroom).
  assert (Hfin : forall n wc,
             cs_run (S n) a o CsAwaitCreate wc
             = (with_initializing (fun x => x ∖ {[ sid ]}) wc,
                CsDone (Thrown (match conn o with
                                | ConnThrow => ErrProvider
                                | _ => ErrCreateFailed
                                end)))).
  { intros n wc. rewrite cs_run_step by (intros ?; discriminate). cbn [cs_step].
    fold sid. destruct Hconn as [-> | ->]; unfold cs_finally; cbn [fst snd];
      now rewrite cs_run_done. }
  assert (Hunmark : with_initializing (fun x => x ∖ {[ sid ]})
                      (with_initializing (union {[ sid ]}) w) = w).
  { destruct w; unfold with_initializing; cbn in *. f_equal. set_solver. }
  unfold createSession. rewrite cs_run_step by (intros ?; discriminate). cbn [cs_step].
  fold sid. rewrite !bool_decide_eq_false_2 by assumption.
  match goal with
  | |- context [match ?X with Some _ => _ | None => _ end] =>
      replace X with (@None handle) by (symmetry; exact Hreg)
  end.
  unfold cs_limit_and_mark, creation_calls. fold sid. rewrite Hlt.
  destruct (negb (arg_isReconnect a) && arg_allowPairing a) eqn:Hb; cbn [fst snd].
  - rewrite cs_run_step by (intros ?; discriminate). cbn [cs_step]. rewrite Hauth.
    unfold call_createConnection. fold sid. cbn [fst snd]. rewrite Hfin. cbn [fst snd].
    wsimpl. split; [reflexivity|]. split; [reflexivity|]. split; [reflexivity|].
    split; [reflexivity|]. split; [reflexivity|]. split; [set_solver|].
    now rewrite <- List.app_assoc.
  - unfold call_createConnection. fold sid. cbn [fst snd]. rewrite Hfin. cbn [fst snd].
    wsimpl. split; [reflexivity|]. split; [reflexivity|]. split; [reflexivity|].
    split; [reflexivity|]. split; [reflexivity|]. split; [set_solver|]. reflexivity.
Qed.

Lemma createSession_failure_leaves_no_trace_witness :
  snd (createSession args_42 (mkOracle false ConnNull) (new_manager sample_storage 0))
  = CsDone (Thrown ErrCreateFailed).
Proof.
  refine (proj1 (createSession_failure_leaves_no_trace args_42 (mkOracle false ConnNull)
                   (new_manager sample_storage 0) _ _ _ _)).
  - split; [apply (bool_decide_unpack _); vm_compute; exact I|].
    split; [apply (bool_decide_unpack _); vm_compute; exact I|].
    vm_compute. reflexivity.
  - apply Nat.ltb_lt. vm_compute. reflexivity.
  - reflexivity.
  - left. reflexivity.
Defined.

(** ** Session identifiers *)

Lemma prefix_append p s : String.prefix p (String.append p s) = true.
Proof.
  induction p as [|c r IH]; simpl; [now destruct s|].
  destruct (Ascii.ascii_dec c c) as [_|Hne]; [exact IH|contradiction].
Qed.

(** X20.  The sessionId derived from an owner id always starts with
    session_, and an id that already does is used as it is: deriving is
    idempotent. *)
Theorem session_id_of_prefixed :
  forall userIdStr : string,
    String.prefix "session_" (session_id_of userIdStr) = true
    /\ session_id_of (session_id_of userIdStr) = session_id_of userIdStr
    /\ session_id_of (String.append "session_" userIdStr)
       = String.append "session_" userIdStr.
Proof.
  intros u.
  assert (H1 : String.prefix "session_" (session_id_of u) = true).
  { unfold session_id_of. destruct (String.prefix "session_" u) eqn:E; [exact E|].
    apply prefix_append. }
  split; [exact H1|]. split.
  - unfold session_id_of at 1. now rewrite H1.
  - unfold session_id_of. now rewrite prefix_append.
Qed.
